(** * CineMatch: a shallow embedding of [cinematch.py]

    The program is a Streamlit script around two REST services.  Every value
    it handles is JSON-shaped (provider payloads, the cards it builds, the two
    persisted files), so Python values are embedded as one inductive type
    [json], Python operators as functions on it that return the exception
    Python raises when an operand has the wrong shape, and the recommender's
    methods as computations in a state-and-exception monad over a [world] that
    scripts the replies of the outside services and records what was asked
    and what was shown to the user. *)

From Stdlib Require Import ZArith QArith String Ascii List Bool Lia DecimalString.
Import ListNotations.

Local Open Scope string_scope.
Local Open Scope Z_scope.

(** ** Python values *)

(** A [JStr] holds the code points of a Python [str]; the embedding covers
    code points below 256.  A [JFloat] is a finite float, denoted by the
    rational it stands for: ordering and equality of finite numbers are exact
    in Python, also between [int] and [float].  A [JDict] lists the items of a
    dict in insertion order; its keys are distinct in every value Python
    builds, and every function below that builds or updates one keeps them
    so ([dict_set]). *)
#[warnings="-register-all"]
Inductive json : Type :=
| JNull
| JBool (b : bool)
| JInt (n : Z)
| JFloat (q : Q)
| JStr (s : string)
| JList (l : list json)
| JDict (d : list (string * json)).

Inductive exn : Type :=
| KeyError (key : string)
| TypeError
| AttributeError
| RequestException (msg : string)
| GeminiException (msg : string).

Inductive result (A : Type) : Type :=
| Ok (a : A)
| Raise (e : exn).
Arguments Ok {A} a.
Arguments Raise {A} e.

Definition rbind {A B : Type} (r : result A) (k : A -> result B) : result B :=
  match r with
  | Ok a => k a
  | Raise e => Raise e
  end.

Declare Scope result_scope.
Delimit Scope result_scope with result.
Notation "x <- r ;; k" := (rbind r (fun x => k))
  (at level 61, r at next level, right associativity) : result_scope.

(** [str(v)] and the [{v}] of an f-string.  Python's text for floats and for
    containers is not reproduced here; the embedding takes the conversion as
    an interface with the one law the program relies on: a [str] formats as
    itself. *)
Class PyStr : Type := {
  py_str : json -> string;
  py_str_JStr : forall s : string, py_str (JStr s) = s
}.

(** *** Dict access *)

Fixpoint dict_get (key : string) (d : list (string * json)) : option json :=
  match d with
  | [] => None
  | (k, v) :: rest => if String.eqb k key then Some v else dict_get key rest
  end.

(** [d[key] = v]: an existing key keeps its position, a new one goes last. *)
Fixpoint dict_set (key : string) (v : json) (d : list (string * json))
  : list (string * json) :=
  match d with
  | [] => [(key, v)]
  | (k, w) :: rest =>
      if String.eqb k key then (k, v) :: rest else (k, w) :: dict_set key v rest
  end.

(** [bool(v)] *)
Definition truthy (v : json) : bool :=
  match v with
  | JNull => false
  | JBool b => b
  | JInt n => negb (n =? 0)
  | JFloat q => negb (Qeq_bool q 0)
  | JStr s => negb (String.eqb s "")
  | JList l => match l with [] => false | _ => true end
  | JDict d => match d with [] => false | _ => true end
  end.

(** [v[key]] with a [str] key. *)
Definition subscript (v : json) (key : string) : result json :=
  match v with
  | JDict d =>
      match dict_get key d with
      | Some x => Ok x
      | None => Raise (KeyError key)
      end
  | _ => Raise TypeError
  end.

(** [v.get(key, default)] *)
Definition method_get (v : json) (key : string) (default : json) : result json :=
  match v with
  | JDict d =>
      match dict_get key d with
      | Some x => Ok x
      | None => Ok default
      end
  | _ => Raise AttributeError
  end.

(** [v == s] for a [str] literal [s]. *)
Definition eq_str (v : json) (s : string) : bool :=
  match v with
  | JStr t => String.eqb t s
  | _ => false
  end.

(** The number a value stands for in a comparison ([bool] is an [int]). *)
Definition number (v : json) : option Q :=
  match v with
  | JBool b => Some (if b then 1%Q else 0%Q)
  | JInt n => Some (inject_Z n)
  | JFloat q => Some q
  | _ => None
  end.

(** [a == b] *)
Fixpoint py_eq (a b : json) {struct a} : bool :=
  match number a, number b with
  | Some x, Some y => Qeq_bool x y
  | _, _ =>
      match a, b with
      | JNull, JNull => true
      | JStr s, JStr t => String.eqb s t
      | JList l, JList m =>
          (fix all2 (l m : list json) {struct l} : bool :=
             match l, m with
             | [], [] => true
             | x :: l', y :: m' => py_eq x y && all2 l' m'
             | _, _ => false
             end) l m
      | JDict d, JDict e =>
          Nat.eqb (length d) (length e) &&
          (fix sub (d : list (string * json)) {struct d} : bool :=
             match d with
             | [] => true
             | (k, x) :: d' =>
                 match dict_get k e with
                 | Some y => py_eq x y && sub d'
                 | None => false
                 end
             end) d
      | _, _ => false
      end
  end.

(** *** Strings *)

(** [str.isspace] on one code point below 256. *)
Definition py_isspace (c : ascii) : bool :=
  let n := N_of_ascii c in
  ((9 <=? n) && (n <=? 13) || (28 <=? n) && (n <=? 32)
   || (n =? 133) || (n =? 160))%N.

Fixpoint lstrip (s : string) : string :=
  match s with
  | EmptyString => EmptyString
  | String c rest => if py_isspace c then lstrip rest else s
  end.

Fixpoint rstrip (s : string) : string :=
  match s with
  | EmptyString => EmptyString
  | String c rest =>
      match rstrip rest with
      | EmptyString => if py_isspace c then EmptyString else String c EmptyString
      | r => String c r
      end
  end.

(** [s.strip()] *)
Definition strip (s : string) : string := rstrip (lstrip s).

(** [v.strip()] *)
Definition method_strip (v : json) : result string :=
  match v with
  | JStr s => Ok (strip s)
  | _ => Raise AttributeError
  end.

(** [s.split(sep)] for a one-character separator: never empty. *)
Fixpoint split (sep : ascii) (s : string) : list string :=
  match s with
  | EmptyString => [EmptyString]
  | String c rest =>
      if Ascii.eqb c sep then EmptyString :: split sep rest
      else match split sep rest with
           | [] => [String c EmptyString]
           | piece :: pieces => String c piece :: pieces
           end
  end.

Fixpoint chars (s : string) : list string :=
  match s with
  | EmptyString => []
  | String c rest => String c EmptyString :: chars rest
  end.

Fixpoint take_chars (n : nat) (s : string) : string :=
  match n, s with
  | S n', String c rest => String c (take_chars n' rest)
  | _, _ => EmptyString
  end.

Fixpoint is_prefix (p s : string) : bool :=
  match p, s with
  | EmptyString, _ => true
  | String a p', String b s' => Ascii.eqb a b && is_prefix p' s'
  | String _ _, EmptyString => false
  end.

(** [p in s] on two strings. *)
Fixpoint is_substring (p s : string) : bool :=
  is_prefix p s ||
  match s with
  | EmptyString => false
  | String _ s' => is_substring p s'
  end.

(** [sep.join(pieces)] *)
Fixpoint join (sep : string) (pieces : list string) : string :=
  match pieces with
  | [] => ""
  | [p] => p
  | p :: rest => p ++ sep ++ join sep rest
  end.

Definition mem_str (s : string) (l : list string) : bool :=
  existsb (String.eqb s) l.

(** *** Containers *)

(** [key in v] for a [str] key. *)
Definition py_contains (v : json) (key : string) : result bool :=
  match v with
  | JDict d => Ok (match dict_get key d with Some _ => true | None => false end)
  | JList l => Ok (existsb (fun x => eq_str x key) l)
  | JStr s => Ok (is_substring key s)
  | _ => Raise TypeError
  end.

(** The items a [for] loop visits. *)
Definition py_iter (v : json) : result (list json) :=
  match v with
  | JList l => Ok l
  | JDict d => Ok (map (fun kv => JStr (fst kv)) d)
  | JStr s => Ok (map JStr (chars s))
  | _ => Raise TypeError
  end.

(** [v[:n]] for [n >= 0]. *)
Definition slice_to (n : nat) (v : json) : result json :=
  match v with
  | JList l => Ok (JList (firstn n l))
  | JStr s => Ok (JStr (take_chars n s))
  | _ => Raise TypeError
  end.

(** [a >= b] against a float [b]. *)
Definition py_ge (a : json) (b : Q) : result bool :=
  match number a with
  | Some x => Ok (Qle_bool b x)
  | None => Raise TypeError
  end.

(** ** The outside world *)

(** What [requests.get(url, params)] followed by [raise_for_status()] and
    [json()] comes to: a [RequestException] (connection errors, HTTP error
    statuses, and a body that is not JSON, which [requests] reports as a
    subclass of it) or the parsed body. *)
Inductive http_reply : Type :=
| HttpFailure (msg : string)
| HttpBody (body : json).

(** What [model.generate_content(prompt)] and reading [response.text] come
    to. *)
Inductive gen_reply : Type :=
| GenFailure (msg : string)
| GenText (text : string).

Inductive event : Type :=
| HttpGet (url : string) (params : list (string * json)) (reply : http_reply)
| GenerateContent (model prompt : string) (reply : gen_reply).

(** [st.error(f"{prefix}{e}")] and [st.warning(text)]. *)
Inductive message : Type :=
| StError (prefix : string) (e : exn)
| StWarning (text : string).

(** The services answer each call with the next reply of their script, so a
    statement over all worlds is a statement over every behaviour of the
    services; an exhausted script is a service that cannot be reached.  The
    trace lists the calls made so far with their replies, oldest first, and
    [messages] what was shown to the user. *)
Record world : Type := {
  http_script : list http_reply;
  gen_script : list gen_reply;
  trace : list event;
  messages : list message
}.

Definition M (A : Type) : Type := world -> result A * world.

Definition ret {A : Type} (a : A) : M A := fun w => (Ok a, w).

Definition bind {A B : Type} (m : M A) (k : A -> M B) : M B :=
  fun w =>
    match m w with
    | (Ok a, w') => k a w'
    | (Raise e, w') => (Raise e, w')
    end.

Definition lift {A : Type} (r : result A) : M A := fun w => (r, w).

Declare Scope m_scope.
Delimit Scope m_scope with m.
Notation "x <- m ;; k" := (bind m (fun x => k))
  (at level 61, m at next level, right associativity) : m_scope.

(** [try: body  except requests.RequestException as e: handler] *)
Definition except_request {A : Type} (body : M A) (handler : exn -> M A) : M A :=
  fun w =>
    match body w with
    | (Raise (RequestException msg), w') => handler (RequestException msg) w'
    | r => r
    end.

(** [try: body  except Exception as e: handler] *)
Definition except_any {A : Type} (body : M A) (handler : exn -> M A) : M A :=
  fun w =>
    match body w with
    | (Raise e, w') => handler e w'
    | r => r
    end.

Definition st_error (prefix : string) (e : exn) : M unit :=
  fun w => (Ok tt, {| http_script := http_script w; gen_script := gen_script w;
                      trace := trace w;
                      messages := messages w ++ [StError prefix e] |}).

Definition st_warning (text : string) : M unit :=
  fun w => (Ok tt, {| http_script := http_script w; gen_script := gen_script w;
                      trace := trace w;
                      messages := messages w ++ [StWarning text] |}).

Definition unreachable : string := "connection failed".

(** The reply the next HTTP call gets. *)
Definition next_http (w : world) : http_reply :=
  match http_script w with
  | [] => HttpFailure unreachable
  | reply :: _ => reply
  end.

Definition next_gen (w : world) : gen_reply :=
  match gen_script w with
  | [] => GenFailure unreachable
  | reply :: _ => reply
  end.

(** [response = requests.get(url, params=params); response.raise_for_status();
    response.json()] *)
Definition requests_get_json (url : string) (params : list (string * json)) : M json :=
  fun w =>
    let reply := next_http w in
    let w' := {| http_script := tl (http_script w); gen_script := gen_script w;
                 trace := trace w ++ [HttpGet url params reply];
                 messages := messages w |} in
    match reply with
    | HttpFailure msg => (Raise (RequestException msg), w')
    | HttpBody body => (Ok body, w')
    end.

(** [genai.GenerativeModel(model).generate_content(prompt).text] *)
Definition generate_content_text (model prompt : string) : M string :=
  fun w =>
    let reply := next_gen w in
    let w' := {| http_script := http_script w; gen_script := tl (gen_script w);
                 trace := trace w ++ [GenerateContent model prompt reply];
                 messages := messages w |} in
    match reply with
    | GenFailure msg => (Raise (GeminiException msg), w')
    | GenText text => (Ok text, w')
    end.

(** ** class MovieRecommender *)

(** The two attributes [setup_apis] assigns; [None] before it runs. *)
Record MovieRecommender : Type := {
  tmdb_api_key : option string;
  gemini_api_key : option string
}.

(** [__init__] *)
Definition new_recommender : MovieRecommender :=
  {| tmdb_api_key := None; gemini_api_key := None |}.

Definition base_url : string := "https://api.themoviedb.org/3".
Definition image_base_url : string := "https://image.tmdb.org/t/p/w500".

Definition self_genres : list (string * Z) :=
  [("Action", 28); ("Adventure", 12); ("Animation", 16); ("Comedy", 35);
   ("Crime", 80); ("Documentary", 99); ("Drama", 18); ("Family", 10751);
   ("Fantasy", 14); ("History", 36); ("Horror", 27); ("Music", 10402);
   ("Mystery", 9648); ("Romance", 10749); ("Science Fiction", 878);
   ("TV Movie", 10770); ("Thriller", 53); ("War", 10752); ("Western", 37)].

Definition self_age_ratings : list (string * string) :=
  [("G", "G"); ("PG", "PG"); ("PG-13", "PG-13"); ("R", "R"); ("NC-17", "NC-17")].

Fixpoint assoc {V : Type} (key : string) (d : list (string * V)) : option V :=
  match d with
  | [] => None
  | (k, v) :: rest => if String.eqb k key then Some v else assoc key rest
  end.

(** [bool(key)] for an attribute that is [None] or a [str]. *)
Definition key_set (key : option string) : bool :=
  match key with
  | None => false
  | Some k => negb (String.eqb k "")
  end.

Definition setup_apis (self : MovieRecommender) (tmdb_key gemini_key : option string)
  : MovieRecommender :=
  {| tmdb_api_key := tmdb_key;
     gemini_api_key := if key_set gemini_key then gemini_key
                       else gemini_api_key self |}.

Definition key_json (key : option string) : json :=
  match key with
  | None => JNull
  | Some k => JStr k
  end.

Definition not_rated : string := "Not Rated".

(** The inner loop of [get_age_rating_from_details]: [Some c] when it
    returns [c], [None] when it runs to its end. *)
Fixpoint scan_releases (releases : list json) : result (option json) :=
  match releases with
  | [] => Ok None
  | release :: rest =>
      (certification <- method_get release "certification" JNull ;;
       if truthy certification then
         stripped <- method_strip certification ;;
         if truthy (JStr stripped) then Ok (Some certification)
         else scan_releases rest
       else scan_releases rest)%result
  end.

Fixpoint scan_countries (countries : list json) : result (option json) :=
  match countries with
  | [] => Ok None
  | country :: rest =>
      (iso <- subscript country "iso_3166_1" ;;
       if eq_str iso "US" then
         dates <- subscript country "release_dates" ;;
         releases <- py_iter dates ;;
         found <- scan_releases releases ;;
         match found with
         | Some certification => Ok (Some certification)
         | None => scan_countries rest
         end
       else scan_countries rest)%result
  end.

Definition get_age_rating_from_details (movie_details : json) : result json :=
  if negb (truthy movie_details) then Ok (JStr not_rated)
  else
    (present <- py_contains movie_details "release_dates" ;;
     if negb present then Ok (JStr not_rated)
     else
       release_dates <- subscript movie_details "release_dates" ;;
       results <- subscript release_dates "results" ;;
       countries <- py_iter results ;;
       found <- scan_countries countries ;;
       match found with
       | Some certification => Ok certification
       | None => Ok (JStr not_rated)
       end)%result.

(** The age-rating block of [format_movie_card]: the inner loop breaks at the
    first release with a truthy certification, the outer loop breaks after
    the first US entry whatever the inner loop found. *)
Fixpoint card_scan_releases (releases : list json) (age_rating : json) : result json :=
  match releases with
  | [] => Ok age_rating
  | release :: rest =>
      (certification <- method_get release "certification" JNull ;;
       if truthy certification then subscript release "certification"
       else card_scan_releases rest age_rating)%result
  end.

Fixpoint card_scan_countries (countries : list json) (age_rating : json) : result json :=
  match countries with
  | [] => Ok age_rating
  | country :: rest =>
      (iso <- subscript country "iso_3166_1" ;;
       if eq_str iso "US" then
         dates <- subscript country "release_dates" ;;
         releases <- py_iter dates ;;
         card_scan_releases releases age_rating
       else card_scan_countries rest age_rating)%result
  end.

Definition card_age_rating (movie_details : json) : result json :=
  let age_rating := JStr not_rated in
  if negb (truthy movie_details) then Ok age_rating
  else
    (present <- py_contains movie_details "release_dates" ;;
     if negb present then Ok age_rating
     else
       release_dates <- subscript movie_details "release_dates" ;;
       results <- subscript release_dates "results" ;;
       countries <- py_iter results ;;
       card_scan_countries countries age_rating)%result.

Section Recommender.
Context `{PyStr}.
Variable self : MovieRecommender.

Definition search_movies (query : string) : M json :=
  if negb (key_set (tmdb_api_key self)) then ret (JList [])
  else
    let url := base_url ++ "/search/movie" in
    let params := [("api_key", key_json (tmdb_api_key self));
                   ("query", JStr query);
                   ("language", JStr "en-US")] in
    except_request
      (response <- requests_get_json url params ;;
       lift (method_get response "results" (JList [])))%m
      (fun e => _ <- st_error "Error searching movies: " e ;; ret (JList []))%m.

Definition get_movie_details (movie_id : json) : M json :=
  if negb (key_set (tmdb_api_key self)) then ret JNull
  else
    let url := base_url ++ "/movie/" ++ py_str movie_id in
    let params := [("api_key", key_json (tmdb_api_key self));
                   ("append_to_response", JStr "watch/providers,release_dates,videos")] in
    except_request
      (requests_get_json url params)
      (fun e => _ <- st_error "Error getting movie details: " e ;; ret JNull)%m.

(** The loop of [get_movie_trailer] over the video list. *)
Fixpoint find_trailer (videos : list json) : result json :=
  match videos with
  | [] => Ok JNull
  | video :: rest =>
      (site <- method_get video "site" JNull ;;
       if eq_str site "YouTube" then
         type <- method_get video "type" JNull ;;
         if eq_str type "Trailer" then
           key <- subscript video "key" ;;
           Ok (JStr ("https://www.youtube.com/embed/" ++ py_str key))
         else find_trailer rest
       else find_trailer rest)%result
  end.

Definition get_movie_trailer (movie_id : json) : M json :=
  if negb (key_set (tmdb_api_key self)) then ret JNull
  else
    let url := base_url ++ "/movie/" ++ py_str movie_id ++ "/videos" in
    let params := [("api_key", key_json (tmdb_api_key self));
                   ("language", JStr "en-US")] in
    except_request
      (response <- requests_get_json url params ;;
       videos <- lift (method_get response "results" (JList [])) ;;
       items <- lift (py_iter videos) ;;
       lift (find_trailer items))%m
      (fun e => ret JNull).

(** The client-side loop of [discover_movies] over the server's results. *)
Fixpoint filter_results (age_ratings : list string) (results : list json) : M (list json) :=
  match results with
  | [] => ret []
  | movie :: rest =>
      (movie_id <- lift (subscript movie "id") ;;
       movie_details <- get_movie_details movie_id ;;
       if truthy movie_details then
         movie_age_rating <- lift (get_age_rating_from_details movie_details) ;;
         if existsb (eq_str movie_age_rating) age_ratings
            || eq_str movie_age_rating not_rated
         then filtered <- filter_results age_ratings rest ;; ret (movie :: filtered)
         else filter_results age_ratings rest
       else filter_results age_ratings rest)%m
  end.

Definition cert_mapping : list (string * string) :=
  [("G", "G"); ("PG", "PG"); ("PG-13", "PG-13"); ("R", "R"); ("NC-17", "NC-17")].

Definition nonempty {A : Type} (l : list A) : bool :=
  match l with
  | [] => false
  | _ :: _ => true
  end.

(** The query parameters [discover_movies] sends.  [year] is [None] or an
    [int]; [genres] and [age_ratings] are the lists of the two multiselects
    ([None] and the empty list take the same branches). *)
Definition discover_params (genres : list string) (year : option Z)
    (age_ratings : list string) (sort_by : string) (page : Z)
  : list (string * json) :=
  let params := [("api_key", key_json (tmdb_api_key self));
                 ("sort_by", JStr sort_by);
                 ("page", JInt page);
                 ("language", JStr "en-US")] in
  let params :=
    if nonempty genres then
      let genre_ids :=
        flat_map (fun g => match assoc g self_genres with
                           | Some id => [py_str (JInt id)]
                           | None => []
                           end) genres in
      if nonempty genre_ids
      then dict_set "with_genres" (JStr (join "," genre_ids)) params
      else params
    else params in
  let params :=
    match year with
    | Some y => if y =? 0 then params else dict_set "year" (JInt y) params
    | None => params
    end in
  if nonempty age_ratings then
    let certifications :=
      map (fun rating => match assoc rating cert_mapping with
                         | Some c => c
                         | None => rating
                         end) age_ratings in
    if nonempty certifications
    then dict_set "certification" (JStr (join "|" certifications))
           (dict_set "certification_country" (JStr "US") params)
    else params
  else params.

Definition discover_movies (genres : list string) (year : option Z)
    (age_ratings : list string) (sort_by : string) (page : Z) : M json :=
  if negb (key_set (tmdb_api_key self)) then ret (JList [])
  else
    let url := base_url ++ "/discover/movie" in
    let params := discover_params genres year age_ratings sort_by page in
    except_request
      (response <- requests_get_json url params ;;
       results <- lift (method_get response "results" (JList [])) ;;
       if nonempty age_ratings && truthy results then
         items <- lift (py_iter results) ;;
         filtered_results <- filter_results age_ratings items ;;
         ret (JList filtered_results)
       else ret results)%m
      (fun e => _ <- st_error "Error discovering movies: " e ;; ret (JList []))%m.

Definition nl : string := String "010"%char EmptyString.
Definition dquote : string := String "034"%char EmptyString.
Definition indent : string := "            ".

(** The f-string of [get_gemini_recommendations]. *)
Definition gemini_prompt (description : string) : string :=
  nl ++ indent ++ "Based on this description: " ++ dquote ++ description ++ dquote
  ++ nl ++ indent
  ++ nl ++ indent ++ "Recommend 10 movies that match this description or mood. "
  ++ nl ++ indent
  ++ "Return only movie titles, one per line, no explanations or numbering."
  ++ nl ++ indent
  ++ "Focus on popular, well-known movies that are likely to be in movie databases."
  ++ nl ++ indent.

(** [[title.strip() for title in text.split('\n') if title.strip()]] *)
Definition parse_titles (text : string) : list string :=
  map strip (filter (fun title => truthy (JStr (strip title))) (split "010"%char text)).

(** The search loop of [get_gemini_recommendations]; [extend] appends the
    items of its argument. *)
Fixpoint search_titles (titles : list string) (recommendations : list json)
  : M (list json) :=
  match titles with
  | [] => ret recommendations
  | title :: rest =>
      (movies <- search_movies title ;;
       if truthy movies then
         first <- lift (slice_to 1 movies) ;;
         items <- lift (py_iter first) ;;
         search_titles rest (recommendations ++ items)%list
       else search_titles rest recommendations)%m
  end.

Definition get_gemini_recommendations (description : string) : M json :=
  if negb (key_set (gemini_api_key self)) then
    (_ <- st_warning "Gemini API key not provided. Skipping AI recommendations." ;;
     ret (JList []))%m
  else
    except_any
      (text <- generate_content_text "gemini-1.5-flash" (gemini_prompt description) ;;
       let movie_titles := parse_titles text in
       recommendations <- search_titles (firstn 5 movie_titles) [] ;;
       ret (JList recommendations))%m
      (fun e => _ <- st_error "Error with Gemini AI: " e ;; ret (JList []))%m.

(** The inner loop of [get_streaming_providers]. *)
Fixpoint provider_entries (provider_type : string) (listed : list json)
  : result (list json) :=
  match listed with
  | [] => Ok []
  | provider :: rest =>
      (name <- subscript provider "provider_name" ;;
       logo_path <- subscript provider "logo_path" ;;
       more <- provider_entries provider_type rest ;;
       Ok (JDict [("name", name);
                  ("type", JStr provider_type);
                  ("logo", JStr ("https://image.tmdb.org/t/p/w45" ++ py_str logo_path))]
           :: more))%result
  end.

Fixpoint providers_by_type (provider_types : list string) (us_providers : json)
  : result (list json) :=
  match provider_types with
  | [] => Ok []
  | provider_type :: rest =>
      (present <- py_contains us_providers provider_type ;;
       here <- (if present then
                  listed <- subscript us_providers provider_type ;;
                  items <- py_iter listed ;;
                  provider_entries provider_type items
                else Ok []) ;;
       more <- providers_by_type rest us_providers ;;
       Ok (here ++ more)%list)%result
  end.

Definition get_streaming_providers (movie_id : json) : M json :=
  if negb (key_set (tmdb_api_key self)) then ret (JList [])
  else
    let url := base_url ++ "/movie/" ++ py_str movie_id ++ "/watch/providers" in
    let params := [("api_key", key_json (tmdb_api_key self))] in
    except_request
      (data <- requests_get_json url params ;;
       results <- lift (method_get data "results" (JDict [])) ;;
       us_providers <- lift (method_get results "US" (JDict [])) ;;
       providers <- lift (providers_by_type ["flatrate"; "rent"; "buy"] us_providers) ;;
       ret (JList providers))%m
      (fun e => ret (JList [])).

Definition format_movie_card (movie : json) : M json :=
  (poster_path <- lift (method_get movie "poster_path" JNull) ;;
   poster_url <-
     (if truthy poster_path then
        shown <- lift (method_get movie "poster_path" (JStr "")) ;;
        ret (image_base_url ++ py_str shown)
      else ret "https://via.placeholder.com/500x750?text=No+Poster") ;;
   id1 <- lift (subscript movie "id") ;;
   movie_details <- get_movie_details id1 ;;
   id2 <- lift (subscript movie "id") ;;
   streaming_providers <- get_streaming_providers id2 ;;
   id3 <- lift (subscript movie "id") ;;
   trailer_url <- get_movie_trailer id3 ;;
   rating <- lift (method_get movie "vote_average" (JInt 0)) ;;
   release_date <- lift (method_get movie "release_date" JNull) ;;
   year <-
     (if truthy release_date then
        shown <- lift (method_get movie "release_date" (JStr "")) ;;
        lift (slice_to 4 shown)
      else ret (JStr "N/A")) ;;
   age_rating <- lift (card_age_rating movie_details) ;;
   title <- lift (method_get movie "title" (JStr "Unknown Title")) ;;
   overview <- lift (method_get movie "overview" (JStr "No description available.")) ;;
   id4 <- lift (subscript movie "id") ;;
   ret (JDict [("title", title);
               ("poster_url", JStr poster_url);
               ("year", year);
               ("rating", rating);
               ("age_rating", age_rating);
               ("overview", overview);
               ("streaming_providers", streaming_providers);
               ("trailer_url", trailer_url);
               ("id", id4)]))%m.

End Recommender.

(** ** The Filter/Sort stage of [main] *)

(** The loop that fills [filtered_recommendations]. *)
Fixpoint keep_rated (min_rating : Q) (movies : list json) : result (list json) :=
  match movies with
  | [] => Ok []
  | movie :: rest =>
      (vote_average <- method_get movie "vote_average" (JInt 0) ;;
       keep <- py_ge vote_average min_rating ;;
       more <- keep_rated min_rating rest ;;
       Ok (if keep then movie :: more else more))%result
  end.

(** [max_results] is one of the options 10, 20, 50, 100 of the select box, so
    the slice [[:max_results]] keeps a prefix. *)
Definition filtered_recommendations (recommendations : json) (min_rating : Q)
    (max_results : nat) : result (list json) :=
  (movies <- py_iter recommendations ;;
   kept <- keep_rated min_rating movies ;;
   Ok (firstn max_results kept))%result.

(** ** Favorites and ratings *)

(** One persisted file as [json.load] sees it: absent, present but not
    readable as JSON, or holding a JSON document. *)
Inductive file : Type :=
| NoFile
| Garbled
| JsonFile (content : json).

(** [writable] is whether [open(name, 'w')] succeeds. *)
Record disk : Type := {
  writable : bool;
  favorites_json : file;
  user_ratings_json : file
}.

Record session_state : Type := {
  recommendations : json;
  favorites : json;
  dark_mode : bool;
  user_ratings : json
}.

Definition load_favorites (d : disk) : json :=
  match favorites_json d with
  | JsonFile content => content
  | _ => JList []
  end.

(** [json.dump] writes a document that [json.load] reads back as the same
    value; a failure to open the file is swallowed and leaves it as it was. *)
Definition save_favorites (s : session_state) (d : disk) : disk :=
  if writable d then
    {| writable := true;
       favorites_json := JsonFile (favorites s);
       user_ratings_json := user_ratings_json d |}
  else d.

Definition load_user_ratings (d : disk) : json :=
  match user_ratings_json d with
  | JsonFile content => content
  | _ => JDict []
  end.

Definition save_user_ratings (s : session_state) (d : disk) : disk :=
  if writable d then
    {| writable := true;
       favorites_json := favorites_json d;
       user_ratings_json := JsonFile (user_ratings s) |}
  else d.

(** The session-state initialisation at the top of the script, on the first
    run of a session. *)
Definition init_session_state (d : disk) : session_state :=
  {| recommendations := JList [];
     favorites := load_favorites d;
     dark_mode := false;
     user_ratings := load_user_ratings d |}.

(** How a block of the script ends: it falls through, or [st.rerun()] stops
    the run. *)
Inductive flow : Type :=
| Continue
| Rerun.

(** [i <= v] and [v > 0] for an [int] [i]. *)
Definition py_int_le (i : Z) (v : json) : result bool :=
  match number v with
  | Some x => Ok (Qle_bool (inject_Z i) x)
  | None => Raise TypeError
  end.

Definition py_positive (v : json) : result bool :=
  match number v with
  | Some x => Ok (negb (Qle_bool x 0))
  | None => Raise TypeError
  end.

(** [v[key] = x] with a [str] key. *)
Definition item_assign (v : json) (key : string) (x : json) : result json :=
  match v with
  | JDict d => Ok (JDict (dict_set key x d))
  | _ => Raise TypeError
  end.

(** [v.append(x)] *)
Definition method_append (v : json) (x : json) : result json :=
  match v with
  | JList l => Ok (JList (l ++ [x]))
  | _ => Raise AttributeError
  end.

(** [text * v] for a [str] [text]: defined for [int] and [bool] only.  The
    count is taken to be one whose repetition fits in memory, as every
    rating the widget stores is; past that Python raises [OverflowError] or
    [MemoryError], which the embedding does not have. *)
Definition repeatable (v : json) : result unit :=
  match v with
  | JInt _ | JBool _ => Ok tt
  | _ => Raise TypeError
  end.

Section Session.
Context `{PyStr}.

(** The loop of [display_star_rating] over the five star buttons.
    [pressed i] is what [st.button] returns for star [i] in this run. *)
Fixpoint star_buttons (movie_id current_rating : json) (pressed : Z -> bool)
    (stars : list Z) (s : session_state) (d : disk)
  : result (flow * session_state * disk) :=
  match stars with
  | [] => Ok (Continue, s, d)
  | i :: rest =>
      (filled <- py_int_le i current_rating ;;
       if pressed i then
         rated <- item_assign (user_ratings s) (py_str movie_id) (JInt i) ;;
         let s' := {| recommendations := recommendations s;
                      favorites := favorites s;
                      dark_mode := dark_mode s;
                      user_ratings := rated |} in
         Ok (Rerun, s', save_user_ratings s' d)
       else star_buttons movie_id current_rating pressed rest s d)%result
  end.

(** [st.session_state.user_ratings.get(str(movie_id), 0)] *)
Definition current_rating (movie_id : json) (s : session_state) : result json :=
  method_get (user_ratings s) (py_str movie_id) (JInt 0).

(** The widgets drawn are not recorded, only what drawing them can raise. *)
Definition display_star_rating (movie_id : json) (pressed : Z -> bool)
    (s : session_state) (d : disk) : result (flow * session_state * disk) :=
  (rating <- current_rating movie_id s ;;
   after <- star_buttons movie_id rating pressed [1; 2; 3; 4; 5] s d ;;
   match after with
   | (Rerun, _, _) => Ok after
   | (Continue, _, _) =>
       positive <- py_positive rating ;;
       _ <- (if positive then repeatable rating else Ok tt) ;;
       Ok after
   end)%result.

End Session.

(** [any(fav['id'] == movie_card['id'] for fav in favorites)] *)
Fixpoint any_same_id (favs : list json) (movie_card : json) : result bool :=
  match favs with
  | [] => Ok false
  | fav :: rest =>
      (fav_id <- subscript fav "id" ;;
       card_id <- subscript movie_card "id" ;;
       if py_eq fav_id card_id then Ok true else any_same_id rest movie_card)%result
  end.

(** The favorites column of a recommendation card in [main]: the button is
    drawn only when the card is not a favorite yet, under a key that is
    built from [movie_card['id']]; [pressed] is what [st.button] returns for
    it in this run. *)
Definition add_to_favorites (movie_card : json) (pressed : bool)
    (s : session_state) (d : disk) : result (flow * session_state * disk) :=
  (favs <- py_iter (favorites s) ;;
   is_favorite <- any_same_id favs movie_card ;;
   if negb is_favorite then
     key_id <- subscript movie_card "id" ;;
     if pressed then
       added <- method_append (favorites s) movie_card ;;
       let s' := {| recommendations := recommendations s;
                    favorites := added;
                    dark_mode := dark_mode s;
                    user_ratings := user_ratings s |} in
       Ok (Rerun, s', save_favorites s' d)
     else Ok (Continue, s, d)
   else Ok (Continue, s, d))%result.

(** ** Vocabulary of the statements *)

(** [out] is [l] with some items dropped, the others in their order. *)
Inductive subsequence {A : Type} : list A -> list A -> Prop :=
| subsequence_nil : subsequence [] []
| subsequence_keep : forall x out l, subsequence out l -> subsequence (x :: out) (x :: l)
| subsequence_drop : forall x out l, subsequence out l -> subsequence out (x :: l).

(** A candidate the Filter/Sort stage can rate: a dict whose [vote_average],
    when it has one, is a number. *)
Definition rated_candidate (movie : json) : bool :=
  match movie with
  | JDict d =>
      match dict_get "vote_average" d with
      | Some v => match number v with Some _ => true | None => false end
      | None => true
      end
  | _ => false
  end.

(** The rating the stage compares: [vote_average], 0 without one. *)
Definition rating_of (movie : json) : option Q :=
  match movie with
  | JDict d =>
      match dict_get "vote_average" d with
      | Some v => number v
      | None => Some 0%Q
      end
  | _ => None
  end.

Definition meets (min_rating : Q) (movie : json) : bool :=
  match rating_of movie with
  | Some x => Qle_bool min_rating x
  | None => false
  end.

Definition below (min_rating : Q) (movie : json) : Prop :=
  exists x, rating_of movie = Some x /\ (x < min_rating)%Q.

Definition lacks_vote_average (movie : json) : Prop :=
  exists d, movie = JDict d /\ dict_get "vote_average" d = None.

(** A video entry the trailer loop passes over: a dict that is not a
    YouTube trailer. *)
Definition field_or_null (key : string) (v : json) : json :=
  match v with
  | JDict d => match dict_get key d with Some x => x | None => JNull end
  | _ => JNull
  end.

Definition youtube_trailer (video : json) : bool :=
  match video with
  | JDict _ =>
      eq_str (field_or_null "site" video) "YouTube"
      && eq_str (field_or_null "type" video) "Trailer"
  | _ => false
  end.

Definition passed_over (video : json) : bool :=
  match video with
  | JDict _ => negb (youtube_trailer video)
  | _ => false
  end.

Definition embed_url `{PyStr} (key : json) : json :=
  JStr ("https://www.youtube.com/embed/" ++ py_str key).

(** The release-date block of a detail object, read leniently: what is not
    there counts as empty. *)
Definition entries_of (v : json) : list json :=
  match v with
  | JList l => l
  | _ => []
  end.

Definition country_entries (movie_details : json) : list json :=
  entries_of (field_or_null "results" (field_or_null "release_dates" movie_details)).

Definition release_entries (country : json) : list json :=
  entries_of (field_or_null "release_dates" country).

Definition is_us_entry (country : json) : bool :=
  eq_str (field_or_null "iso_3166_1" country) "US".

Definition has_certification (release : json) : bool :=
  truthy (field_or_null "certification" release).

Definition first_certification (releases : list json) : json :=
  match find has_certification releases with
  | Some release => field_or_null "certification" release
  | None => JStr not_rated
  end.

(** A detail object shaped as the provider sends it: no release-date block,
    or one whose [results] is a list of country dicts, each with a country
    code and a list of release dicts. *)
Definition release_shaped (release : json) : bool :=
  match release with
  | JDict _ => true
  | _ => false
  end.

Definition country_shaped (country : json) : bool :=
  match country with
  | JDict d =>
      match dict_get "iso_3166_1" d, dict_get "release_dates" d with
      | Some _, Some (JList releases) => forallb release_shaped releases
      | _, _ => false
      end
  | _ => false
  end.

Definition details_shaped (movie_details : json) : bool :=
  match movie_details with
  | JNull => true
  | JDict d =>
      match dict_get "release_dates" d with
      | None => true
      | Some (JDict block) =>
          match dict_get "results" block with
          | Some (JList countries) => forallb country_shaped countries
          | _ => false
          end
      | Some _ => false
      end
  | _ => false
  end.

(** The age rating in the words of the specification: the release-date
    entries of the US entries are scanned in provider order and the first
    non-empty certification wins; 'Not Rated' when there is none. *)
Definition spec_age_rating (movie_details : json) : json :=
  first_certification
    (flat_map release_entries (filter is_us_entry (country_entries movie_details))).

(** The age rating of the first US entry alone. *)
Definition first_us_entry_age_rating (movie_details : json) : json :=
  match find is_us_entry (country_entries movie_details) with
  | Some country => first_certification (release_entries country)
  | None => JStr not_rated
  end.

(** [w'] is [w] after some more calls. *)
Definition extends (w w' : world) (new : list event) : Prop :=
  trace w' = (trace w ++ new)%list.

Definition details_url `{PyStr} (movie_id : json) : string :=
  base_url ++ "/movie/" ++ py_str movie_id.

(** Among the calls [new] is one for the details of [movie_id] that was
    answered with [movie_details]. *)
Definition fetched_details `{PyStr} (new : list event)
    (movie_id movie_details : json) : Prop :=
  exists params,
    In (HttpGet (details_url movie_id) params (HttpBody movie_details)) new.

(** A release whose certification is a [str] with a character that is not
    white space. *)
Definition is_rated (release : json) : bool :=
  match field_or_null "certification" release with
  | JStr s => negb (String.eqb (strip s) "")
  | _ => false
  end.

(** The first such certification among the release-date entries of all US
    entries, in provider order; 'Not Rated' without one. *)
Definition us_certification (movie_details : json) : json :=
  match find is_rated
          (flat_map release_entries
             (filter is_us_entry (country_entries movie_details))) with
  | Some release => field_or_null "certification" release
  | None => JStr not_rated
  end.

(** The US certification of [movie_details] is one of [age_ratings] or is
    'Not Rated'. *)
Definition certification_allowed (age_ratings : list string)
    (movie_details : json) : Prop :=
  exists rating,
    us_certification movie_details = JStr rating /\
    (In rating age_ratings \/ rating = not_rated).

Definition discover_url : string := base_url ++ "/discover/movie".

(** The details request for a server result, with the reply it got. *)
Definition details_call `{PyStr} (self : MovieRecommender)
    (check : json * http_reply) : event :=
  HttpGet (details_url (field_or_null "id" (fst check)))
    [("api_key", key_json (tmdb_api_key self));
     ("append_to_response", JStr "watch/providers,release_dates,videos")]
    (snd check).

(** [certification] is one of [age_ratings] or is 'Not Rated'. *)
Definition allowed_certification (age_ratings : list string)
    (certification : json) : bool :=
  match certification with
  | JStr rating =>
      existsb (String.eqb rating) age_ratings || String.eqb rating not_rated
  | _ => false
  end.

(** The details of a server result came, are not empty, and carry an allowed
    US certification. *)
Definition passes_check (age_ratings : list string)
    (check : json * http_reply) : bool :=
  match snd check with
  | HttpBody movie_details =>
      truthy movie_details
      && allowed_certification age_ratings (us_certification movie_details)
  | HttpFailure _ => false
  end.

(** An exception raised by evaluating an expression, not by a service. *)
Definition raised_locally (e : exn) : bool :=
  match e with
  | RequestException _ | GeminiException _ => false
  | _ => true
  end.

Definition search_url : string := base_url ++ "/search/movie".

Definition is_http (ev : event) : bool :=
  match ev with
  | HttpGet _ _ _ => true
  | GenerateContent _ _ _ => false
  end.

(** A title search: a call of the search endpoint with a [query]. *)
Definition is_title_search (ev : event) : bool :=
  match ev with
  | HttpGet url params _ =>
      String.eqb url search_url &&
      match dict_get "query" params with
      | Some (JStr _) => true
      | _ => false
      end
  | GenerateContent _ _ _ => false
  end.

(** What a call answered under [results], and the first match in it. *)
Definition answered_results (ev : event) : json :=
  match ev with
  | HttpGet _ _ (HttpBody body) =>
      match method_get body "results" (JList []) with
      | Ok results => results
      | Raise _ => JList []
      end
  | _ => JList []
  end.

Definition first_match (ev : event) : list json :=
  if truthy (answered_results ev) then
    match (first <- slice_to 1 (answered_results ev) ;; py_iter first)%result with
    | Ok items => items
    | Raise _ => []
    end
  else [].

(** A movie identifier: an [int], or a [str]. *)
Definition identifier (v : json) : bool :=
  match v with
  | JInt _ | JStr _ => true
  | _ => false
  end.

(** An entry that carries a movie identifier under ['id']. *)
Definition identified (card : json) : bool :=
  match subscript card "id" with
  | Ok id => identifier id
  | Raise _ => false
  end.

Definition same_id (a b : json) : bool :=
  match subscript a "id", subscript b "id" with
  | Ok x, Ok y => py_eq x y
  | _, _ => false
  end.

(** No entry has the identifier of an entry before it. *)
Fixpoint distinct_ids (favs : list json) : Prop :=
  match favs with
  | [] => True
  | fav :: rest =>
      Forall (fun other => same_id fav other = false) rest /\ distinct_ids rest
  end.

(** Every entry of the ratings map is an integer from 1 to 5. *)
Definition ratings_in_range (ratings : json) : Prop :=
  exists d,
    ratings = JDict d /\
    Forall (fun entry => exists n, snd entry = JInt n /\ 1 <= n <= 5) d.

(** ** Sample data *)

(** [str] on the values whose text follows a one-line rule.  The text of
    floats and containers is outside it and left empty here; the samples
    below format strings and integers only. *)
Definition str_of_scalar (v : json) : string :=
  match v with
  | JStr s => s
  | JInt n => NilZero.string_of_int (Z.to_int n)
  | JBool true => "True"
  | JBool false => "False"
  | JNull => "None"
  | JFloat _ | JList _ | JDict _ => ""
  end.

Definition scalar_str : PyStr :=
  {| py_str := str_of_scalar; py_str_JStr := fun s => eq_refl |}.

Definition tmdb_only : MovieRecommender :=
  setup_apis new_recommender (Some "tmdb-key") None.

Definition both_keys : MovieRecommender :=
  setup_apis new_recommender (Some "tmdb-key") (Some "gemini-key").

Definition replies (script : list http_reply) : world :=
  {| http_script := script; gen_script := []; trace := []; messages := [] |}.

Definition video (site type key : string) : json :=
  JDict [("site", JStr site); ("type", JStr type); ("key", JStr key)].

Definition teaser_then_trailer : json :=
  JDict [("id", JInt 603);
         ("results", JList [video "YouTube" "Teaser" "t-9Zb";
                            video "YouTube" "Trailer" "vKQi3bBA1y8";
                            video "YouTube" "Trailer" "m8e-FF8MsqU"])].

Definition candidate (id : Z) (title : string) (vote_average : Q) : json :=
  JDict [("id", JInt id); ("title", JStr title); ("vote_average", JFloat vote_average)].

Definition unrated_candidate (id : Z) (title : string) : json :=
  JDict [("id", JInt id); ("title", JStr title)].

Definition sample_candidates : list json :=
  [candidate 603 "The Matrix" (82 # 10);
   unrated_candidate 11 "Untitled";
   candidate 27205 "Inception" (84 # 10);
   candidate 9999 "Filler" (41 # 10)].


Definition release (certification : string) : json :=
  JDict [("certification", JStr certification); ("type", JInt 3)].

Definition country (iso : string) (releases : list json) : json :=
  JDict [("iso_3166_1", JStr iso); ("release_dates", JList releases)].

Definition details (id : Z) (countries : list json) : json :=
  JDict [("id", JInt id);
         ("release_dates", JDict [("results", JList countries)])].

(** A detail object with two US entries, the first without a certification. *)
Definition two_us_entries : json :=
  details 603 [country "DE" [release "16"];
               country "US" [release ""];
               country "US" [release "R"]].

Definition matrix_details : json :=
  details 603 [country "DE" [release "16"];
               country "US" [release ""; release "R"; release "PG-13"]].

Definition matrix : json :=
  JDict [("id", JInt 603); ("title", JStr "The Matrix");
         ("poster_path", JStr "/matrix.jpg");
         ("overview", JStr "A hacker learns the truth.");
         ("vote_average", JFloat (82 # 10));
         ("release_date", JStr "1999-03-31")].

Definition matrix_providers : json :=
  JDict [("id", JInt 603);
         ("results",
          JDict [("US",
                  JDict [("link", JStr "https://www.themoviedb.org/movie/603/watch");
                         ("rent", JList [JDict [("provider_name", JStr "Apple TV");
                                                ("logo_path", JStr "/apple.jpg")]]);
                         ("flatrate", JList [JDict [("provider_name", JStr "Max");
                                                    ("logo_path", JStr "/max.jpg")]])])])].

Definition matrix_card : json :=
  JDict [("title", JStr "The Matrix");
         ("poster_url", JStr "https://image.tmdb.org/t/p/w500/matrix.jpg");
         ("year", JStr "1999");
         ("rating", JFloat (82 # 10));
         ("age_rating", JStr "R");
         ("overview", JStr "A hacker learns the truth.");
         ("streaming_providers",
          JList [JDict [("name", JStr "Max"); ("type", JStr "flatrate");
                        ("logo", JStr "https://image.tmdb.org/t/p/w45/max.jpg")];
                 JDict [("name", JStr "Apple TV"); ("type", JStr "rent");
                        ("logo", JStr "https://image.tmdb.org/t/p/w45/apple.jpg")]]);
         ("trailer_url", JStr "https://www.youtube.com/embed/vKQi3bBA1y8");
         ("id", JInt 603)].

Definition horror_page : json :=
  JDict [("page", JInt 1);
         ("results", JList [candidate 1 "Rated R" (70 # 10);
                            candidate 2 "Rated PG-13" (65 # 10);
                            candidate 3 "No US release" (60 # 10)])].

Definition horror_world : world :=
  replies [HttpBody horror_page;
           HttpBody (details 1 [country "US" [release "R"]]);
           HttpBody (details 2 [country "US" [release "PG-13"]]);
           HttpBody (details 3 [country "FR" [release "12"]])].

Definition robots_text : string :=
  "Blade Runner" ++ nl ++ "  Ex Machina " ++ nl ++ nl ++ "The Terminator" ++ nl
  ++ "I, Robot" ++ nl ++ "Ghost in the Shell" ++ nl ++ "Alien" ++ nl ++ "RoboCop".

Definition search_page (matches : list json) : json :=
  JDict [("page", JInt 1); ("results", JList matches)].

Definition robots_world : world :=
  {| http_script :=
       [HttpBody (search_page [candidate 78 "Blade Runner" (79 # 10);
                               candidate 335984 "Blade Runner 2049" (75 # 10)]);
        HttpBody (search_page [candidate 264660 "Ex Machina" (76 # 10)]);
        HttpFailure "504 Gateway Timeout";
        HttpBody (search_page []);
        HttpBody (search_page [candidate 9323 "Ghost in the Shell" (79 # 10)]);
        HttpBody (search_page [candidate 348 "Alien" (81 # 10)])];
     gen_script := [GenText robots_text];
     trace := [];
     messages := [] |}.

Definition empty_disk : disk :=
  {| writable := true; favorites_json := NoFile; user_ratings_json := NoFile |}.

(** A ratings file that was not written by the program. *)
Definition edited_disk : disk :=
  {| writable := true;
     favorites_json := JsonFile (JList [matrix_card; matrix_card]);
     user_ratings_json := JsonFile (JDict [("603", JInt 9)]) |}.

(** ** More of the program *)

Section Similar.
Context `{PyStr}.
Variable self : MovieRecommender.

(** [search_results[0]] where [find_similar_movies] evaluates it: after the
    test that returns early on an empty value, so on a value that has a
    first item when it is a list or a [str].  A dict has no key [0]. *)
Definition first_result (search_results : json) : result json :=
  match search_results with
  | JList l => Ok (hd JNull l)
  | JStr s => Ok (JStr (take_chars 1 s))
  | JDict _ => Raise (KeyError "0")
  | _ => Raise TypeError
  end.

Definition find_similar_movies (movie_title : string) : M json :=
  (search_results <- search_movies self movie_title ;;
   if negb (truthy search_results) then ret (JList [])
   else
     first <- lift (first_result search_results) ;;
     movie_id <- lift (subscript first "id") ;;
     let url := base_url ++ "/movie/" ++ py_str movie_id ++ "/similar" in
     let params := [("api_key", key_json (tmdb_api_key self));
                    ("language", JStr "en-US")] in
     except_request
       (response <- requests_get_json url params ;;
        lift (method_get response "results" (JList [])))
       (fun e => _ <- st_error "Error finding similar movies: " e ;;
                 ret (JList [])))%m.

End Similar.

(** *** The favorites tab of [main] *)

(** The handler of the clear button. *)
Definition clear_favorites (s : session_state) (d : disk)
  : flow * session_state * disk :=
  let s' := {| recommendations := recommendations s;
               favorites := JList [];
               dark_mode := dark_mode s;
               user_ratings := user_ratings s |} in
  (Rerun, s', save_favorites s' d).

(** What [v.pop(i)] raises for an index [i >= 0]: past the end of a list, on
    a dict (whose keys are all [str]), and on a value without [pop]. *)
Inductive pop_error : Type :=
| PopIndexError
| PopKeyError
| PopAttributeError.

(** [v.pop(i)], as the value [v] is afterwards. *)
Definition method_pop (v : json) (i : nat) : pop_error + json :=
  match v with
  | JList l =>
      if (i <? length l)%nat then inr (JList (firstn i l ++ skipn (S i) l))
      else inl PopIndexError
  | JDict _ => inl PopKeyError
  | _ => inl PopAttributeError
  end.

(** The handler of the remove button of row [i] of the favorites tab. *)
Definition remove_favorite (i : nat) (s : session_state) (d : disk)
  : pop_error + flow * session_state * disk :=
  match method_pop (favorites s) i with
  | inl e => inl e
  | inr rest =>
      let s' := {| recommendations := recommendations s;
                   favorites := rest;
                   dark_mode := dark_mode s;
                   user_ratings := user_ratings s |} in
      inr (Rerun, s', save_favorites s' d)
  end.

(** *** Vocabulary for the resolved certification *)

(** A provider-shaped detail object whose certifications are [str] or
    absent. *)
Definition release_certified (release : json) : bool :=
  match release with
  | JDict d =>
      match dict_get "certification" d with
      | None | Some JNull | Some (JStr _) => true
      | Some _ => false
      end
  | _ => false
  end.

Definition country_certified (country : json) : bool :=
  match country with
  | JDict d =>
      match dict_get "iso_3166_1" d, dict_get "release_dates" d with
      | Some _, Some (JList releases) => forallb release_certified releases
      | _, _ => false
      end
  | _ => false
  end.

Definition details_certified (movie_details : json) : bool :=
  match movie_details with
  | JNull => true
  | JDict d =>
      match dict_get "release_dates" d with
      | None => true
      | Some (JDict block) =>
          match dict_get "results" block with
          | Some (JList countries) => forallb country_certified countries
          | _ => false
          end
      | Some _ => false
      end
  | _ => false
  end.

(** A release whose certification is not empty but has no character other
    than white space. *)
Definition blank_certification (release : json) : bool :=
  has_certification release && negb (is_rated release).

(** *** Vocabulary for streaming providers *)

(** A provider record with the two fields the client reads. *)
Definition provider_shaped (provider : json) : bool :=
  match provider with
  | JDict d =>
      match dict_get "provider_name" d, dict_get "logo_path" d with
      | Some _, Some _ => true
      | _, _ => false
      end
  | _ => false
  end.

(** The offers of one type in the US block, none when the type is absent. *)
Definition offers (provider_type : string) (us_providers : list (string * json))
  : list json :=
  match dict_get provider_type us_providers with
  | Some listed => entries_of listed
  | None => []
  end.

(** A US block whose offer types, where present, are lists of provider
    records. *)
Definition offers_shaped (us_providers : list (string * json)) : bool :=
  forallb (fun provider_type =>
             match dict_get provider_type us_providers with
             | None => true
             | Some (JList listed) => forallb provider_shaped listed
             | Some _ => false
             end) ["flatrate"; "rent"; "buy"].

(** The entry the client builds for one provider. *)
Definition provider_entry `{PyStr} (provider_type : string) (provider : json) : json :=
  JDict [("name", field_or_null "provider_name" provider);
         ("type", JStr provider_type);
         ("logo", JStr ("https://image.tmdb.org/t/p/w45"
                        ++ py_str (field_or_null "logo_path" provider)))].

(** *** More sample data *)

Definition keyless_trailer : json :=
  JDict [("id", JInt 603);
         ("results", JList [video "Vimeo" "Trailer" "v-1";
                            JDict [("site", JStr "YouTube"); ("type", JStr "Trailer")];
                            video "YouTube" "Trailer" "vKQi3bBA1y8"])].

Definition logoless_providers : json :=
  JDict [("id", JInt 603);
         ("results",
          JDict [("US",
                  JDict [("flatrate",
                          JList [JDict [("provider_name", JStr "Max");
                                        ("logo_path", JStr "/max.jpg")];
                                 JDict [("provider_name", JStr "Hulu")]])])])].

(** The names of [genres] that the genre table knows, as the ids sent. *)
Definition known_genre_ids `{PyStr} (genres : list string) : list string :=
  flat_map (fun g => match assoc g self_genres with
                     | Some id => [py_str (JInt id)]
                     | None => []
                     end) genres.

(** An entry with an ['id']. *)
Definition has_id (movie : json) : bool :=
  match subscript movie "id" with
  | Ok _ => true
  | Raise _ => false
  end.

Definition details_error : message :=
  StError "Error getting movie details: " (RequestException unreachable).

Definition similar_url `{PyStr} (movie_id : json) : string :=
  base_url ++ "/movie/" ++ py_str movie_id ++ "/similar".

Definition similar_error (msg : string) : message :=
  StError "Error finding similar movies: " (RequestException msg).

Definition matrix_search : json :=
  search_page [matrix; candidate 604 "The Matrix Reloaded" (70 # 10)].

Definition matrix_similar : json :=
  search_page [candidate 78 "Blade Runner" (79 # 10);
               candidate 1891 "The Empire Strikes Back" (84 # 10)].

(** *** Vocabulary for the title searches *)

(** The title a call searched for, when the call is a title search. *)
Definition searched_title (ev : event) : option string :=
  match ev with
  | HttpGet url params _ =>
      if String.eqb url search_url then
        match dict_get "query" params with
        | Some (JStr title) => Some title
        | _ => None
        end
      else None
  | GenerateContent _ _ _ => None
  end.

(** A reply a title search can use: a failure, or an object whose [results],
    when it has any, is a list. *)
Definition list_reply (reply : http_reply) : bool :=
  match reply with
  | HttpFailure _ => true
  | HttpBody body =>
      match method_get body "results" (JList []) with
      | Ok (JList _) => true
      | _ => false
      end
  end.

(** A call that was answered with a reply a title search can use. *)
Definition usable_answer (ev : event) : bool :=
  match ev with
  | HttpGet _ _ reply => list_reply reply
  | GenerateContent _ _ _ => true
  end.

Definition gemini_model : string := "gemini-1.5-flash".

Definition no_gemini_key_warning : message :=
  StWarning "Gemini API key not provided. Skipping AI recommendations.".

Definition readonly_disk : disk :=
  {| writable := false; favorites_json := NoFile; user_ratings_json := NoFile |}.

Definition blade_runner_card : json :=
  JDict [("title", JStr "Blade Runner"); ("id", JInt 78)].

Definition two_favorites : session_state :=
  {| recommendations := JList [];
     favorites := JList [matrix_card; blade_runner_card];
     dark_mode := false;
     user_ratings := JDict [("603", JInt 5)] |}.

(** A ratings file whose entry was edited into a text. *)
Definition text_rating_disk : disk :=
  {| writable := true;
     favorites_json := NoFile;
     user_ratings_json := JsonFile (JDict [("603", JStr "five")]) |}.

Definition list_rating_disk : disk :=
  {| writable := true;
     favorites_json := NoFile;
     user_ratings_json := JsonFile (JList [JInt 5]) |}.

(** *** Vocabulary for cards *)

Definition poster_placeholder : string :=
  "https://via.placeholder.com/500x750?text=No+Poster".

Definition card_keys : list string :=
  ["title"; "poster_url"; "year"; "rating"; "age_rating"; "overview";
   "streaming_providers"; "trailer_url"; "id"].

Definition providers_url `{PyStr} (movie_id : json) : string :=
  base_url ++ "/movie/" ++ py_str movie_id ++ "/watch/providers".

Definition videos_url `{PyStr} (movie_id : json) : string :=
  base_url ++ "/movie/" ++ py_str movie_id ++ "/videos".

(** A candidate the card can be built from without the services: a dict
    with an ['id'] whose release date, if any, is a [str]. *)
Definition card_source (movie : json) : bool :=
  match movie with
  | JDict d =>
      match dict_get "id" d with
      | Some _ =>
          match dict_get "release_date" d with
          | None | Some JNull | Some (JStr _) => true
          | Some _ => false
          end
      | None => false
      end
  | _ => false
  end.
(** * Properties *)

(** ** The Filter/Sort stage *)

Lemma subsequence_filter {A : Type} (f : A -> bool) (l : list A) :
  subsequence (filter f l) l.
Proof.
  induction l as [|x l IH]; simpl.
  - constructor.
  - destruct (f x); constructor; exact IH.
Qed.

Lemma subsequence_firstn {A : Type} (n : nat) (l : list A) :
  subsequence (firstn n l) l.
Proof.
  revert n; induction l as [|x l IH]; intros [|n]; simpl;
    try constructor; auto.
  clear IH; induction l; constructor; auto.
Qed.

Lemma subsequence_trans {A : Type} (a b c : list A) :
  subsequence a b -> subsequence b c -> subsequence a c.
Proof.
  intros Hab Hbc; revert a Hab.
  induction Hbc; intros a Hab.
  - exact Hab.
  - inversion Hab; subst; constructor; auto.
  - constructor; auto.
Qed.

Lemma subsequence_In {A : Type} (out l : list A) :
  subsequence out l -> forall x, In x out -> In x l.
Proof.
  induction 1; simpl; intros y Hy; auto.
  destruct Hy; auto.
Qed.

Lemma rated_candidate_rating (movie : json) :
  rated_candidate movie = true ->
  exists v x,
    method_get movie "vote_average" (JInt 0) = Ok v /\
    number v = Some x /\ rating_of movie = Some x.
Proof.
  destruct movie as [| | | | |l|d]; simpl; try discriminate.
  destruct (dict_get "vote_average" d) as [v|].
  - destruct (number v) as [x|] eqn:E; [|discriminate].
    intros _; exists v, x; auto.
  - intros _; exists (JInt 0), 0%Q; repeat split; reflexivity.
Qed.

(** On candidates it can rate, the loop is [filter]. *)
Lemma keep_rated_filter (min_rating : Q) (movies : list json) :
  Forall (fun movie => rated_candidate movie = true) movies ->
  keep_rated min_rating movies = Ok (filter (meets min_rating) movies).
Proof.
  induction 1 as [|movie rest Hm _ IH]; simpl; [reflexivity|].
  destruct (rated_candidate_rating movie Hm) as (v & x & Hget & Hnum & Hrat).
  rewrite Hget; simpl. unfold py_ge; rewrite Hnum; simpl.
  rewrite IH; simpl. unfold meets; rewrite Hrat. reflexivity.
Qed.

(** The loop returns only on candidates it can rate. *)
Lemma keep_rated_returns (min_rating : Q) (movies kept : list json) :
  keep_rated min_rating movies = Ok kept ->
  Forall (fun movie => rated_candidate movie = true) movies.
Proof.
  revert kept; induction movies as [|movie rest IH]; intros kept Hk;
    constructor.
  - simpl in Hk. destruct movie as [| | | | |l|d]; simpl in Hk; try discriminate.
    simpl. destruct (dict_get "vote_average" d) as [v|]; [|reflexivity].
    simpl in Hk. unfold py_ge in Hk. destruct (number v); [reflexivity|discriminate].
  - simpl in Hk.
    destruct (method_get movie "vote_average" (JInt 0)) as [v|]; [|discriminate].
    simpl in Hk. destruct (py_ge v min_rating); [|discriminate].
    simpl in Hk. destruct (keep_rated min_rating rest) as [more|]; [|discriminate].
    eapply IH; reflexivity.
Qed.

Lemma meets_not_below (min_rating : Q) (movie : json) :
  meets min_rating movie = true -> ~ below min_rating movie.
Proof.
  unfold meets, below. intros Hm (x & Hx & Hlt).
  rewrite Hx in Hm. apply Qle_bool_iff in Hm.
  apply (Qlt_not_le _ _ Hlt Hm).
Qed.

(** C2.  On every list of candidates the stage can rate, for every minimum
    rating and every maximum count, the stage returns the candidates whose
    rating meets the minimum, cut to the first [max_results] of them: no
    candidate of the output is rated below the minimum, the output is a
    subsequence of the input, and it has at most [max_results] items. *)
Theorem filter_stage_output (candidates : list json) (min_rating : Q)
    (max_results : nat) :
  Forall (fun movie => rated_candidate movie = true) candidates ->
  exists out,
    filtered_recommendations (JList candidates) min_rating max_results = Ok out /\
    out = firstn max_results (filter (meets min_rating) candidates) /\
    Forall (fun movie => ~ below min_rating movie) out /\
    subsequence out candidates /\
    (length out <= max_results)%nat.
Proof.
  intros Hc. exists (firstn max_results (filter (meets min_rating) candidates)).
  split; [|split; [reflexivity|split; [|split]]].
  - unfold filtered_recommendations; simpl.
    rewrite (keep_rated_filter _ _ Hc). reflexivity.
  - apply Forall_forall. intros movie Hin.
    apply meets_not_below.
    apply (subsequence_In _ _ (subsequence_firstn _ _)) in Hin.
    apply filter_In in Hin. apply Hin.
  - eapply subsequence_trans;
      [apply subsequence_firstn|apply subsequence_filter].
  - apply firstn_le_length.
Qed.

Lemma filter_stage_output_witness :
  exists out,
    filtered_recommendations (JList sample_candidates) (5 # 1) 2 = Ok out /\
    out = [candidate 603 "The Matrix" (82 # 10);
           candidate 27205 "Inception" (84 # 10)] /\
    (length out <= 2)%nat.
Proof.
  destruct (filter_stage_output sample_candidates (5 # 1) 2)
    as (out & Hrun & Hout & _ & _ & Hlen).
  - repeat constructor.
  - exists out. split; [exact Hrun|]. split; [rewrite Hout; reflexivity|exact Hlen].
Defined.

Lemma lacks_vote_average_rated (movie : json) :
  lacks_vote_average movie -> rated_candidate movie = true.
Proof.
  intros (d & -> & Hd); simpl; rewrite Hd; reflexivity.
Qed.

Lemma lacks_vote_average_meets (min_rating : Q) (movie : json) :
  lacks_vote_average movie ->
  meets min_rating movie = Qle_bool min_rating 0.
Proof.
  intros (d & -> & Hd); unfold meets; simpl; rewrite Hd; reflexivity.
Qed.

(** C10.  A candidate without a [vote_average] field is rated 0 by the
    stage.  With a positive minimum rating the output is what it would be
    without that candidate, and the candidate is not in it; with a minimum
    rating of 0 the candidate is kept at its place among the kept candidates,
    so it is in the output when fewer than [max_results] kept candidates
    come before it. *)
Theorem missing_vote_average_is_zero (before after : list json) (movie : json)
    (min_rating : Q) (max_results : nat) :
  lacks_vote_average movie ->
  Forall (fun other => rated_candidate other = true) (before ++ after) ->
  method_get movie "vote_average" (JInt 0) = Ok (JInt 0) /\
  rating_of movie = Some 0%Q /\
  ((0 < min_rating)%Q ->
     exists out,
       filtered_recommendations (JList (before ++ movie :: after))
         min_rating max_results = Ok out /\
       out = firstn max_results (filter (meets min_rating) (before ++ after)) /\
       ~ In movie out) /\
  ((min_rating == 0)%Q ->
     exists out,
       filtered_recommendations (JList (before ++ movie :: after))
         min_rating max_results = Ok out /\
       out = firstn max_results
               (filter (meets min_rating) before
                ++ movie :: filter (meets min_rating) after) /\
       ((length (filter (meets min_rating) before) < max_results)%nat ->
        In movie out)).
Proof.
  intros Hlack Hrest.
  assert (Hall : Forall (fun other => rated_candidate other = true)
                   (before ++ movie :: after)).
  { apply Forall_app in Hrest as [Hb Ha]. apply Forall_app. split; [exact Hb|].
    constructor; [apply lacks_vote_average_rated; exact Hlack|exact Ha]. }
  assert (Hrun : filtered_recommendations (JList (before ++ movie :: after))
                   min_rating max_results
                 = Ok (firstn max_results
                         (filter (meets min_rating) (before ++ movie :: after)))).
  { unfold filtered_recommendations; simpl.
    rewrite (keep_rated_filter _ _ Hall). reflexivity. }
  pose proof (lacks_vote_average_meets min_rating movie Hlack) as Hmeets.
  split; [|split; [|split]].
  - destruct Hlack as (d & -> & Hd); simpl; rewrite Hd; reflexivity.
  - destruct Hlack as (d & -> & Hd); simpl; rewrite Hd; reflexivity.
  - intros Hpos.
    assert (Hno : meets min_rating movie = false).
    { rewrite Hmeets. destruct (Qle_bool min_rating 0) eqn:E; [|reflexivity].
      apply Qle_bool_iff in E. exfalso. apply (Qlt_not_le _ _ Hpos E). }
    eexists; split; [exact Hrun|].
    rewrite !filter_app; simpl; rewrite Hno. split; [reflexivity|].
    intros Hin.
    apply (subsequence_In _ _ (subsequence_firstn _ _)) in Hin.
    rewrite <- filter_app in Hin. apply filter_In in Hin.
    destruct Hin as [_ Hyes]. rewrite Hno in Hyes. discriminate.
  - intros Hzero.
    assert (Hyes : meets min_rating movie = true).
    { rewrite Hmeets. apply Qle_bool_iff. rewrite Hzero. apply Qle_refl. }
    eexists; split; [exact Hrun|].
    rewrite filter_app; simpl; rewrite Hyes. split; [reflexivity|].
    intros Hlt.
    rewrite firstn_app.
    apply in_or_app; right.
    remember (length (filter (meets min_rating) before)) as n.
    destruct (max_results - n)%nat as [|k] eqn:E; [lia|].
    simpl; left; reflexivity.
Qed.

Lemma missing_vote_average_is_zero_witness :
  (exists out,
     filtered_recommendations (JList sample_candidates) (5 # 1) 20 = Ok out /\
     ~ In (unrated_candidate 11 "Untitled") out) /\
  (exists out,
     filtered_recommendations (JList sample_candidates) 0 20 = Ok out /\
     In (unrated_candidate 11 "Untitled") out).
Proof.
  destruct (missing_vote_average_is_zero
              [candidate 603 "The Matrix" (82 # 10)]
              [candidate 27205 "Inception" (84 # 10); candidate 9999 "Filler" (41 # 10)]
              (unrated_candidate 11 "Untitled") (5 # 1) 20)
    as (_ & _ & Hpos & _).
  { exists [("id", JInt 11); ("title", JStr "Untitled")]. split; reflexivity. }
  { repeat constructor. }
  destruct (missing_vote_average_is_zero
              [candidate 603 "The Matrix" (82 # 10)]
              [candidate 27205 "Inception" (84 # 10); candidate 9999 "Filler" (41 # 10)]
              (unrated_candidate 11 "Untitled") 0 20)
    as (_ & _ & _ & Hzero).
  { exists [("id", JInt 11); ("title", JStr "Untitled")]. split; reflexivity. }
  { repeat constructor. }
  split.
  - destruct Hpos as (out & Hrun & _ & Hnot); [reflexivity|].
    exists out; split; assumption.
  - destruct Hzero as (out & Hrun & _ & Hin); [reflexivity|].
    exists out; split; [exact Hrun|]. apply Hin. simpl. lia.
Defined.

(** ** Trailer extraction *)

Section Trailer.
Context `{PyStr}.

Lemma passed_over_step (video : json) (rest : list json) :
  passed_over video = true -> find_trailer (video :: rest) = find_trailer rest.
Proof.
  destruct video as [| | | | |l|d]; simpl; try discriminate.
  unfold youtube_trailer, field_or_null.
  destruct (dict_get "site" d) as [site|]; simpl;
    [destruct (eq_str site "YouTube"); simpl|]; try reflexivity.
  destruct (dict_get "type" d) as [type|]; simpl;
    [destruct (eq_str type "Trailer"); simpl|]; try reflexivity.
  discriminate.
Qed.

Lemma youtube_trailer_step (video key : json) (rest : list json) :
  youtube_trailer video = true ->
  subscript video "key" = Ok key ->
  find_trailer (video :: rest) = Ok (embed_url key).
Proof.
  destruct video as [| | | | |l|d]; simpl; try discriminate.
  unfold youtube_trailer, field_or_null.
  destruct (dict_get "site" d) as [site|]; simpl; [|discriminate].
  destruct (eq_str site "YouTube"); simpl; [|discriminate].
  destruct (dict_get "type" d) as [type|]; simpl; [|discriminate].
  destruct (eq_str type "Trailer"); simpl; [|discriminate].
  intros _. destruct (dict_get "key" d); [|discriminate].
  intros [= ->]. reflexivity.
Qed.

(** A key that is a [str] goes into the URL as it is. *)
Lemma embed_url_str (key : string) :
  embed_url (JStr key) = JStr ("https://www.youtube.com/embed/" ++ key).
Proof.
  unfold embed_url. rewrite py_str_JStr. reflexivity.
Qed.

Lemma find_trailer_first (before after : list json) (video key : json) :
  Forall (fun v => passed_over v = true) before ->
  youtube_trailer video = true ->
  subscript video "key" = Ok key ->
  find_trailer (before ++ video :: after) = Ok (embed_url key).
Proof.
  induction 1 as [|v before Hv _ IH]; intros Hy Hk.
  - apply youtube_trailer_step; assumption.
  - rewrite <- app_comm_cons, (passed_over_step _ _ Hv). auto.
Qed.

Lemma find_trailer_none (videos : list json) :
  Forall (fun v => passed_over v = true) videos ->
  find_trailer videos = Ok JNull.
Proof.
  induction 1 as [|v videos Hv _ IH]; [reflexivity|].
  rewrite (passed_over_step _ _ Hv). exact IH.
Qed.

Lemma get_movie_trailer_body (self : MovieRecommender) (movie_id body : json)
    (videos : list json) (w : world) (found : json) :
  key_set (tmdb_api_key self) = true ->
  next_http w = HttpBody body ->
  method_get body "results" (JList []) = Ok (JList videos) ->
  find_trailer videos = Ok found ->
  fst (get_movie_trailer self movie_id w) = Ok found.
Proof.
  intros Hkey Hnext Hres Hfound.
  unfold get_movie_trailer. rewrite Hkey. cbn [negb].
  unfold except_request, bind, requests_get_json, lift.
  rewrite Hnext, Hres. cbn [py_iter]. rewrite Hfound. reflexivity.
Qed.

(** C7.  When the provider answers the videos request with a list, the
    trailer is the embed URL built from the key of the first entry whose site
    is 'YouTube' and whose type is 'Trailer', whatever follows that entry;
    the entries before it (other video kinds of the same site among them) are
    passed over.  When no entry is such a trailer, no trailer is returned. *)
Theorem trailer_first_match_wins (self : MovieRecommender) (movie_id body : json)
    (videos : list json) (w : world) :
  key_set (tmdb_api_key self) = true ->
  next_http w = HttpBody body ->
  method_get body "results" (JList []) = Ok (JList videos) ->
  (forall (before : list json) (video : json) (after : list json) (key : json),
     videos = (before ++ video :: after)%list ->
     Forall (fun v => passed_over v = true) before ->
     youtube_trailer video = true ->
     subscript video "key" = Ok key ->
     fst (get_movie_trailer self movie_id w) = Ok (embed_url key)) /\
  (Forall (fun v => passed_over v = true) videos ->
   fst (get_movie_trailer self movie_id w) = Ok JNull).
Proof.
  intros Hkey Hnext Hres.
  split.
  - intros before video after key Hsplit Hb Hy Hk.
    apply (get_movie_trailer_body self movie_id body videos w _ Hkey Hnext Hres).
    rewrite Hsplit. apply find_trailer_first; assumption.
  - intros Hnone.
    apply (get_movie_trailer_body self movie_id body videos w _ Hkey Hnext Hres).
    apply find_trailer_none; exact Hnone.
Qed.

End Trailer.

Lemma trailer_first_match_wins_witness :
  fst (@get_movie_trailer scalar_str tmdb_only (JInt 603)
         (replies [HttpBody teaser_then_trailer]))
  = Ok (JStr "https://www.youtube.com/embed/vKQi3bBA1y8").
Proof.
  destruct (@trailer_first_match_wins scalar_str tmdb_only (JInt 603)
              teaser_then_trailer
              [video "YouTube" "Teaser" "t-9Zb";
               video "YouTube" "Trailer" "vKQi3bBA1y8";
               video "YouTube" "Trailer" "m8e-FF8MsqU"]
              (replies [HttpBody teaser_then_trailer])
              eq_refl eq_refl eq_refl) as [Hfirst _].
  apply (Hfirst [video "YouTube" "Teaser" "t-9Zb"]
           (video "YouTube" "Trailer" "vKQi3bBA1y8")
           [video "YouTube" "Trailer" "m8e-FF8MsqU"]
           (JStr "vKQi3bBA1y8")); try reflexivity.
  repeat constructor.
Defined.

(** ** The age rating of a card *)

Lemma bind_Ok {A B : Type} (m : M A) (k : A -> M B) (w w' : world) (b : B) :
  bind m k w = (Ok b, w') ->
  exists a w1, m w = (Ok a, w1) /\ k a w1 = (Ok b, w').
Proof.
  unfold bind. destruct (m w) as [[a|e] w1]; intros Hk; [|discriminate].
  exists a, w1; auto.
Qed.

Lemma lift_Ok {A : Type} (r : result A) (w w' : world) (a : A) :
  lift r w = (Ok a, w') -> r = Ok a /\ w' = w.
Proof.
  unfold lift. intros [= -> ->]; auto.
Qed.

Lemma ret_Ok {A : Type} (x a : A) (w w' : world) :
  ret x w = (Ok a, w') -> a = x /\ w' = w.
Proof.
  unfold ret. intros [= -> ->]; auto.
Qed.

Lemma rbind_Ok {A B : Type} (r : result A) (k : A -> result B) (b : B) :
  rbind r k = Ok b -> exists a, r = Ok a /\ k a = Ok b.
Proof.
  destruct r as [a|e]; simpl; intros Hk; [|discriminate].
  exists a; auto.
Qed.

(** Takes a run that returned apart, one step at a time. *)
Ltac run_step H :=
  match type of H with
  | bind _ _ _ = (Ok _, _) =>
      let a := fresh "a" in let w := fresh "w" in
      let H1 := fresh "Hrun" in
      apply bind_Ok in H; destruct H as (a & w & H1 & H)
  | rbind _ _ = Ok _ =>
      let a := fresh "a" in let H1 := fresh "Hval" in
      apply rbind_Ok in H; destruct H as (a & H1 & H)
  end.

Ltac lift_step H :=
  match type of H with
  | lift _ _ = (Ok _, _) =>
      let E := fresh "Hval" in let Ew := fresh "Hw" in
      apply lift_Ok in H; destruct H as [E Ew]; subst
  | ret _ _ = (Ok _, _) =>
      let E := fresh "Hval" in let Ew := fresh "Hw" in
      apply ret_Ok in H; destruct H as [E Ew]; subst
  end.

Lemma method_get_Ok (v : json) (key : string) (default x : json) :
  method_get v key default = Ok x ->
  exists d, v = JDict d /\
            x = match dict_get key d with Some y => y | None => default end.
Proof.
  destruct v; simpl; try discriminate.
  intros Hx; exists d; split; [reflexivity|].
  destruct (dict_get key d); injection Hx; auto.
Qed.

Lemma subscript_Ok (v : json) (key : string) (x : json) :
  subscript v key = Ok x ->
  exists d, v = JDict d /\ dict_get key d = Some x.
Proof.
  destruct v; simpl; try discriminate.
  destruct (dict_get key d) eqn:E; intros [= <-]. exists d; auto.
Qed.

Lemma subscript_field (v : json) (key : string) (x : json) :
  subscript v key = Ok x -> field_or_null key v = x.
Proof.
  intros Hx. apply subscript_Ok in Hx as (d & -> & Hd).
  simpl; rewrite Hd; reflexivity.
Qed.

(** The inner loop of the card returns the first truthy certification, or
    what [age_rating] held. *)
Lemma card_scan_releases_find (releases : list json) (age_rating r : json) :
  card_scan_releases releases age_rating = Ok r ->
  r = match find has_certification releases with
      | Some release => field_or_null "certification" release
      | None => age_rating
      end.
Proof.
  induction releases as [|release rest IH]; simpl.
  - intros [= <-]; reflexivity.
  - intros Hr. run_step Hr.
    apply method_get_Ok in Hval as (d & -> & ->).
    unfold has_certification; simpl.
    destruct (dict_get "certification" d) as [c|] eqn:E; simpl in *;
      rewrite ?E in *; [|auto].
    destruct (truthy c); [|auto].
    injection Hr as <-. unfold field_or_null. rewrite E. reflexivity.
Qed.

(** Iterating a value that is not a list makes the loop body fail on its
    first item, so a scan that returned saw the entries of a list or
    nothing. *)
Lemma card_scan_releases_iter (dates : json) (releases : list json)
    (age_rating r : json) :
  py_iter dates = Ok releases ->
  card_scan_releases releases age_rating = Ok r ->
  r = match find has_certification (entries_of dates) with
      | Some release => field_or_null "certification" release
      | None => age_rating
      end.
Proof.
  destruct dates as [| | | |s|l|d]; simpl; try discriminate; intros [= <-].
  - destruct s; simpl; [intros [= <-]; reflexivity|discriminate].
  - apply card_scan_releases_find.
  - destruct d as [|[k v] d]; simpl; [intros [= <-]; reflexivity|discriminate].
Qed.

Lemma card_scan_countries_find (countries : list json) (r : json) :
  card_scan_countries countries (JStr not_rated) = Ok r ->
  r = match find is_us_entry countries with
      | Some country => first_certification (release_entries country)
      | None => JStr not_rated
      end.
Proof.
  induction countries as [|c rest IH]; simpl.
  - intros [= <-]; reflexivity.
  - intros Hr. run_step Hr. unfold is_us_entry at 1.
    rewrite (subscript_field _ _ _ Hval).
    destruct (eq_str a "US"); [|auto].
    run_step Hr. run_step Hr.
    unfold first_certification, release_entries.
    rewrite (subscript_field _ _ _ Hval0).
    eapply card_scan_releases_iter; eassumption.
Qed.

Lemma card_scan_countries_iter (results : json) (countries : list json) (r : json) :
  py_iter results = Ok countries ->
  card_scan_countries countries (JStr not_rated) = Ok r ->
  r = match find is_us_entry (entries_of results) with
      | Some country => first_certification (release_entries country)
      | None => JStr not_rated
      end.
Proof.
  destruct results as [| | | |s|l|d]; simpl; try discriminate; intros [= <-].
  - destruct s; simpl; [intros [= <-]; reflexivity|discriminate].
  - apply card_scan_countries_find.
  - destruct d as [|[k v] d]; simpl; [intros [= <-]; reflexivity|discriminate].
Qed.

(** Whenever the age-rating block of the card returns, it returns the age
    rating of the first US entry. *)
Lemma card_age_rating_first_us (movie_details r : json) :
  card_age_rating movie_details = Ok r ->
  r = first_us_entry_age_rating movie_details.
Proof.
  unfold card_age_rating, first_us_entry_age_rating, country_entries.
  destruct (truthy movie_details) eqn:Ht; simpl.
  - intros Hr. run_step Hr. destruct a; simpl in Hr.
    + run_step Hr. run_step Hr. run_step Hr.
      rewrite (subscript_field _ _ _ Hval0), (subscript_field _ _ _ Hval1).
      eapply card_scan_countries_iter; eassumption.
    + injection Hr as <-.
      destruct movie_details as [| | | |s|l|d]; simpl in *; try reflexivity.
      destruct (dict_get "release_dates" d); [discriminate|reflexivity].
  - intros [= <-].
    destruct movie_details as [| | | |s|l|d]; simpl in *; try reflexivity.
    destruct d; [reflexivity|discriminate].
Qed.

Lemma card_scan_releases_returns (releases : list json) (age_rating : json) :
  forallb release_shaped releases = true ->
  exists r, card_scan_releases releases age_rating = Ok r.
Proof.
  induction releases as [|release rest IH]; simpl; [eauto|].
  intros Hall. apply andb_true_iff in Hall as [Hrel Hrest].
  destruct release as [| | | | |l|d]; try discriminate. simpl.
  destruct (dict_get "certification" d) as [c|]; simpl; [|auto].
  destruct (truthy c); [eauto|auto].
Qed.

Lemma card_scan_countries_returns (countries : list json) (age_rating : json) :
  forallb country_shaped countries = true ->
  exists r, card_scan_countries countries age_rating = Ok r.
Proof.
  induction countries as [|country rest IH]; simpl; [eauto|].
  intros Hall. apply andb_true_iff in Hall as [Hc Hrest].
  destruct country as [| | | | |l|d]; try discriminate. simpl in *.
  destruct (dict_get "iso_3166_1" d) as [iso|]; [|discriminate]. simpl.
  destruct (dict_get "release_dates" d) as [[| | | | |releases|]|];
    try discriminate.
  destruct (eq_str iso "US"); [|auto]. simpl.
  apply card_scan_releases_returns. exact Hc.
Qed.

(** On a detail object shaped as the provider sends it, the age-rating block
    of the card returns. *)
Lemma card_age_rating_returns (movie_details : json) :
  details_shaped movie_details = true ->
  card_age_rating movie_details = Ok (first_us_entry_age_rating movie_details).
Proof.
  intros Hshape.
  assert (Hr : exists r, card_age_rating movie_details = Ok r).
  { unfold card_age_rating.
    destruct movie_details as [| | | | |l|d]; simpl in Hshape;
      try discriminate; simpl; [eauto|].
    destruct d as [|entry d']; [simpl; eauto|]. cbn [negb].
    set (dd := entry :: d') in *. clearbody dd.
    destruct (dict_get "release_dates" dd) as [[| | | | | |block]|];
      try discriminate; simpl; [|eauto].
    destruct (dict_get "results" block) as [[| | | | |countries|]|];
      try discriminate; simpl.
    apply card_scan_countries_returns. exact Hshape. }
  destruct Hr as [r Hr]. rewrite Hr.
  rewrite (card_age_rating_first_us _ _ Hr). reflexivity.
Qed.

Section Card.
Context `{PyStr}.
Variable self : MovieRecommender.

(** The age rating of a card is the age rating of the first US entry of the
    detail object fetched for the candidate: the first non-empty
    certification among the release-date entries of that entry, in provider
    order, and 'Not Rated' when there is no US entry or the first one has no
    non-empty certification.  US entries after the first are not scanned. *)
Lemma card_age_rating_of_first_us_entry (movie card : json) (w w' : world) :
  format_movie_card self movie w = (Ok card, w') ->
  exists movie_id movie_details w1,
    subscript movie "id" = Ok movie_id /\
    get_movie_details self movie_id w = (Ok movie_details, w1) /\
    subscript card "age_rating" = Ok (first_us_entry_age_rating movie_details).
Proof.
  unfold format_movie_card. intros Hr.
  run_step Hr. lift_step Hrun.
  run_step Hr.
  assert (w0 = w) as ->.
  { destruct (truthy a); [run_step Hrun; lift_step Hrun0|]; lift_step Hrun;
      reflexivity. }
  clear Hrun.
  run_step Hr. lift_step Hrun.
  run_step Hr. rename a2 into movie_details, Hrun into Hdetails.
  run_step Hr. lift_step Hrun.
  run_step Hr. clear Hrun.
  run_step Hr. lift_step Hrun.
  run_step Hr. clear Hrun.
  run_step Hr. lift_step Hrun.
  run_step Hr. lift_step Hrun.
  run_step Hr. clear Hrun.
  run_step Hr. lift_step Hrun.
  run_step Hr. lift_step Hrun.
  run_step Hr. lift_step Hrun.
  run_step Hr. lift_step Hrun.
  lift_step Hr.
  match goal with
  | Hid : subscript movie "id" = Ok ?id,
    Hget : get_movie_details self ?id w = (Ok movie_details, ?w1),
    Hage : card_age_rating movie_details = Ok _ |- _ =>
      exists id, movie_details, w1; repeat split; try assumption;
      rewrite <- (card_age_rating_first_us _ _ Hage)
  end.
  reflexivity.
Qed.

End Card.

Lemma card_age_rating_of_first_us_entry_witness :
  exists movie_id movie_details w1,
    subscript matrix "id" = Ok movie_id /\
    @get_movie_details scalar_str tmdb_only movie_id
      (replies [HttpBody matrix_details; HttpBody matrix_providers;
                HttpBody teaser_then_trailer])
    = (Ok movie_details, w1) /\
    subscript matrix_card "age_rating"
    = Ok (first_us_entry_age_rating movie_details).
Proof.
  eapply (@card_age_rating_of_first_us_entry scalar_str tmdb_only matrix).
  vm_compute. reflexivity.
Defined.

(** C8.  On a detail object with two US entries, the first without a
    certification and the second rated R, the card shows 'Not Rated', where
    a scan of the release-date entries of the US entries finds R, and where
    [get_age_rating_from_details] returns R on that same object. *)
Theorem card_age_rating_ignores_later_us_entries :
  (card <- fst (@format_movie_card scalar_str tmdb_only matrix
                  (replies [HttpBody two_us_entries])) ;;
   subscript card "age_rating")%result = Ok (JStr "Not Rated") /\
  spec_age_rating two_us_entries = JStr "R" /\
  get_age_rating_from_details two_us_entries = Ok (JStr "R").
Proof.
  repeat split; vm_compute; reflexivity.
Qed.

Lemma find_head_filter {A : Type} (f : A -> bool) (l : list A) :
  find f l = hd_error (filter f l).
Proof.
  induction l as [|x l IH]; simpl; [reflexivity|].
  destruct (f x); [reflexivity|exact IH].
Qed.

(** With at most one US entry, as the provider lists countries, the two
    readings of the age rating agree. *)
Lemma one_us_entry_age_rating (movie_details : json) :
  (length (filter is_us_entry (country_entries movie_details)) <= 1)%nat ->
  spec_age_rating movie_details = first_us_entry_age_rating movie_details.
Proof.
  unfold spec_age_rating, first_us_entry_age_rating.
  rewrite find_head_filter.
  destruct (filter is_us_entry (country_entries movie_details)) as [|c [|c' l]];
    simpl; intros Hlen.
  - reflexivity.
  - rewrite app_nil_r. reflexivity.
  - lia.
Qed.

(** ** The certification of a detail object *)

(** What [get_age_rating_from_details] returns is the first rated
    certification among the release-date entries of the US entries, in
    provider order. *)

Lemma find_app {A : Type} (f : A -> bool) (l1 l2 : list A) :
  find f (l1 ++ l2) = match find f l1 with
                      | Some x => Some x
                      | None => find f l2
                      end.
Proof.
  induction l1 as [|x l1 IH]; simpl; [reflexivity|].
  destruct (f x); [reflexivity|exact IH].
Qed.

Lemma scan_releases_find (releases : list json) (found : option json) :
  scan_releases releases = Ok found ->
  found = option_map (field_or_null "certification") (find is_rated releases).
Proof.
  induction releases as [|release rest IH]; simpl.
  - intros [= <-]. reflexivity.
  - intros Hr. run_step Hr.
    apply method_get_Ok in Hval as (d & -> & ->).
    assert (Hf : field_or_null "certification" (JDict d)
                 = match dict_get "certification" d with
                   | Some y => y
                   | None => JNull
                   end) by reflexivity.
    unfold is_rated at 1. rewrite Hf.
    destruct (dict_get "certification" d) as [c|] eqn:E; [|simpl in Hr; auto].
    destruct (truthy c) eqn:Ht.
    + run_step Hr. destruct c; simpl in Hval; try discriminate.
      injection Hval as <-.
      change (truthy (JStr (strip s)))
        with (negb (String.eqb (strip s) "")) in Hr.
      destruct (negb (String.eqb (strip s) "")) eqn:Hs; [|auto].
      injection Hr as <-. cbn [option_map]. rewrite Hf. reflexivity.
    + destruct c; simpl in Ht; auto.
      apply negb_false_iff, String.eqb_eq in Ht. subst s. simpl. auto.
Qed.

Lemma scan_releases_iter (dates : json) (releases : list json) (found : option json) :
  py_iter dates = Ok releases ->
  scan_releases releases = Ok found ->
  found = option_map (field_or_null "certification")
            (find is_rated (entries_of dates)).
Proof.
  destruct dates as [| | | |s|l|d]; simpl; try discriminate; intros [= <-].
  - destruct s; simpl; [intros [= <-]; reflexivity|discriminate].
  - apply scan_releases_find.
  - destruct d as [|[k v] d]; simpl; [intros [= <-]; reflexivity|discriminate].
Qed.

Lemma scan_countries_find (countries : list json) (found : option json) :
  scan_countries countries = Ok found ->
  found = option_map (field_or_null "certification")
            (find is_rated
               (flat_map release_entries (filter is_us_entry countries))).
Proof.
  induction countries as [|c rest IH]; simpl.
  - intros [= <-]. reflexivity.
  - intros Hr. run_step Hr. unfold is_us_entry at 1.
    rewrite (subscript_field _ _ _ Hval).
    destruct (eq_str a "US"); [|auto].
    run_step Hr. run_step Hr. run_step Hr.
    match goal with
    | Hit : py_iter ?dates = Ok ?rs, Hscan : scan_releases ?rs = Ok ?f |- _ =>
        pose proof (scan_releases_iter _ _ _ Hit Hscan) as Hfound
    end.
    cbn [flat_map]. rewrite find_app. unfold release_entries at 1.
    rewrite (subscript_field _ _ _ Hval0).
    destruct (find is_rated (entries_of a0)) as [release|];
      cbn [option_map] in Hfound; subst; cbn iota in Hr.
    + injection Hr as <-. reflexivity.
    + auto.
Qed.

Lemma scan_countries_iter (results : json) (countries : list json)
    (found : option json) :
  py_iter results = Ok countries ->
  scan_countries countries = Ok found ->
  found = option_map (field_or_null "certification")
            (find is_rated
               (flat_map release_entries
                  (filter is_us_entry (entries_of results)))).
Proof.
  destruct results as [| | | |s|l|d]; simpl; try discriminate; intros [= <-].
  - destruct s; simpl; [intros [= <-]; reflexivity|discriminate].
  - apply scan_countries_find.
  - destruct d as [|[k v] d]; simpl; [intros [= <-]; reflexivity|discriminate].
Qed.

Lemma get_age_rating_from_details_find (movie_details r : json) :
  get_age_rating_from_details movie_details = Ok r ->
  r = us_certification movie_details.
Proof.
  unfold get_age_rating_from_details, us_certification, country_entries.
  destruct (truthy movie_details) eqn:Ht; cbn [negb].
  - intros Hr. run_step Hr. destruct a; cbn [negb] in Hr.
    + run_step Hr. run_step Hr. run_step Hr. run_step Hr.
      rewrite (subscript_field _ _ _ Hval0), (subscript_field _ _ _ Hval1).
      match goal with
      | Hit : py_iter _ = Ok _, Hscan : scan_countries _ = Ok _ |- _ =>
          pose proof (scan_countries_iter _ _ _ Hit Hscan) as Hfound
      end.
      destruct (find is_rated _) as [release|]; cbn [option_map] in Hfound;
        subst; injection Hr as <-; reflexivity.
    + injection Hr as <-.
      destruct movie_details as [| | | |s|l|d]; simpl in *; try reflexivity.
      destruct (dict_get "release_dates" d); [discriminate|reflexivity].
  - intros [= <-].
    destruct movie_details as [| | | |s|l|d]; simpl in *; try reflexivity.
    destruct d; [reflexivity|discriminate].
Qed.

(** ** What a run adds to the trace *)

Lemma bind_run {A B : Type} (m : M A) (k : A -> M B) (w w' : world)
    (r : result B) :
  bind m k w = (r, w') ->
  (exists a w1, m w = (Ok a, w1) /\ k a w1 = (r, w')) \/
  (exists e, m w = (Raise e, w') /\ r = Raise e).
Proof.
  unfold bind. destruct (m w) as [[a|e] w1]; intros Hk.
  - left; exists a, w1; auto.
  - right; exists e. injection Hk as <- <-. auto.
Qed.

Lemma extends_refl (w : world) : extends w w [].
Proof. unfold extends. rewrite app_nil_r. reflexivity. Qed.

Lemma extends_trans (w w1 w2 : world) (new1 new2 : list event) :
  extends w w1 new1 -> extends w1 w2 new2 -> extends w w2 (new1 ++ new2).
Proof.
  unfold extends. intros H1 H2. rewrite H2, H1, app_assoc. reflexivity.
Qed.

Lemma requests_get_json_run (url : string) (params : list (string * json))
    (w w' : world) (r : result json) :
  requests_get_json url params w = (r, w') ->
  extends w w' [HttpGet url params (next_http w)] /\
  messages w' = messages w /\
  match next_http w with
  | HttpFailure msg => r = Raise (RequestException msg)
  | HttpBody body => r = Ok body
  end.
Proof.
  unfold requests_get_json, extends.
  destruct (next_http w); intros [= <- <-]; simpl; auto.
Qed.

Lemma st_error_run (prefix : string) (e : exn) (w w' : world) (r : result unit) :
  st_error prefix e w = (r, w') ->
  r = Ok tt /\ trace w' = trace w /\
  messages w' = (messages w ++ [StError prefix e])%list.
Proof.
  unfold st_error. intros [= <- <-]; simpl; auto.
Qed.

Section Discovery.
Context `{PyStr}.
Variable self : MovieRecommender.

(** A details call makes at most one request and never raises. *)
Lemma get_movie_details_run (movie_id : json) (w w' : world) (r : result json) :
  get_movie_details self movie_id w = (r, w') ->
  exists movie_details new,
    r = Ok movie_details /\ extends w w' new /\
    (truthy movie_details = true -> fetched_details new movie_id movie_details).
Proof.
  unfold get_movie_details.
  destruct (key_set (tmdb_api_key self)); simpl.
  - unfold except_request.
    destruct (requests_get_json _ _ w) as [r1 w1] eqn:Hget.
    apply requests_get_json_run in Hget as (Hext & _ & Hreply).
    destruct (next_http w) as [msg|body] eqn:Hnext; subst r1.
    + unfold bind. destruct (st_error _ _ w1) as [r2 w2] eqn:Herr.
      apply st_error_run in Herr as (-> & Htr & _).
      unfold ret. intros [= <- <-].
      exists JNull; eexists; split; [reflexivity|split].
      * unfold extends in *. rewrite Htr. exact Hext.
      * discriminate.
    + intros [= <- <-].
      exists body; eexists; split; [reflexivity|split; [exact Hext|]].
      intros _. eexists. left. reflexivity.
  - unfold ret. intros [= <- <-].
    exists JNull, []; split; [reflexivity|split; [apply extends_refl|discriminate]].
Qed.

Lemma scan_releases_str (releases : list json) (certification : json) :
  scan_releases releases = Ok (Some certification) ->
  exists s, certification = JStr s.
Proof.
  induction releases as [|release rest IH]; simpl; [discriminate|].
  intros Hr. run_step Hr.
  destruct (truthy a) eqn:Ht; [|auto].
  run_step Hr.
  destruct (negb (String.eqb a0 "")); [|auto].
  injection Hr as <-.
  destruct a; simpl in Hval0; try discriminate. eauto.
Qed.

Lemma scan_countries_str (countries : list json) (certification : json) :
  scan_countries countries = Ok (Some certification) ->
  exists s, certification = JStr s.
Proof.
  induction countries as [|country rest IH]; simpl; [discriminate|].
  intros Hr. run_step Hr.
  destruct (eq_str a "US"); [|auto].
  run_step Hr. run_step Hr. run_step Hr.
  match type of Hr with
  | match ?found with _ => _ end = _ => destruct found as [c|]
  end; [|auto].
  injection Hr as <-. eapply scan_releases_str; eassumption.
Qed.

(** The resolved certification is always a [str]. *)
Lemma get_age_rating_from_details_str (movie_details r : json) :
  get_age_rating_from_details movie_details = Ok r ->
  exists s, r = JStr s.
Proof.
  unfold get_age_rating_from_details.
  destruct (truthy movie_details); simpl; [|intros [= <-]; eauto].
  intros Hr. run_step Hr.
  destruct a; simpl in Hr; [|injection Hr as <-; eauto].
  run_step Hr. run_step Hr. run_step Hr. run_step Hr.
  match type of Hr with
  | match ?found with _ => _ end = _ => destruct found as [c|]
  end; injection Hr as <-; [|eauto].
  eapply scan_countries_str; eassumption.
Qed.

Lemma allowed_rating (age_ratings : list string) (rating : string) :
  existsb (eq_str (JStr rating)) age_ratings || eq_str (JStr rating) not_rated = true ->
  In rating age_ratings \/ rating = not_rated.
Proof.
  intros Hb. apply orb_true_iff in Hb as [Hb|Hb].
  - left. apply existsb_exists in Hb as (a & Hin & Heq).
    simpl in Heq. apply String.eqb_eq in Heq. subst; exact Hin.
  - right. simpl in Hb. apply String.eqb_eq in Hb. exact Hb.
Qed.

Lemma fetched_details_more (before new : list event) (movie_id movie_details : json) :
  fetched_details new movie_id movie_details ->
  fetched_details (before ++ new) movie_id movie_details.
Proof.
  intros (params & Hin). exists params. apply in_or_app; auto.
Qed.

Lemma fetched_details_less (new after : list event) (movie_id movie_details : json) :
  fetched_details new movie_id movie_details ->
  fetched_details (new ++ after) movie_id movie_details.
Proof.
  intros (params & Hin). exists params. apply in_or_app; auto.
Qed.

(** The client-side loop: it only adds calls, and every movie it keeps is a
    server result whose details were fetched in the loop and carry an
    allowed US certification. *)
Lemma filter_results_run (age_ratings : list string) (results : list json) :
  forall (w w' : world) (r : result (list json)),
    filter_results self age_ratings results w = (r, w') ->
    exists new,
      extends w w' new /\
      forall kept, r = Ok kept ->
        subsequence kept results /\
        Forall (fun movie =>
                  exists movie_id movie_details,
                    subscript movie "id" = Ok movie_id /\
                    fetched_details new movie_id movie_details /\
                    certification_allowed age_ratings movie_details) kept.
Proof.
  induction results as [|movie rest IH]; intros w w' r; simpl.
  - unfold ret. intros [= <- <-]. exists []. split; [apply extends_refl|].
    intros kept [= <-]. split; constructor.
  - intros Hr. apply bind_run in Hr as [(movie_id & w0 & Hid & Hr)|(e & Hid & ->)].
    2:{ unfold lift in Hid. injection Hid as _ <-.
        exists []; split; [apply extends_refl|discriminate]. }
    unfold lift in Hid. injection Hid as Hid <-.
    apply bind_run in Hr as [(movie_details & w1 & Hdet & Hr)|(e & Hdet & ->)].
    2:{ apply get_movie_details_run in Hdet as (d & new & Hd & _). discriminate. }
    apply get_movie_details_run in Hdet as (d & new1 & [= <-] & Hext1 & Hfetch).
    destruct (truthy movie_details) eqn:Ht.
    2:{ apply IH in Hr as (new2 & Hext2 & Hkept).
        exists (new1 ++ new2)%list. split; [eapply extends_trans; eassumption|].
        intros kept Hk. destruct (Hkept kept Hk) as [Hsub Hall].
        split; [constructor; exact Hsub|].
        eapply Forall_impl; [|exact Hall]. simpl.
        intros m (i & dd & ? & ? & ?). exists i, dd.
        repeat split; auto using fetched_details_more. }
    apply bind_run in Hr as [(rating & w2 & Hrat & Hr)|(e & Hrat & ->)].
    2:{ unfold lift in Hrat. injection Hrat as _ <-.
        exists new1; split; [exact Hext1|discriminate]. }
    unfold lift in Hrat. injection Hrat as Hrat <-.
    destruct (get_age_rating_from_details_str _ _ Hrat) as (s & ->).
    destruct (existsb (eq_str (JStr s)) age_ratings || eq_str (JStr s) not_rated)
      eqn:Hallowed.
    2:{ apply IH in Hr as (new2 & Hext2 & Hkept).
        exists (new1 ++ new2)%list. split; [eapply extends_trans; eassumption|].
        intros kept Hk. destruct (Hkept kept Hk) as [Hsub Hall].
        split; [constructor; exact Hsub|].
        eapply Forall_impl; [|exact Hall]. simpl.
        intros m (i & dd & ? & ? & ?). exists i, dd.
        repeat split; auto using fetched_details_more. }
    apply bind_run in Hr as [(filtered & w3 & Hrest & Hr)|(e & Hrest & ->)].
    2:{ apply IH in Hrest as (new2 & Hext2 & _).
        exists (new1 ++ new2)%list. split; [eapply extends_trans; eassumption|].
        discriminate. }
    unfold ret in Hr. injection Hr as <- <-.
    apply IH in Hrest as (new2 & Hext2 & Hkept).
    exists (new1 ++ new2)%list. split; [eapply extends_trans; eassumption|].
    intros kept [= <-]. destruct (Hkept filtered eq_refl) as [Hsub Hall].
    split; [constructor; exact Hsub|].
    constructor.
    + exists movie_id, movie_details. split; [exact Hid|split].
      * apply fetched_details_less. auto.
      * exists s. split; [|apply allowed_rating; exact Hallowed].
        symmetry. apply get_age_rating_from_details_find. exact Hrat.
    + eapply Forall_impl; [|exact Hall]. simpl.
      intros m (i & dd & ? & ? & ?). exists i, dd.
      repeat split; auto using fetched_details_more.
Qed.

(** What the expressions of the client-side loop raise is raised locally. *)
Lemma rbind_Raise {A B : Type} (r : result A) (k : A -> result B) (e : exn) :
  rbind r k = Raise e -> r = Raise e \/ exists a, r = Ok a /\ k a = Raise e.
Proof.
  destruct r as [a|e']; simpl; intros Hk; [eauto|].
  left. injection Hk as ->. reflexivity.
Qed.

Lemma subscript_Raise (v : json) (key : string) (e : exn) :
  subscript v key = Raise e -> raised_locally e = true.
Proof.
  destruct v; simpl; try (intros [= <-]; reflexivity).
  destruct (dict_get key d); [discriminate|intros [= <-]; reflexivity].
Qed.

Lemma method_get_Raise (v : json) (key : string) (default : json) (e : exn) :
  method_get v key default = Raise e -> raised_locally e = true.
Proof.
  destruct v; simpl; try (intros [= <-]; reflexivity).
  destruct (dict_get key d); discriminate.
Qed.

Lemma py_iter_Raise (v : json) (e : exn) :
  py_iter v = Raise e -> raised_locally e = true.
Proof.
  destruct v; simpl; try discriminate; intros [= <-]; reflexivity.
Qed.

Lemma scan_releases_Raise (releases : list json) (e : exn) :
  scan_releases releases = Raise e -> raised_locally e = true.
Proof.
  induction releases as [|release rest IH]; simpl; [discriminate|].
  intros Hr. apply rbind_Raise in Hr as [Hr|(c & _ & Hr)].
  - eapply method_get_Raise; exact Hr.
  - destruct (truthy c); [|auto].
    apply rbind_Raise in Hr as [Hr|(stripped & _ & Hr)].
    + destruct c; simpl in Hr; try discriminate; injection Hr as <-; reflexivity.
    + destruct (negb (String.eqb stripped "")); [discriminate|auto].
Qed.

Lemma scan_countries_Raise (countries : list json) (e : exn) :
  scan_countries countries = Raise e -> raised_locally e = true.
Proof.
  induction countries as [|country rest IH]; simpl; [discriminate|].
  intros Hr. apply rbind_Raise in Hr as [Hr|(iso & _ & Hr)].
  - eapply subscript_Raise; exact Hr.
  - destruct (eq_str iso "US"); [|auto].
    apply rbind_Raise in Hr as [Hr|(dates & _ & Hr)];
      [eapply subscript_Raise; exact Hr|].
    apply rbind_Raise in Hr as [Hr|(releases & _ & Hr)];
      [eapply py_iter_Raise; exact Hr|].
    apply rbind_Raise in Hr as [Hr|(found & _ & Hr)];
      [eapply scan_releases_Raise; exact Hr|].
    destruct found; [discriminate|auto].
Qed.

Lemma get_age_rating_from_details_Raise (movie_details : json) (e : exn) :
  get_age_rating_from_details movie_details = Raise e -> raised_locally e = true.
Proof.
  unfold get_age_rating_from_details.
  destruct (negb (truthy movie_details)); [discriminate|].
  intros Hr. apply rbind_Raise in Hr as [Hr|(present & _ & Hr)].
  - destruct movie_details; simpl in Hr; try discriminate;
      injection Hr as <-; reflexivity.
  - destruct (negb present); [discriminate|].
    apply rbind_Raise in Hr as [Hr|(release_dates & _ & Hr)];
      [eapply subscript_Raise; exact Hr|].
    apply rbind_Raise in Hr as [Hr|(results & _ & Hr)];
      [eapply subscript_Raise; exact Hr|].
    apply rbind_Raise in Hr as [Hr|(countries & _ & Hr)];
      [eapply py_iter_Raise; exact Hr|].
    apply rbind_Raise in Hr as [Hr|(found & _ & Hr)];
      [eapply scan_countries_Raise; exact Hr|].
    destruct found; discriminate.
Qed.

(** With a key, a details call is one request for the identifier, and it
    returns what the request answered, [None] on a failure. *)
Lemma get_movie_details_event (movie_id : json) (w w' : world) (r : result json) :
  key_set (tmdb_api_key self) = true ->
  get_movie_details self movie_id w = (r, w') ->
  r = Ok (match next_http w with
          | HttpBody movie_details => movie_details
          | HttpFailure _ => JNull
          end) /\
  trace w'
  = (trace w
     ++ [HttpGet (details_url movie_id)
           [("api_key", key_json (tmdb_api_key self));
            ("append_to_response", JStr "watch/providers,release_dates,videos")]
           (next_http w)])%list.
Proof.
  intros Hkey. unfold get_movie_details. rewrite Hkey. cbn [negb].
  unfold except_request, requests_get_json, bind, st_error, ret.
  destruct (next_http w); intros [= <- <-]; split; reflexivity.
Qed.

Lemma allowed_certification_str (age_ratings : list string) (rating : string) :
  existsb (eq_str (JStr rating)) age_ratings || eq_str (JStr rating) not_rated
  = allowed_certification age_ratings (JStr rating).
Proof.
  reflexivity.
Qed.

(** With a key, the client-side loop asks for the details of every server
    result, in order, and keeps exactly those that pass the check on the
    reply; what it raises, it raises locally. *)
Lemma filter_results_exact (age_ratings : list string) (results : list json) :
  key_set (tmdb_api_key self) = true ->
  forall (w w' : world) (r : result (list json)),
    filter_results self age_ratings results w = (r, w') ->
    match r with
    | Ok kept =>
        exists replies,
          length replies = length results /\
          trace w'
          = (trace w ++ map (details_call self) (combine results replies))%list /\
          kept = map fst (filter (passes_check age_ratings)
                            (combine results replies))
    | Raise e => raised_locally e = true
    end.
Proof.
  intros Hkey. induction results as [|movie rest IH]; intros w w' r.
  - simpl. unfold ret. intros [= <- <-]. exists []. simpl.
    rewrite app_nil_r. auto.
  - cbn [filter_results]. intros Hr.
    apply bind_run in Hr as [(movie_id & w0 & Hid & Hr)|(e & Hid & ->)].
    2:{ unfold lift in Hid. injection Hid as Hid _.
        eapply subscript_Raise; exact Hid. }
    unfold lift in Hid. injection Hid as Hid <-.
    apply bind_run in Hr as [(movie_details & w1 & Hdet & Hr)|(e & Hdet & ->)].
    2:{ apply (get_movie_details_event _ _ _ _ Hkey) in Hdet as [Hno _].
        discriminate. }
    apply (get_movie_details_event _ _ _ _ Hkey) in Hdet as [Hdet Htr].
    injection Hdet as ->.
    assert (Hstep : forall kept keep,
              passes_check age_ratings (movie, next_http w) = keep ->
              (exists replies,
                 length replies = length rest /\
                 trace w'
                 = (trace w1 ++ map (details_call self) (combine rest replies))%list /\
                 kept = map fst (filter (passes_check age_ratings)
                                   (combine rest replies))) ->
              exists replies,
                length replies = length (movie :: rest) /\
                trace w'
                = (trace w ++ map (details_call self)
                                (combine (movie :: rest) replies))%list /\
                (if keep then movie :: kept else kept)
                = map fst (filter (passes_check age_ratings)
                             (combine (movie :: rest) replies))).
    { intros kept keep Hkeep (replies & Hlen & Htr2 & ->).
      exists (next_http w :: replies). split; [simpl; lia|]. split.
      - rewrite Htr2, Htr, <- app_assoc. cbn [combine map app].
        unfold details_call at 2. cbn [fst snd].
        rewrite (subscript_field _ _ _ Hid). reflexivity.
      - cbn [combine filter]. rewrite Hkeep. destruct keep; reflexivity. }
    destruct (truthy _) eqn:Ht in Hr.
    2:{ pose proof (IH _ _ _ Hr) as Hrest. destruct r as [kept|e]; [|exact Hrest].
        apply (Hstep kept false); [|exact Hrest].
        unfold passes_check. cbn [snd].
        destruct (next_http w); [reflexivity|]. rewrite Ht. reflexivity. }
    destruct (next_http w) as [msg|body] eqn:Hnext; [discriminate|].
    apply bind_run in Hr as [(rating & w2 & Hrat & Hr)|(e & Hrat & ->)].
    2:{ unfold lift in Hrat. injection Hrat as Hrat _.
        eapply get_age_rating_from_details_Raise; exact Hrat. }
    unfold lift in Hrat. injection Hrat as Hrat <-.
    destruct (get_age_rating_from_details_str _ _ Hrat) as (s & ->).
    pose proof (get_age_rating_from_details_find _ _ Hrat) as Hus.
    rewrite allowed_certification_str in Hr.
    assert (Hcheck : passes_check age_ratings (movie, HttpBody body)
                     = allowed_certification age_ratings (JStr s)).
    { unfold passes_check. cbn [snd]. rewrite Ht, <- Hus. reflexivity. }
    destruct (allowed_certification age_ratings (JStr s)).
    + apply bind_run in Hr as [(filtered & w3 & Hrest & Hr)|(e & Hrest & ->)].
      2:{ apply IH in Hrest. exact Hrest. }
      unfold ret in Hr. injection Hr as <- <-.
      apply IH in Hrest. apply (Hstep filtered true Hcheck Hrest).
    + pose proof (IH _ _ _ Hr) as Hrest. destruct r as [kept|e]; [|exact Hrest].
      apply (Hstep kept false Hcheck Hrest).
Qed.

End Discovery.

Section DiscoveryResults.
Context `{PyStr}.
Variable self : MovieRecommender.

(** With a non-empty set of certifications, every movie in the list that
    discovery returns is one whose details were fetched during the call and
    whose US certification is in the requested set or is 'Not Rated'. *)
Lemma discover_results_fetched (genres : list string) (year : option Z)
    (age_ratings : list string) (sort_by : string) (page : Z)
    (w w' : world) (out : list json) :
  age_ratings <> [] ->
  discover_movies self genres year age_ratings sort_by page w = (Ok (JList out), w') ->
  exists new,
    extends w w' new /\
    Forall (fun movie =>
              exists movie_id movie_details,
                subscript movie "id" = Ok movie_id /\
                fetched_details new movie_id movie_details /\
                certification_allowed age_ratings movie_details) out.
Proof.
  intros Hsome. unfold discover_movies.
  destruct (key_set (tmdb_api_key self)); simpl.
  2:{ unfold ret. intros [= <- <-]. exists [].
      split; [apply extends_refl|constructor]. }
  unfold except_request.
  match goal with
  | |- match ?body w with _ => _ end = _ -> _ =>
      destruct (body w) as [[v|e] w1] eqn:Hbody
  end.
  - intros Hout. injection Hout as -> ->.
    apply bind_run in Hbody as [(response & w0 & Hget & Hbody)|(e & _ & Hno)];
      [|discriminate].
    apply requests_get_json_run in Hget as (Hext0 & _ & _).
    apply bind_run in Hbody as [(results & w1 & Hres & Hbody)|(e & _ & Hno)];
      [|discriminate].
    unfold lift in Hres. injection Hres as Hres <-.
    destruct age_ratings as [|rating ratings]; [contradiction|]. simpl in Hbody.
    destruct (truthy results) eqn:Ht.
    + apply bind_run in Hbody as [(items & w2 & Hit & Hbody)|(e & _ & Hno)];
        [|discriminate].
      unfold lift in Hit. injection Hit as Hit <-.
      apply bind_run in Hbody as [(filtered & w3 & Hfil & Hbody)|(e & _ & Hno)];
        [|discriminate].
      unfold ret in Hbody. injection Hbody as <- <-.
      apply filter_results_run in Hfil as (new & Hext & Hkept).
      destruct (Hkept filtered eq_refl) as [_ Hall].
      eexists. split; [eapply extends_trans; eassumption|].
      eapply Forall_impl; [|exact Hall]. simpl.
      intros m (i & dd & ? & ? & ?). exists i, dd.
      repeat split; auto.
      apply (fetched_details_more [_]). assumption.
    + unfold ret in Hbody. injection Hbody as -> <-.
      simpl in Ht. destruct out; [|discriminate].
      eexists. split; [exact Hext0|constructor].
  - destruct e as [k| | |msg|msg]; try discriminate.
    unfold bind. destruct (st_error _ _ w1) as [r2 w2] eqn:Herr.
    apply st_error_run in Herr as (-> & Htr & _).
    unfold ret. intros [= <- <-].
    apply bind_run in Hbody as [(response & w0 & Hget & Hbody)|(e & Hget & _)].
    + apply requests_get_json_run in Hget as (Hext0 & _ & _).
      apply bind_run in Hbody as [(results & w3 & Hres & Hbody)|(e & Hres & _)].
      * unfold lift in Hres. injection Hres as Hres <-.
        destruct (nonempty age_ratings && truthy results).
        -- apply bind_run in Hbody as [(items & w4 & Hit & Hbody)|(e & Hit & _)].
           ++ unfold lift in Hit. injection Hit as Hit <-.
              apply bind_run in Hbody
                as [(filtered & w5 & Hfil & Hbody)|(e & Hfil & _)].
              ** discriminate.
              ** apply filter_results_run in Hfil as (new & Hext & _).
                 eexists. split; [|constructor].
                 unfold extends in *. rewrite Htr.
                 rewrite Hext, Hext0, <- app_assoc. reflexivity.
           ++ unfold lift in Hit. injection Hit as _ <-.
              eexists. split; [|constructor].
              unfold extends in *. rewrite Htr. exact Hext0.
        -- discriminate.
      * unfold lift in Hres. injection Hres as _ <-.
        eexists. split; [|constructor].
        unfold extends in *. rewrite Htr. exact Hext0.
    + apply requests_get_json_run in Hget as (Hext0 & _ & _).
      eexists. split; [|constructor].
      unfold extends in *. rewrite Htr. exact Hext0.
Qed.

(** C1.  With a non-empty set of certifications, every movie in the list
    that discovery returns is one whose details were fetched during the call
    and whose US certification is in the requested set or is 'Not Rated'.
    The US certification is read off the fetched details: it is the first
    certification with a character that is not white space among the
    release-date entries of their US entries, in provider order, and
    'Not Rated' when there is none.  The list is all of them: when the
    provider answers the discovery request with a list, discovery asks for
    the details of every item, in order, and returns exactly the items
    whose details came back non-empty with such a certification. *)
Theorem discover_results_certified (genres : list string) (year : option Z)
    (age_ratings : list string) (sort_by : string) (page : Z)
    (w w' : world) (out : list json) :
  age_ratings <> [] ->
  discover_movies self genres year age_ratings sort_by page w = (Ok (JList out), w') ->
  exists new,
    extends w w' new /\
    Forall (fun movie =>
              exists movie_id movie_details,
                subscript movie "id" = Ok movie_id /\
                fetched_details new movie_id movie_details /\
                certification_allowed age_ratings movie_details) out /\
    (key_set (tmdb_api_key self) = true ->
     forall body items,
       next_http w = HttpBody body ->
       method_get body "results" (JList []) = Ok (JList items) ->
       exists replies,
         length replies = length items /\
         new = HttpGet discover_url
                 (discover_params self genres year age_ratings sort_by page)
                 (HttpBody body)
               :: map (details_call self) (combine items replies) /\
         out = map fst (filter (passes_check age_ratings)
                          (combine items replies))).
Proof.
  intros Hsome Hrun.
  destruct (discover_results_fetched genres year age_ratings sort_by page
              w w' out Hsome Hrun) as (new & Hext & Hall).
  exists new. split; [exact Hext|]. split; [exact Hall|].
  intros Hkey body items Hnext Hres.
  assert (Hnew : forall calls,
            trace w' = (trace w ++ calls)%list -> new = calls).
  { intros calls Htr. unfold extends in Hext. rewrite Hext in Htr.
    apply app_inv_head in Htr. exact Htr. }
  unfold discover_movies in Hrun. rewrite Hkey in Hrun. cbn [negb] in Hrun.
  unfold except_request in Hrun. unfold bind at 1 in Hrun.
  unfold requests_get_json in Hrun. rewrite Hnext in Hrun.
  unfold bind at 1 in Hrun. unfold lift at 1 in Hrun. rewrite Hres in Hrun.
  destruct age_ratings as [|rating ratings]; [contradiction|].
  cbn [nonempty andb] in Hrun.
  destruct items as [|item items].
  - cbn [truthy] in Hrun. unfold ret in Hrun. injection Hrun as <- <-.
    exists []. split; [reflexivity|]. split; [|reflexivity].
    apply Hnew. reflexivity.
  - cbn [truthy] in Hrun. unfold bind at 1 in Hrun. unfold lift at 1 in Hrun.
    cbn [py_iter] in Hrun. unfold bind at 1 in Hrun.
    match type of Hrun with
    | context [filter_results self ?rs ?its ?start] =>
        destruct (filter_results self rs its start) as [[kept|e] w1] eqn:Hfil;
        apply (filter_results_exact self _ _ Hkey) in Hfil
    end.
    + unfold ret in Hrun. injection Hrun as <- <-.
      destruct Hfil as (replies & Hlen & Htr & Hkept).
      exists replies. split; [exact Hlen|]. split; [|exact Hkept].
      apply Hnew. rewrite Htr. cbn [trace]. rewrite <- app_assoc. reflexivity.
    + destruct e; discriminate.
Qed.

End DiscoveryResults.

Lemma discover_results_certified_witness :
  exists new replies,
    extends horror_world
      (snd (@discover_movies scalar_str tmdb_only ["Horror"] (Some 2020) ["R"]
              "popularity.desc" 1 horror_world)) new /\
    Forall (fun movie =>
              exists movie_id movie_details,
                subscript movie "id" = Ok movie_id /\
                @fetched_details scalar_str new movie_id movie_details /\
                certification_allowed ["R"] movie_details)
      [candidate 1 "Rated R" (70 # 10); candidate 3 "No US release" (60 # 10)] /\
    new = HttpGet discover_url
            (@discover_params scalar_str tmdb_only ["Horror"] (Some 2020) ["R"]
               "popularity.desc" 1)
            (HttpBody horror_page)
          :: map (@details_call scalar_str tmdb_only)
               (combine [candidate 1 "Rated R" (70 # 10);
                         candidate 2 "Rated PG-13" (65 # 10);
                         candidate 3 "No US release" (60 # 10)] replies) /\
    [candidate 1 "Rated R" (70 # 10); candidate 3 "No US release" (60 # 10)]
    = map fst (filter (passes_check ["R"])
                 (combine [candidate 1 "Rated R" (70 # 10);
                           candidate 2 "Rated PG-13" (65 # 10);
                           candidate 3 "No US release" (60 # 10)] replies)).
Proof.
  destruct (@discover_results_certified scalar_str tmdb_only ["Horror"]
              (Some 2020) ["R"] "popularity.desc" 1 horror_world
              (snd (@discover_movies scalar_str tmdb_only ["Horror"] (Some 2020)
                      ["R"] "popularity.desc" 1 horror_world))
              [candidate 1 "Rated R" (70 # 10);
               candidate 3 "No US release" (60 # 10)])
    as (new & Hext & Hall & Hexact).
  - discriminate.
  - vm_compute. reflexivity.
  - destruct (Hexact eq_refl horror_page
                [candidate 1 "Rated R" (70 # 10);
                 candidate 2 "Rated PG-13" (65 # 10);
                 candidate 3 "No US release" (60 # 10)] eq_refl eq_refl)
      as (replies & _ & Hnew & Hout).
    exists new, replies. repeat split; assumption.
Defined.

(** ** Network failures *)

Section Failures.
Context `{PyStr}.
Variable self : MovieRecommender.

(** When the request of a Metadata Client operation fails, the operation
    returns its empty result and does not raise.  Search, discovery and
    detail show an error message; trailer and streaming providers return
    without showing anything. *)
Lemma request_failure_degrades (w : world) (msg : string) :
  key_set (tmdb_api_key self) = true ->
  next_http w = HttpFailure msg ->
  (forall query, exists w',
     search_movies self query w = (Ok (JList []), w') /\
     messages w' =
       (messages w ++ [StError "Error searching movies: " (RequestException msg)])%list) /\
  (forall genres year age_ratings sort_by page, exists w',
     discover_movies self genres year age_ratings sort_by page w
       = (Ok (JList []), w') /\
     messages w' =
       (messages w ++ [StError "Error discovering movies: " (RequestException msg)])%list) /\
  (forall movie_id, exists w',
     get_movie_details self movie_id w = (Ok JNull, w') /\
     messages w' =
       (messages w ++ [StError "Error getting movie details: " (RequestException msg)])%list) /\
  (forall movie_id, exists w',
     get_movie_trailer self movie_id w = (Ok JNull, w') /\
     messages w' = messages w) /\
  (forall movie_id, exists w',
     get_streaming_providers self movie_id w = (Ok (JList []), w') /\
     messages w' = messages w).
Proof.
  intros Hkey Hnext.
  repeat split; intros;
    unfold search_movies, discover_movies, get_movie_details, get_movie_trailer,
      get_streaming_providers;
    rewrite Hkey; cbn [negb];
    unfold except_request, bind, requests_get_json;
    rewrite Hnext; eexists; split; reflexivity.
Qed.

End Failures.

Lemma request_failure_degrades_witness :
  (exists w',
     @search_movies tmdb_only "The Matrix" (replies [HttpFailure "503 Server Error"])
       = (Ok (JList []), w') /\
     messages w' =
       [StError "Error searching movies: " (RequestException "503 Server Error")]) /\
  (exists w',
     @get_movie_trailer scalar_str tmdb_only (JInt 603)
       (replies [HttpFailure "503 Server Error"]) = (Ok JNull, w') /\
     messages w' = []).
Proof.
  destruct (@request_failure_degrades scalar_str tmdb_only
              (replies [HttpFailure "503 Server Error"]) "503 Server Error"
              eq_refl eq_refl) as (Hsearch & _ & _ & Htrailer & _).
  split; [apply (Hsearch "The Matrix")|apply (Htrailer (JInt 603))].
Defined.

(** C6.  On a request that fails with a 503, the trailer operation and the
    streaming-providers operation return their empty result and leave
    nothing for the user to see, where the detail operation and the search,
    on that same failure, show the error. *)
Theorem trailer_and_providers_fail_silently :
  (let run := @get_movie_trailer scalar_str tmdb_only (JInt 603)
                (replies [HttpFailure "503 Server Error"]) in
   fst run = Ok JNull /\ messages (snd run) = []) /\
  (let run := @get_streaming_providers scalar_str tmdb_only (JInt 603)
                (replies [HttpFailure "503 Server Error"]) in
   fst run = Ok (JList []) /\ messages (snd run) = []) /\
  (let run := @get_movie_details scalar_str tmdb_only (JInt 603)
                (replies [HttpFailure "503 Server Error"]) in
   fst run = Ok JNull /\
   messages (snd run) = [StError "Error getting movie details: "
                           (RequestException "503 Server Error")]) /\
  (let run := @search_movies tmdb_only "The Matrix"
                (replies [HttpFailure "503 Server Error"]) in
   fst run = Ok (JList []) /\
   messages (snd run) = [StError "Error searching movies: "
                           (RequestException "503 Server Error")]).
Proof.
  repeat split.
Qed.

(** ** Free-text suggestions *)

Lemma first_match_length (ev : event) : (length (first_match ev) <= 1)%nat.
Proof.
  unfold first_match. destruct (truthy (answered_results ev)); [|simpl; lia].
  destruct (answered_results ev) as [| | | |s|l|d]; simpl; try lia.
  - destruct s; simpl; lia.
  - destruct l; simpl; lia.
Qed.

Lemma flat_map_first_match_length (new : list event) :
  (length (flat_map first_match new) <= length new)%nat.
Proof.
  induction new as [|ev new IH]; simpl; [lia|].
  rewrite length_app. pose proof (first_match_length ev). lia.
Qed.

Section FreeText.
Variable self : MovieRecommender.

(** One title search: at most one call, of the search endpoint; what it
    returns is what that call answered under [results]. *)
Lemma search_movies_run (query : string) (w w' : world) (r : result json) :
  search_movies self query w = (r, w') ->
  exists new,
    extends w w' new /\ (length new <= 1)%nat /\
    Forall (fun ev => is_title_search ev = true) new /\
    forall movies, r = Ok movies ->
      if truthy movies
      then exists ev, new = [ev] /\ answered_results ev = movies
      else flat_map first_match new = [].
Proof.
  unfold search_movies.
  destruct (key_set (tmdb_api_key self)); simpl.
  2:{ unfold ret. intros [= <- <-]. exists [].
      repeat split; [apply extends_refl|simpl; lia|constructor|].
      intros movies [= <-]. reflexivity. }
  unfold except_request.
  match goal with
  | |- match ?body w with _ => _ end = _ -> _ =>
      destruct (body w) as [[v|e] w1] eqn:Hbody
  end.
  - intros [= <- <-].
    apply bind_run in Hbody as [(response & w0 & Hget & Hbody)|(e & _ & Hno)];
      [|discriminate].
    apply requests_get_json_run in Hget as (Hext & _ & Hreply).
    unfold lift in Hbody. injection Hbody as Hres <-.
    destruct (next_http w) as [msg|body] eqn:Hnext; [discriminate|].
    injection Hreply as ->.
    eexists. repeat split; [exact Hext|simpl; lia|repeat constructor|].
    intros movies [= <-].
    destruct (truthy v) eqn:Ht.
    + eexists. split; [reflexivity|].
      unfold answered_results. rewrite Hres. reflexivity.
    + cbn [flat_map]. unfold first_match, answered_results.
      rewrite Hres, Ht. reflexivity.
  - apply bind_run in Hbody as [(response & w0 & Hget & Hbody)|(e' & Hget & He)].
    + apply requests_get_json_run in Hget as (Hext & _ & Hreply).
      unfold lift in Hbody. injection Hbody as Hres <-.
      destruct e as [k| | |msg|msg];
        try (intros [= <- <-]; eexists;
             repeat split; [exact Hext|simpl; lia|repeat constructor|discriminate]).
      destruct response; simpl in Hres; try discriminate.
      destruct (dict_get "results" d); discriminate.
    + apply requests_get_json_run in Hget as (Hext & _ & Hreply).
      destruct (next_http w) as [msg|body] eqn:Hnext; [|discriminate].
      injection Hreply as ->. injection He as ->.
      unfold bind. destruct (st_error _ _ w1) as [r2 w2] eqn:Herr.
      apply st_error_run in Herr as (-> & Htr & _).
      unfold ret. intros [= <- <-].
      eexists. repeat split;
        [unfold extends in *; rewrite Htr; exact Hext|simpl; lia
        |repeat constructor|].
      intros movies [= <-]. reflexivity.
Qed.

(** The search loop makes at most one title search per title and appends
    the first match of each. *)
Lemma search_titles_run (titles : list string) :
  forall (recommendations : list json) (w w' : world) (r : result (list json)),
    search_titles self titles recommendations w = (r, w') ->
    exists new,
      extends w w' new /\ (length new <= length titles)%nat /\
      Forall (fun ev => is_title_search ev = true) new /\
      forall found, r = Ok found ->
        found = (recommendations ++ flat_map first_match new)%list.
Proof.
  induction titles as [|title rest IH]; intros acc w w' r; simpl.
  - unfold ret. intros [= <- <-]. exists [].
    repeat split; [apply extends_refl|simpl; lia|constructor|].
    intros found [= <-]. simpl. rewrite app_nil_r. reflexivity.
  - intros Hr.
    apply bind_run in Hr as [(movies & w0 & Hs & Hr)|(e & Hs & ->)].
    2:{ apply search_movies_run in Hs as (new & Hext & Hlen & Hall & _).
        exists new. repeat split; [exact Hext|lia|exact Hall|discriminate]. }
    apply search_movies_run in Hs as (new1 & Hext1 & Hlen1 & Hall1 & Hmovies).
    specialize (Hmovies movies eq_refl).
    destruct (truthy movies) eqn:Ht.
    + destruct Hmovies as (ev & -> & Hans).
      apply bind_run in Hr as [(first & w1 & Hf & Hr)|(e & Hf & ->)].
      2:{ unfold lift in Hf. injection Hf as _ <-.
          eexists. repeat split; [exact Hext1|simpl; lia|exact Hall1|discriminate]. }
      unfold lift in Hf. injection Hf as Hf <-.
      apply bind_run in Hr as [(items & w2 & Hi & Hr)|(e & Hi & ->)].
      2:{ unfold lift in Hi. injection Hi as _ <-.
          eexists. repeat split; [exact Hext1|simpl; lia|exact Hall1|discriminate]. }
      unfold lift in Hi. injection Hi as Hi <-.
      apply IH in Hr as (new2 & Hext2 & Hlen2 & Hall2 & Hfound).
      exists ([ev] ++ new2)%list.
      repeat split;
        [eapply extends_trans; eassumption|simpl; lia
        |apply Forall_app; split; assumption|].
      intros found Hf'. rewrite (Hfound found Hf'), <- app_assoc.
      f_equal. simpl. f_equal.
      unfold first_match. rewrite Hans, Ht, Hf. simpl. rewrite Hi. reflexivity.
    + apply IH in Hr as (new2 & Hext2 & Hlen2 & Hall2 & Hfound).
      exists (new1 ++ new2)%list.
      repeat split;
        [eapply extends_trans; eassumption|rewrite length_app; simpl; lia
        |apply Forall_app; split; assumption|].
      intros found Hf'. rewrite (Hfound found Hf').
      rewrite flat_map_app, Hmovies. reflexivity.
Qed.

Lemma search_movies_listed (query : string) (w : world) :
  key_set (tmdb_api_key self) = true ->
  list_reply (next_http w) = true ->
  exists (matches : list json) (shown : list message),
    search_movies self query w
    = (Ok (JList matches),
       {| http_script := tl (http_script w); gen_script := gen_script w;
          trace := (trace w ++
                    [HttpGet search_url
                       [("api_key", key_json (tmdb_api_key self));
                        ("query", JStr query); ("language", JStr "en-US")]
                       (next_http w)])%list;
          messages := shown |}).
Proof.
  intros Hkey Hreply. unfold search_movies. rewrite Hkey. cbn [negb].
  unfold except_request, bind, requests_get_json, lift.
  destruct (next_http w) as [msg|body]; [eexists; eexists; reflexivity|].
  simpl in Hreply.
  destruct (method_get body "results" (JList [])) as [[| | | | |l|]|];
    try discriminate.
  eexists; eexists; reflexivity.
Qed.

(** On replies it can use, the search loop searches every title, in order. *)
Lemma search_titles_listed (titles : list string) :
  key_set (tmdb_api_key self) = true ->
  forall (recommendations : list json) (w : world),
    Forall (fun reply => list_reply reply = true) (http_script w) ->
    exists found searches w',
      search_titles self titles recommendations w = (Ok found, w') /\
      trace w' = (trace w ++ searches)%list /\
      map searched_title searches = map Some titles.
Proof.
  intros Hkey. induction titles as [|title rest IH]; intros acc w Hscript.
  - exists acc, [], w. simpl. rewrite app_nil_r. auto.
  - assert (Hnext : list_reply (next_http w) = true).
    { unfold next_http. destruct Hscript; [reflexivity|assumption]. }
    destruct (search_movies_listed title w Hkey Hnext) as (matches & shown & Hrun).
    set (w1 := {| http_script := tl (http_script w); gen_script := gen_script w;
                  trace := (trace w ++
                            [HttpGet search_url
                               [("api_key", key_json (tmdb_api_key self));
                                ("query", JStr title); ("language", JStr "en-US")]
                               (next_http w)])%list;
                  messages := shown |}) in *.
    assert (Hscript1 : Forall (fun reply => list_reply reply = true)
                         (http_script w1)).
    { subst w1. cbn [http_script]. destruct Hscript; [constructor|assumption]. }
    cbn [search_titles]. unfold bind at 1. rewrite Hrun.
    destruct matches as [|top others].
    + cbn [truthy].
      destruct (IH acc w1 Hscript1) as (found & searches & w' & Hloop & Htr & Hq).
      eexists found, (_ :: searches), w'. split; [exact Hloop|]. split.
      * rewrite Htr. subst w1. cbn [trace]. rewrite <- app_assoc. reflexivity.
      * cbn [map]. rewrite Hq. reflexivity.
    + cbn [truthy]. unfold bind at 1. unfold lift at 1. cbn [slice_to firstn].
      unfold bind at 1. unfold lift at 1. cbn [py_iter].
      destruct (IH (acc ++ [top])%list w1 Hscript1)
        as (found & searches & w' & Hloop & Htr & Hq).
      eexists found, (_ :: searches), w'. split; [exact Hloop|]. split.
      * rewrite Htr. subst w1. cbn [trace]. rewrite <- app_assoc. reflexivity.
      * cbn [map]. rewrite Hq. reflexivity.
Qed.

(** With a key, one title search is one call of the search endpoint for the
    query; it returns what the call answered under [results], and it raises
    only on a reply it cannot use. *)
Lemma search_movies_event (query : string) (w w' : world) (r : result json) :
  key_set (tmdb_api_key self) = true ->
  search_movies self query w = (r, w') ->
  exists ev,
    trace w' = (trace w ++ [ev])%list /\
    searched_title ev = Some query /\
    match r with
    | Ok movies => movies = answered_results ev
    | Raise _ => usable_answer ev = false
    end.
Proof.
  intros Hkey. unfold search_movies. rewrite Hkey. cbn [negb].
  unfold except_request, bind, requests_get_json, lift.
  destruct (next_http w) as [msg|body] eqn:Hnext.
  - unfold st_error, ret. intros [= <- <-]. eexists.
    split; [reflexivity|]. split; reflexivity.
  - destruct (method_get body "results" (JList [])) as [results|e] eqn:Hres.
    + intros [= <- <-]. eexists. split; [reflexivity|]. split; [reflexivity|].
      cbn [answered_results]. rewrite Hres. reflexivity.
    + destruct body; simpl in Hres; try discriminate;
        try (injection Hres as <-; intros [= <- <-]; eexists;
             split; [reflexivity|]; split; reflexivity).
      destruct (dict_get "results" d); discriminate.
Qed.

(** With a key, the search loop searches the titles in order, one call each,
    until a reply it cannot use; when it returns, it has searched them all
    and appended the first match of each search. *)
Lemma search_titles_exact (titles : list string) :
  key_set (tmdb_api_key self) = true ->
  forall (recommendations : list json) (w w' : world) (r : result (list json)),
    search_titles self titles recommendations w = (r, w') ->
    exists searches k,
      trace w' = (trace w ++ searches)%list /\
      map searched_title searches = map Some (firstn k titles) /\
      match r with
      | Ok found =>
          map searched_title searches = map Some titles /\
          found = (recommendations ++ flat_map first_match searches)%list
      | Raise _ =>
          exists before last,
            searches = (before ++ [last])%list /\ usable_answer last = false
      end.
Proof.
  intros Hkey. induction titles as [|title rest IH]; intros acc w w' r.
  - simpl. unfold ret. intros [= <- <-]. exists [], 0%nat.
    simpl. rewrite !app_nil_r. auto.
  - cbn [search_titles]. intros Hr.
    apply bind_run in Hr as [(movies & w0 & Hs & Hr)|(e & Hs & ->)].
    2:{ apply (search_movies_event _ _ _ _ Hkey) in Hs as (ev & Htr & Hq & Hbad).
        exists [ev], 1%nat. split; [exact Htr|]. split.
        - simpl. rewrite Hq. reflexivity.
        - exists [], ev. auto. }
    apply (search_movies_event _ _ _ _ Hkey) in Hs as (ev & Htr & Hq & ->).
    assert (Hstep : forall searches k,
              trace w' = (trace w0 ++ searches)%list ->
              map searched_title searches = map Some (firstn k rest) ->
              trace w' = (trace w ++ ev :: searches)%list /\
              map searched_title (ev :: searches)
              = map Some (firstn (S k) (title :: rest))).
    { intros searches k Htr2 Hk. split.
      - rewrite Htr2, Htr, <- app_assoc. reflexivity.
      - cbn [map firstn]. rewrite Hq, Hk. reflexivity. }
    destruct (truthy (answered_results ev)) eqn:Ht.
    + apply bind_run in Hr as [(first & w1 & Hf & Hr)|(e & Hf & ->)].
      2:{ unfold lift in Hf. injection Hf as Hf <-.
          exists [ev], 1%nat. split; [exact Htr|]. split.
          - simpl. rewrite Hq. reflexivity.
          - exists [], ev. split; [reflexivity|].
            destruct ev as [url params [msg|body]|]; simpl in *; try discriminate.
            destruct (method_get body "results" (JList [])) as [[| | | | |l|]|];
              simpl in *; try discriminate; reflexivity. }
      unfold lift in Hf. injection Hf as Hf <-.
      apply bind_run in Hr as [(items & w2 & Hi & Hr)|(e & Hi & ->)].
      2:{ unfold lift in Hi. injection Hi as Hi <-.
          exists [ev], 1%nat. split; [exact Htr|]. split.
          - simpl. rewrite Hq. reflexivity.
          - exists [], ev. split; [reflexivity|].
            destruct ev as [url params [msg|body]|]; simpl in *; try discriminate.
            destruct (method_get body "results" (JList [])) as [[| | | | |l|]|];
              simpl in *; try discriminate; try reflexivity.
            injection Hf as <-. discriminate. }
      unfold lift in Hi. injection Hi as Hi <-.
      apply IH in Hr as (searches & k & Htr2 & Hk & Hres).
      destruct (Hstep searches k Htr2 Hk) as [Htr' Hk'].
      exists (ev :: searches), (S k). split; [exact Htr'|]. split; [exact Hk'|].
      destruct r as [found|e].
      * destruct Hres as [Hall ->]. split.
        -- cbn [map]. rewrite Hq, Hall. reflexivity.
        -- rewrite <- app_assoc. f_equal. cbn [flat_map]. f_equal.
           unfold first_match. rewrite Ht, Hf. simpl. rewrite Hi. reflexivity.
      * destruct Hres as (before & last & -> & Hbad).
        exists (ev :: before), last. auto.
    + apply IH in Hr as (searches & k & Htr2 & Hk & Hres).
      destruct (Hstep searches k Htr2 Hk) as [Htr' Hk'].
      exists (ev :: searches), (S k). split; [exact Htr'|]. split; [exact Hk'|].
      destruct r as [found|e].
      * destruct Hres as [Hall ->]. split.
        -- cbn [map]. rewrite Hq, Hall. reflexivity.
        -- assert (Hnone : first_match ev = []).
           { unfold first_match. rewrite Ht. reflexivity. }
           cbn [flat_map]. rewrite Hnone. reflexivity.
      * destruct Hres as (before & last & -> & Hbad).
        exists (ev :: before), last. auto.
Qed.

End FreeText.

Lemma generate_content_text_run (model prompt : string) (w w' : world)
    (r : result string) :
  generate_content_text model prompt w = (r, w') ->
  extends w w' [GenerateContent model prompt (next_gen w)].
Proof.
  unfold generate_content_text, extends.
  destruct (next_gen w); intros [= <- <-]; reflexivity.
Qed.

Lemma st_warning_run (text : string) (w w' : world) (r : result unit) :
  st_warning text w = (r, w') -> r = Ok tt /\ trace w' = trace w.
Proof.
  unfold st_warning. intros [= <- <-]; auto.
Qed.

Lemma title_searches_counted (new : list event) :
  Forall (fun ev => is_title_search ev = true) new ->
  (length (filter is_http new) <= length new)%nat /\
  Forall (fun ev => is_http ev = true -> is_title_search ev = true) new.
Proof.
  intros Hall. split.
  - apply filter_length_le.
  - eapply Forall_impl; [|exact Hall]. auto.
Qed.

Section Suggestions.
Variable self : MovieRecommender.

(** Whatever the services answer, the free-text strategy returns a list and
    does not raise; the HTTP calls it makes are title searches, at most 5 of
    them, and it returns at most 5 candidates. *)
Lemma free_text_bounds (description : string) (w : world) :
  exists recs w' new,
    get_gemini_recommendations self description w = (Ok (JList recs), w') /\
    extends w w' new /\
    (length (filter is_http new) <= 5)%nat /\
    Forall (fun ev => is_http ev = true -> is_title_search ev = true) new /\
    (length recs <= 5)%nat /\
    (recs = [] \/ recs = flat_map first_match new).
Proof.
  unfold get_gemini_recommendations.
  destruct (key_set (gemini_api_key self)); cbn [negb].
  2:{ unfold bind. destruct (st_warning _ w) as [r1 w1] eqn:Hwarn.
      apply st_warning_run in Hwarn as (-> & Htr).
      exists [], w1, []. repeat split; try (simpl; lia); auto.
      unfold extends. rewrite Htr, app_nil_r. reflexivity. }
  unfold except_any.
  match goal with
  | |- context [match ?body w with _ => _ end] =>
      destruct (body w) as [[v|e] w1] eqn:Hbody
  end.
  - apply bind_run in Hbody as [(text & w0 & Hgen & Hbody)|(e & _ & Hno)];
      [|discriminate].
    apply generate_content_text_run in Hgen.
    apply bind_run in Hbody as [(found & w2 & Hs & Hbody)|(e & _ & Hno)];
      [|discriminate].
    unfold ret in Hbody. injection Hbody as <- <-.
    apply search_titles_run in Hs as (new & Hext & Hlen & Hall & Hfound).
    specialize (Hfound found eq_refl). simpl in Hfound.
    pose proof (firstn_le_length 5 (parse_titles text)) as Hfive.
    destruct (title_searches_counted new Hall) as [Hcount Hkind].
    exists found, w2, ([GenerateContent "gemini-1.5-flash"
                          (gemini_prompt description) (next_gen w)] ++ new)%list.
    repeat split.
    + eapply extends_trans; eassumption.
    + simpl. lia.
    + constructor; [discriminate|exact Hkind].
    + rewrite Hfound. pose proof (flat_map_first_match_length new). lia.
    + right. rewrite Hfound. reflexivity.
  - unfold bind. destruct (st_error _ e w1) as [r2 w2] eqn:Herr.
    apply st_error_run in Herr as (-> & Htr & _). unfold ret.
    apply bind_run in Hbody as [(text & w0 & Hgen & Hbody)|(e' & Hgen & _)].
    + apply generate_content_text_run in Hgen.
      apply bind_run in Hbody as [(found & w3 & Hs & Hbody)|(e' & Hs & _)];
        [discriminate|].
      apply search_titles_run in Hs as (new & Hext & Hlen & Hall & _).
      pose proof (firstn_le_length 5 (parse_titles text)) as Hfive.
      destruct (title_searches_counted new Hall) as [Hcount Hkind].
      exists [], w2, ([GenerateContent "gemini-1.5-flash"
                         (gemini_prompt description) (next_gen w)] ++ new)%list.
      repeat split.
      * unfold extends in *. rewrite Htr, Hext, Hgen, <- app_assoc. reflexivity.
      * simpl. lia.
      * constructor; [discriminate|exact Hkind].
      * simpl. lia.
      * left. reflexivity.
    + apply generate_content_text_run in Hgen.
      exists [], w2, [GenerateContent "gemini-1.5-flash"
                        (gemini_prompt description) (next_gen w)].
      repeat split.
      * unfold extends in *. rewrite Htr. exact Hgen.
      * simpl. lia.
      * constructor; [discriminate|constructor].
      * simpl. lia.
      * left. reflexivity.
Qed.

(** With a key and a generated text, the strategy is the generation call,
    then the search loop over the first five parsed titles, then the handler
    when the loop raised. *)
Lemma free_text_run (description text : string) (w : world) :
  key_set (gemini_api_key self) = true ->
  next_gen w = GenText text ->
  get_gemini_recommendations self description w
  = match search_titles self (firstn 5 (parse_titles text)) []
            {| http_script := http_script w; gen_script := tl (gen_script w);
               trace := (trace w ++ [GenerateContent gemini_model
                                       (gemini_prompt description)
                                       (GenText text)])%list;
               messages := messages w |} with
    | (Ok found, w1) => (Ok (JList found), w1)
    | (Raise e, w1) =>
        (Ok (JList []),
         {| http_script := http_script w1; gen_script := gen_script w1;
            trace := trace w1;
            messages := (messages w1
                         ++ [StError "Error with Gemini AI: " e])%list |})
    end.
Proof.
  intros Hgem Hnext. unfold get_gemini_recommendations, gemini_model.
  rewrite Hgem. cbn [negb]. unfold except_any. unfold bind at 1.
  unfold generate_content_text. rewrite Hnext. unfold bind at 1.
  match goal with
  | |- context [search_titles self ?ts ?acc ?w0] =>
      destruct (search_titles self ts acc w0) as [[found|e] w1]
  end; reflexivity.
Qed.

(** C9.  For every description and whatever the services answer, the
    free-text strategy returns a list and does not raise; the HTTP calls it
    makes are title searches, at most 5 of them, and it returns at most 5
    candidates.  With both keys and a generated text, its calls are the
    generation call and then one title search per parsed title, over the
    first five parsed titles in order, up to the first reply a search cannot
    use.  Either each of these titles was searched and the candidates are
    the first matches of the searches, one at most per search, in order; or
    the last search got a reply it could not use, the list is empty and the
    error is shown.  When every reply is one a search can use, it is the
    former. *)
Theorem free_text_at_most_five (description : string) (w : world) :
  exists recs w' new,
    get_gemini_recommendations self description w = (Ok (JList recs), w') /\
    extends w w' new /\
    (length (filter is_http new) <= 5)%nat /\
    Forall (fun ev => is_http ev = true -> is_title_search ev = true) new /\
    (length recs <= 5)%nat /\
    (recs = [] \/ recs = flat_map first_match new) /\
    (key_set (gemini_api_key self) = true ->
     key_set (tmdb_api_key self) = true ->
     forall text, next_gen w = GenText text ->
     exists searches k,
       new = GenerateContent gemini_model (gemini_prompt description)
               (GenText text) :: searches /\
       map searched_title searches
       = map Some (firstn k (firstn 5 (parse_titles text))) /\
       ((map searched_title searches = map Some (firstn 5 (parse_titles text)) /\
         recs = flat_map first_match searches) \/
        (exists before last e shown,
           searches = (before ++ [last])%list /\
           usable_answer last = false /\
           recs = [] /\
           messages w' = (shown ++ [StError "Error with Gemini AI: " e])%list)) /\
       (Forall (fun reply => list_reply reply = true) (http_script w) ->
        map searched_title searches = map Some (firstn 5 (parse_titles text)) /\
        recs = flat_map first_match searches)).
Proof.
  destruct (free_text_bounds description w)
    as (recs & w' & new & Hrun & Hext & Hcalls & Hkind & Hlen & Hkept).
  exists recs, w', new. repeat (split; [assumption|]).
  intros Hgem Hkey text Hnext.
  rewrite (free_text_run description text w Hgem Hnext) in Hrun.
  match type of Hrun with
  | context [search_titles self ?ts ?acc ?start] =>
      set (w0 := start) in *;
      destruct (search_titles self ts acc w0) as [r w1] eqn:Hloop
  end.
  pose proof (search_titles_exact self _ Hkey _ _ _ _ Hloop)
    as (searches & k & Htr & Hk & Hres).
  assert (Hnew : forall w2, trace w2 = trace w1 -> w' = w2 ->
            new = GenerateContent gemini_model (gemini_prompt description)
                    (GenText text) :: searches).
  { intros w2 Htr2 ->. unfold extends in Hext.
    rewrite Htr2, Htr in Hext. subst w0. cbn [trace] in Hext.
    rewrite <- app_assoc in Hext. apply app_inv_head in Hext.
    symmetry. exact Hext. }
  exists searches, k.
  destruct r as [found|e].
  - injection Hrun as <- <-. destruct Hres as [Hall Hfound].
    simpl in Hfound.
    split; [apply (Hnew w1); reflexivity|]. split; [exact Hk|].
    split; [left|]; auto.
  - injection Hrun as <- <-.
    destruct Hres as (before & last & Hlast & Hbad).
    split; [eapply Hnew; [|reflexivity]; reflexivity|]. split; [exact Hk|].
    split.
    + right. exists before, last, e, (messages w1). auto.
    + intros Hscript.
      destruct (search_titles_listed self (firstn 5 (parse_titles text)) Hkey
                  [] w0 Hscript) as (found & ss & w2 & Hloop' & _).
      rewrite Hloop' in Hloop. discriminate.
Qed.

End Suggestions.

Lemma free_text_at_most_five_witness :
  exists searches,
    trace (snd (get_gemini_recommendations both_keys
                  "dark sci-fi thriller with robots" robots_world))
    = GenerateContent gemini_model
        (gemini_prompt "dark sci-fi thriller with robots") (GenText robots_text)
      :: searches /\
    map searched_title searches
    = [Some "Blade Runner"; Some "Ex Machina"; Some "The Terminator";
       Some "I, Robot"; Some "Ghost in the Shell"] /\
    fst (get_gemini_recommendations both_keys
           "dark sci-fi thriller with robots" robots_world)
    = Ok (JList (flat_map first_match searches)) /\
    flat_map first_match searches
    = [candidate 78 "Blade Runner" (79 # 10);
       candidate 264660 "Ex Machina" (76 # 10);
       candidate 9323 "Ghost in the Shell" (79 # 10)].
Proof.
  destruct (free_text_at_most_five both_keys
              "dark sci-fi thriller with robots" robots_world)
    as (recs & w' & new & Hrun & Hext & _ & _ & _ & _ & Hexact).
  destruct (Hexact eq_refl eq_refl robots_text eq_refl)
    as (searches & k & Hnew & _ & _ & Husable).
  destruct Husable as [Htitles Hrecs]; [repeat constructor|].
  exists searches. rewrite Hrun. cbn [fst snd].
  unfold extends in Hext. rewrite Hext, Hnew, <- Hrecs.
  split; [reflexivity|]. split; [exact Htitles|]. split; [reflexivity|].
  vm_compute in Hrun. injection Hrun as Hrecs' _. symmetry. exact Hrecs'.
Defined.

(** The scenario of the specification: seven titles come back, five are
    searched, and the three searches that matched give three candidates. *)
Example free_text_robots :
  let run := get_gemini_recommendations both_keys
               "dark sci-fi thriller with robots" robots_world in
  fst run = Ok (JList [candidate 78 "Blade Runner" (79 # 10);
                       candidate 264660 "Ex Machina" (76 # 10);
                       candidate 9323 "Ghost in the Shell" (79 # 10)]) /\
  length (filter is_title_search (trace (snd run))) = 5%nat /\
  http_script (snd run) =
    [HttpBody (search_page [candidate 348 "Alien" (81 # 10)])].
Proof.
  vm_compute. repeat split.
Qed.

(** ** The ratings store *)

Lemma dict_get_set_same (key : string) (v : json) (d : list (string * json)) :
  dict_get key (dict_set key v d) = Some v.
Proof.
  induction d as [|[k x] d IH]; simpl.
  - rewrite String.eqb_refl. reflexivity.
  - destruct (String.eqb k key) eqn:E; simpl; rewrite E; auto.
Qed.

Lemma dict_get_set_other (key other : string) (v : json) (d : list (string * json)) :
  other <> key ->
  dict_get other (dict_set key v d) = dict_get other d.
Proof.
  intros Hne. induction d as [|[k x] d IH]; simpl.
  - destruct (String.eqb key other) eqn:E; [|reflexivity].
    apply String.eqb_eq in E. congruence.
  - destruct (String.eqb k key) eqn:E; simpl.
    + apply String.eqb_eq in E. subst k.
      destruct (String.eqb key other) eqn:E'; [|reflexivity].
      apply String.eqb_eq in E'. congruence.
    + rewrite IH. reflexivity.
Qed.

Lemma dict_set_in_range (key : string) (n : Z) (d : list (string * json)) :
  1 <= n <= 5 ->
  Forall (fun entry => exists m, snd entry = JInt m /\ 1 <= m <= 5) d ->
  Forall (fun entry => exists m, snd entry = JInt m /\ 1 <= m <= 5)
    (dict_set key (JInt n) d).
Proof.
  intros Hn. induction 1 as [|[k x] d Hx Hd IH]; simpl.
  - repeat constructor. exists n; auto.
  - destruct (String.eqb k key); constructor; auto.
    exists n; auto.
Qed.

Lemma dict_get_in_range (key : string) (d : list (string * json)) (x : json) :
  Forall (fun entry => exists m, snd entry = JInt m /\ 1 <= m <= 5) d ->
  dict_get key d = Some x ->
  exists m, x = JInt m /\ 1 <= m <= 5.
Proof.
  induction 1 as [|[k y] d Hy Hd IH]; simpl; [discriminate|].
  destruct (String.eqb k key); [intros [= <-]; exact Hy|exact IH].
Qed.

Section Ratings.
Context `{PyStr}.

(** The star loop on a ratings dict and a numeric current rating: it stops
    at the first pressed star and stores that star's number. *)
Lemma star_buttons_run (movie_id rating : json) (pressed : Z -> bool)
    (stars : list Z) (s : session_state) (d : disk)
    (ratings : list (string * json)) (q : Q) :
  user_ratings s = JDict ratings ->
  number rating = Some q ->
  star_buttons movie_id rating pressed stars s d
  = match find pressed stars with
    | Some i =>
        let s' := {| recommendations := recommendations s;
                     favorites := favorites s;
                     dark_mode := dark_mode s;
                     user_ratings := JDict (dict_set (py_str movie_id) (JInt i) ratings) |} in
        Ok (Rerun, s', save_user_ratings s' d)
    | None => Ok (Continue, s, d)
    end.
Proof.
  intros Hs Hq. induction stars as [|i rest IH]; simpl; [reflexivity|].
  unfold py_int_le. rewrite Hq. simpl.
  destruct (pressed i); [|exact IH].
  rewrite Hs. reflexivity.
Qed.

(** C4.  On a ratings dict whose entry for the movie, if any, is a number:
    pressing star [v], for [v] from 1 to 5, stores [v], so that the rating
    read next for that movie is [v] (and, when the file can be written, so
    is the rating a new session loads); the rating read for a movie without
    an entry is 0. *)
Theorem rate_then_read (movie_id : json) (v : Z) (s : session_state) (d : disk)
    (ratings : list (string * json)) :
  1 <= v <= 5 ->
  user_ratings s = JDict ratings ->
  match dict_get (py_str movie_id) ratings with
  | Some x => number x <> None
  | None => True
  end ->
  (exists s' d',
     display_star_rating movie_id (Z.eqb v) s d = Ok (Rerun, s', d') /\
     current_rating movie_id s' = Ok (JInt v) /\
     (writable d = true ->
      current_rating movie_id (init_session_state d') = Ok (JInt v))) /\
  (dict_get (py_str movie_id) ratings = None ->
   current_rating movie_id s = Ok (JInt 0)).
Proof.
  intros Hv Hs Hnum. split.
  - assert (Hfind : find (Z.eqb v) [1; 2; 3; 4; 5] = Some v).
    { assert (Hcases : v = 1 \/ v = 2 \/ v = 3 \/ v = 4 \/ v = 5) by lia.
      destruct Hcases as [->|[->|[->|[->| ->]]]]; reflexivity. }
    unfold display_star_rating, current_rating. rewrite Hs. cbn [method_get].
    set (rating := match dict_get (py_str movie_id) ratings with
                   | Some x => Ok x
                   | None => Ok (JInt 0)
                   end).
    assert (Hq : exists x q, rating = Ok x /\ number x = Some q).
    { subst rating. destruct (dict_get (py_str movie_id) ratings) as [x|].
      - destruct (number x) as [q|] eqn:E; [eauto|congruence].
      - exists (JInt 0), 0%Q; auto. }
    destruct Hq as (x & q & -> & Hq). cbn [rbind].
    rewrite (star_buttons_run _ _ _ _ _ _ _ _ Hs Hq), Hfind. cbn zeta iota.
    eexists; eexists; split; [reflexivity|]. cbn [user_ratings method_get].
    rewrite dict_get_set_same. split; [reflexivity|].
    intros Hw. unfold save_user_ratings. rewrite Hw.
    cbn [init_session_state load_user_ratings user_ratings_json user_ratings
         method_get].
    rewrite dict_get_set_same. reflexivity.
  - intros Hnone. unfold current_rating. rewrite Hs. simpl.
    rewrite Hnone. reflexivity.
Qed.

End Ratings.

Lemma rate_then_read_witness :
  let s := init_session_state empty_disk in
  (exists s' d',
     @display_star_rating scalar_str (JInt 603) (Z.eqb 4) s empty_disk
       = Ok (Rerun, s', d') /\
     @current_rating scalar_str (JInt 603) s' = Ok (JInt 4) /\
     (writable empty_disk = true ->
      @current_rating scalar_str (JInt 603) (init_session_state d') = Ok (JInt 4))) /\
  @current_rating scalar_str (JInt 603) s = Ok (JInt 0).
Proof.
  destruct (@rate_then_read scalar_str (JInt 603) 4 (init_session_state empty_disk)
              empty_disk [] ltac:(lia) eq_refl I) as [Hrate Hfresh].
  split; [exact Hrate|apply Hfresh; reflexivity].
Defined.

Section RatingsRange.
Context `{PyStr}.

Lemma find_star (pressed : Z -> bool) (i : Z) :
  find pressed [1; 2; 3; 4; 5] = Some i -> 1 <= i <= 5.
Proof.
  simpl.
  repeat match goal with
         | |- context [pressed ?k] => destruct (pressed k)
         end; intros [= <-]; lia.
Qed.

(** A run of the star widget on ratings in range returns and leaves the
    ratings in range, in the session and in the file. *)
Lemma display_star_rating_in_range (movie_id : json) (pressed : Z -> bool)
    (s : session_state) (d : disk) :
  ratings_in_range (user_ratings s) ->
  exists f s' d',
    display_star_rating movie_id pressed s d = Ok (f, s', d') /\
    ratings_in_range (user_ratings s') /\
    (ratings_in_range (load_user_ratings d) ->
     ratings_in_range (load_user_ratings d')).
Proof.
  intros (ratings & Hs & Hall).
  unfold display_star_rating, current_rating. rewrite Hs. cbn [method_get].
  set (rating := match dict_get (py_str movie_id) ratings with
                 | Some x => Ok x
                 | None => Ok (JInt 0)
                 end).
  assert (Hn : exists n, rating = Ok (JInt n)).
  { subst rating. destruct (dict_get (py_str movie_id) ratings) as [x|] eqn:E.
    - destruct (dict_get_in_range _ _ _ Hall E) as (m & -> & _). eauto.
    - eauto. }
  destruct Hn as (n & ->). cbn [rbind].
  rewrite (star_buttons_run _ (JInt n) _ _ _ _ ratings (inject_Z n) Hs eq_refl).
  destruct (find pressed [1; 2; 3; 4; 5]) as [i|] eqn:Hfind.
  - apply find_star in Hfind. cbn zeta iota.
    eexists; eexists; eexists; split; [reflexivity|].
    cbn [user_ratings]. split.
    + eexists; split; [reflexivity|]. apply dict_set_in_range; assumption.
    + intros Hfile. unfold save_user_ratings.
      destruct (writable d); [|exact Hfile].
      cbn [load_user_ratings user_ratings_json user_ratings].
      eexists; split; [reflexivity|]. apply dict_set_in_range; assumption.
  - cbn iota. unfold py_positive. cbn [number rbind].
    destruct (negb (Qle_bool (inject_Z n) 0)); cbn [repeatable rbind];
      (eexists; eexists; eexists; split; [reflexivity|]; split;
       [exists ratings; auto|auto]).
Qed.

End RatingsRange.

Lemma add_to_favorites_ratings (movie_card : json) (pressed : bool)
    (s s' : session_state) (d d' : disk) (f : flow) :
  add_to_favorites movie_card pressed s d = Ok (f, s', d') ->
  user_ratings s' = user_ratings s /\
  load_user_ratings d' = load_user_ratings d.
Proof.
  unfold add_to_favorites. intros Hr.
  run_step Hr. run_step Hr.
  destruct (negb a0); [|injection Hr as _ <- <-; auto].
  run_step Hr.
  destruct pressed; [|injection Hr as _ <- <-; auto].
  run_step Hr. injection Hr as _ <- <-. cbn [user_ratings].
  split; [reflexivity|].
  unfold save_favorites. destruct (writable d); reflexivity.
Qed.

(** C5.  The operations of the session keep every entry of the ratings map
    an integer from 1 to 5, in the session and in the persisted file: the
    star widget returns and stores only star numbers, and the favorites
    control does not touch the ratings.  A session started from a missing or
    unreadable ratings file, or from a file that holds such a map, starts
    with ratings in range; the loader takes any other file as it is. *)
Theorem ratings_stay_in_range `{PyStr} :
  (forall movie_id pressed s d,
     ratings_in_range (user_ratings s) ->
     exists f s' d',
       display_star_rating movie_id pressed s d = Ok (f, s', d') /\
       ratings_in_range (user_ratings s') /\
       (ratings_in_range (load_user_ratings d) ->
        ratings_in_range (load_user_ratings d'))) /\
  (forall movie_card pressed s d f s' d',
     add_to_favorites movie_card pressed s d = Ok (f, s', d') ->
     user_ratings s' = user_ratings s /\
     load_user_ratings d' = load_user_ratings d) /\
  (forall d,
     match user_ratings_json d with
     | JsonFile content => ratings_in_range content
     | NoFile | Garbled => True
     end ->
     ratings_in_range (user_ratings (init_session_state d))) /\
  (forall d, user_ratings (init_session_state d) = load_user_ratings d).
Proof.
  split; [|split; [|split]].
  - intros. apply display_star_rating_in_range. assumption.
  - intros. eapply add_to_favorites_ratings. eassumption.
  - intros d. unfold init_session_state, load_user_ratings. cbn [user_ratings].
    destruct (user_ratings_json d); auto; intros _; exists []; auto.
  - reflexivity.
Qed.

Lemma ratings_stay_in_range_witness :
  let s := init_session_state empty_disk in
  ratings_in_range (user_ratings s) /\
  exists f s' d',
    @display_star_rating scalar_str (JInt 603) (Z.eqb 4) s empty_disk
      = Ok (f, s', d') /\
    ratings_in_range (user_ratings s') /\
    (ratings_in_range (load_user_ratings empty_disk) ->
     ratings_in_range (load_user_ratings d')).
Proof.
  destruct (@ratings_stay_in_range scalar_str) as (Hstar & _ & Hstart & _).
  assert (Hs : ratings_in_range (user_ratings (init_session_state empty_disk))).
  { apply Hstart. exact I. }
  split; [exact Hs|].
  apply Hstar. exact Hs.
Defined.

(** A ratings file that holds 9 for a movie is hydrated as it is: the
    session starts with a rating outside 1..5, and the star widget reads
    it. *)
Lemma hydrated_rating_out_of_range :
  let s := init_session_state edited_disk in
  user_ratings s = JDict [("603", JInt 9)] /\
  @current_rating scalar_str (JInt 603) s = Ok (JInt 9) /\
  ~ ratings_in_range (user_ratings s).
Proof.
  repeat split.
  intros (d & Hd & Hall). injection Hd as <-.
  inversion Hall as [|entry rest (n & Hn & Hrange) Hrest]; subst.
  simpl in Hn. injection Hn as <-. lia.
Qed.

(** ** Favorites *)

Lemma py_eq_identifier (id : json) : identifier id = true -> py_eq id id = true.
Proof.
  destruct id; simpl; try discriminate; intros _.
  - apply Qeq_bool_iff. reflexivity.
  - apply String.eqb_refl.
Qed.

Lemma identified_id (card : json) :
  identified card = true ->
  exists id, subscript card "id" = Ok id /\ identifier id = true.
Proof.
  unfold identified. destruct (subscript card "id") as [id|]; [eauto|discriminate].
Qed.

(** On identifiers, [==] does not depend on the side. *)
Lemma same_id_sym (a b : json) :
  identified a = true -> identified b = true -> same_id a b = same_id b a.
Proof.
  intros Ha Hb.
  destruct (identified_id _ Ha) as (x & Hx & Hix).
  destruct (identified_id _ Hb) as (y & Hy & Hiy).
  unfold same_id. rewrite Hx, Hy.
  destruct x; try discriminate; destruct y; try discriminate; simpl;
    try reflexivity.
  - destruct (Qeq_bool (inject_Z n) (inject_Z n0)) eqn:E.
    + apply Qeq_bool_iff in E. symmetry. apply Qeq_bool_iff. symmetry. exact E.
    + destruct (Qeq_bool (inject_Z n0) (inject_Z n)) eqn:E'; [|reflexivity].
      apply Qeq_bool_iff in E'. symmetry in E'. apply Qeq_bool_iff in E'.
      congruence.
  - apply String.eqb_sym.
Qed.

(** The scan of the favorites for a card's identifier. *)
Lemma any_same_id_run (favs : list json) (movie_card : json) :
  Forall (fun fav => identified fav = true) favs ->
  identified movie_card = true ->
  any_same_id favs movie_card = Ok (existsb (fun fav => same_id fav movie_card) favs).
Proof.
  intros Hfavs Hcard. destruct (identified_id _ Hcard) as (id & Hid & _).
  induction Hfavs as [|fav rest Hfav _ IH]; simpl; [reflexivity|].
  destruct (identified_id _ Hfav) as (fid & Hfid & _).
  unfold same_id at 1. rewrite Hfid, Hid. simpl.
  destruct (py_eq fid id); [reflexivity|exact IH].
Qed.

Lemma distinct_ids_append (favs : list json) (movie_card : json) :
  distinct_ids favs ->
  existsb (fun fav => same_id fav movie_card) favs = false ->
  distinct_ids (favs ++ [movie_card]).
Proof.
  induction favs as [|fav rest IH]; simpl.
  - intros _ _. split; [constructor|exact I].
  - intros [Hfav Hrest] Hnone. apply orb_false_iff in Hnone as [Hhere Hlater].
    split; [|auto].
    apply Forall_app. split; [exact Hfav|]. repeat constructor. exact Hhere.
Qed.

(** C3.  On a favorites list whose entries carry identifiers that are
    pairwise distinct, adding a card twice (the button pressed whenever it
    is drawn) returns both times, leaves the identifiers pairwise distinct,
    and the second add changes nothing: the list is the starting list when
    the card's identifier was in it, and the starting list followed by the
    card otherwise. *)
Theorem add_twice_keeps_ids_distinct (movie_card : json) (s : session_state)
    (d : disk) (favs : list json) :
  favorites s = JList favs ->
  Forall (fun fav => identified fav = true) favs ->
  identified movie_card = true ->
  distinct_ids favs ->
  exists f s1 d1 favs1,
    add_to_favorites movie_card true s d = Ok (f, s1, d1) /\
    add_to_favorites movie_card true s1 d1 = Ok (Continue, s1, d1) /\
    favorites s1 = JList favs1 /\
    distinct_ids favs1 /\
    favs1 = (if existsb (fun fav => same_id fav movie_card) favs
             then favs else favs ++ [movie_card])%list.
Proof.
  intros Hs Hfavs Hcard Hdistinct.
  unfold add_to_favorites at 1. rewrite Hs. cbn [py_iter rbind].
  rewrite (any_same_id_run _ _ Hfavs Hcard). cbn [rbind].
  destruct (existsb (fun fav => same_id fav movie_card) favs) eqn:Hin; cbn [negb].
  - exists Continue, s, d, favs. repeat split; try assumption.
    unfold add_to_favorites. rewrite Hs. cbn [py_iter rbind].
    rewrite (any_same_id_run _ _ Hfavs Hcard), Hin. reflexivity.
  - destruct (identified_id _ Hcard) as (id & Hid & Hident).
    rewrite Hid. cbn [method_append rbind].
    eexists; eexists; eexists; exists (favs ++ [movie_card])%list.
    split; [reflexivity|]. cbn [favorites].
    repeat split; [|apply distinct_ids_append; assumption].
    unfold add_to_favorites. cbn [favorites py_iter rbind].
    assert (Hall : Forall (fun fav => identified fav = true) (favs ++ [movie_card])).
    { apply Forall_app. split; [exact Hfavs|repeat constructor; exact Hcard]. }
    rewrite (any_same_id_run _ _ Hall Hcard), existsb_app, Hin. simpl.
    unfold same_id. rewrite Hid, (py_eq_identifier _ Hident). reflexivity.
Qed.

Lemma add_twice_keeps_ids_distinct_witness :
  let s := init_session_state empty_disk in
  exists f s1 d1 favs1,
    add_to_favorites matrix_card true s empty_disk = Ok (f, s1, d1) /\
    add_to_favorites matrix_card true s1 d1 = Ok (Continue, s1, d1) /\
    favorites s1 = JList favs1 /\
    distinct_ids favs1 /\
    favs1 = [matrix_card].
Proof.
  apply (add_twice_keeps_ids_distinct matrix_card (init_session_state empty_disk)
           empty_disk [] eq_refl (Forall_nil _) eq_refl I).
Defined.

(** A favorites file that holds the same card twice is hydrated as it is,
    and adding that card twice leaves the two entries with one identifier
    where they are. *)
Lemma add_twice_keeps_hydrated_duplicates :
  let s := init_session_state edited_disk in
  favorites s = JList [matrix_card; matrix_card] /\
  (first <- add_to_favorites matrix_card true s edited_disk ;;
   let '(_, s1, d1) := first in
   second <- add_to_favorites matrix_card true s1 d1 ;;
   let '(_, s2, _) := second in
   Ok (favorites s2))%result = Ok (JList [matrix_card; matrix_card]) /\
  ~ distinct_ids [matrix_card; matrix_card].
Proof.
  repeat split.
  intros [Hdup _]. inversion Hdup as [|x l Hsame _]. discriminate.
Qed.

(** * More properties of the program *)

(** ** The Metadata Client without a key *)

Section NoKey.
Context `{PyStr}.
Variable self : MovieRecommender.

(** X1.  Without a provider key no operation of the client, and no strategy built
    on them, makes a request or shows a message: each returns its empty
    result and leaves the world as it was. *)
Theorem no_key_no_request (w : world) :
  key_set (tmdb_api_key self) = false ->
  (forall query, search_movies self query w = (Ok (JList []), w)) /\
  (forall movie_id, get_movie_details self movie_id w = (Ok JNull, w)) /\
  (forall movie_id, get_movie_trailer self movie_id w = (Ok JNull, w)) /\
  (forall movie_id, get_streaming_providers self movie_id w = (Ok (JList []), w)) /\
  (forall genres year age_ratings sort_by page,
     discover_movies self genres year age_ratings sort_by page w
     = (Ok (JList []), w)) /\
  (forall movie_title, find_similar_movies self movie_title w = (Ok (JList []), w)).
Proof.
  intros Hkey.
  repeat split; intros;
    unfold find_similar_movies, bind;
    unfold search_movies, get_movie_details, get_movie_trailer,
      get_streaming_providers, discover_movies;
    rewrite Hkey; reflexivity.
Qed.

End NoKey.

Lemma no_key_no_request_witness :
  @find_similar_movies scalar_str new_recommender "The Matrix"
    (replies [HttpBody horror_page])
  = (Ok (JList []), replies [HttpBody horror_page]).
Proof.
  apply (@no_key_no_request scalar_str new_recommender
           (replies [HttpBody horror_page]) eq_refl).
Defined.

(** ** The certification discovery resolves *)

Lemma scan_releases_returns (releases : list json) :
  forallb release_certified releases = true ->
  exists found, scan_releases releases = Ok found.
Proof.
  induction releases as [|release rest IH]; simpl; [eauto|].
  intros Hall. apply andb_true_iff in Hall as [Hrel Hrest].
  destruct release as [| | | | |l|d]; try discriminate. simpl in *.
  destruct (dict_get "certification" d) as [[| | | |s| |]|]; try discriminate;
    simpl; auto.
  destruct (negb (String.eqb s "")); simpl; [|auto].
  destruct (negb (String.eqb (strip s) "")); [eauto|auto].
Qed.

Lemma scan_countries_returns (countries : list json) :
  forallb country_certified countries = true ->
  exists found, scan_countries countries = Ok found.
Proof.
  induction countries as [|country rest IH]; simpl; [eauto|].
  intros Hall. apply andb_true_iff in Hall as [Hc Hrest].
  destruct country as [| | | | |l|d]; try discriminate. simpl in *.
  destruct (dict_get "iso_3166_1" d) as [iso|]; [|discriminate]. simpl.
  destruct (dict_get "release_dates" d) as [[| | | | |releases|]|];
    try discriminate.
  destruct (eq_str iso "US"); [|auto]. simpl.
  destruct (scan_releases_returns releases Hc) as [[c|] ->]; simpl; eauto.
Qed.

Lemma get_age_rating_from_details_certified (movie_details : json) :
  details_certified movie_details = true ->
  get_age_rating_from_details movie_details
  = Ok (us_certification movie_details).
Proof.
  intros Hshape.
  assert (Hr : exists r, get_age_rating_from_details movie_details = Ok r).
  { unfold get_age_rating_from_details.
    destruct movie_details as [| | | | |l|d]; simpl in Hshape;
      try discriminate; simpl; [eauto|].
    destruct d as [|entry d']; [simpl; eauto|]. cbn [negb].
    set (dd := entry :: d') in *. clearbody dd.
    destruct (dict_get "release_dates" dd) as [[| | | | | |block]|];
      try discriminate; simpl; [|eauto].
    destruct (dict_get "results" block) as [[| | | | |countries|]|];
      try discriminate; simpl.
    destruct (scan_countries_returns countries Hshape) as [[c|] ->]; simpl; eauto. }
  destruct Hr as [r Hr]. rewrite Hr.
  rewrite (get_age_rating_from_details_find _ _ Hr). reflexivity.
Qed.

(** X2.  The certification that discovery resolves from a detail object is the
    first certification with a character that is not white space among the
    release-date entries of all US entries, in provider order, and 'Not
    Rated' without one: whenever [get_age_rating_from_details] returns, that
    is what it returns, and it returns on every provider-shaped detail
    object whose certifications are strings or absent. *)
Theorem age_rating_from_all_us_entries (movie_details : json) :
  (forall r, get_age_rating_from_details movie_details = Ok r ->
             r = us_certification movie_details) /\
  (details_certified movie_details = true ->
   get_age_rating_from_details movie_details
   = Ok (us_certification movie_details)).
Proof.
  split.
  - apply get_age_rating_from_details_find.
  - apply get_age_rating_from_details_certified.
Qed.

Lemma age_rating_from_all_us_entries_witness :
  get_age_rating_from_details two_us_entries = Ok (JStr "R") /\
  get_age_rating_from_details matrix_details = Ok (JStr "R").
Proof.
  split.
  - destruct (age_rating_from_all_us_entries two_us_entries) as [_ Hret].
    apply Hret. reflexivity.
  - destruct (age_rating_from_all_us_entries matrix_details) as [_ Hret].
    apply Hret. reflexivity.
Defined.

Lemma forallb_impl {A : Type} (f g : A -> bool) (l : list A) :
  (forall x, f x = true -> g x = true) ->
  forallb f l = true -> forallb g l = true.
Proof.
  intros Hfg. induction l as [|x l IH]; simpl; [reflexivity|].
  intros Hall. apply andb_true_iff in Hall as [Hx Hl].
  rewrite (Hfg x Hx), (IH Hl). reflexivity.
Qed.

Lemma release_certified_shaped (release : json) :
  release_certified release = true -> release_shaped release = true.
Proof.
  destruct release; simpl; auto.
Qed.

Lemma country_certified_shaped (country : json) :
  country_certified country = true -> country_shaped country = true.
Proof.
  destruct country as [| | | | |l|d]; simpl; auto.
  destruct (dict_get "iso_3166_1" d); auto.
  destruct (dict_get "release_dates" d) as [[| | | | |releases|]|]; auto.
  apply forallb_impl. exact release_certified_shaped.
Qed.

Lemma details_certified_shaped (movie_details : json) :
  details_certified movie_details = true -> details_shaped movie_details = true.
Proof.
  destruct movie_details as [| | | | |l|d]; simpl; auto.
  destruct (dict_get "release_dates" d) as [[| | | | | |block]|]; auto.
  destruct (dict_get "results" block) as [[| | | | |countries|]|]; auto.
  apply forallb_impl. exact country_certified_shaped.
Qed.

Lemma find_agree {A : Type} (f g : A -> bool) (l : list A) :
  Forall (fun x => f x = g x) l -> find f l = find g l.
Proof.
  induction 1 as [|x l Hx _ IH]; simpl; [reflexivity|].
  rewrite Hx, IH. reflexivity.
Qed.

Lemma blank_certification_agree (release : json) :
  release_certified release = true ->
  blank_certification release = false ->
  has_certification release = is_rated release.
Proof.
  unfold blank_certification, has_certification, is_rated.
  destruct release as [| | | | |l|d]; try discriminate. simpl.
  destruct (dict_get "certification" d) as [[| | | |s| |]|]; try discriminate;
    try reflexivity.
  intros _. simpl.
  destruct (negb (String.eqb s "")) eqn:Hs; simpl.
  - intros Hb. apply negb_false_iff in Hb. rewrite Hb. reflexivity.
  - intros _. apply negb_false_iff, String.eqb_eq in Hs. subst s. reflexivity.
Qed.

(** X3.  The card and discovery read the same age rating off a detail object
    that lists the US once at most and has no certification made of white
    space only; the two differ in how many US entries they scan and in what
    they take for an empty certification. *)
Theorem card_and_discovery_age_rating_agree (movie_details : json) :
  details_certified movie_details = true ->
  (length (filter is_us_entry (country_entries movie_details)) <= 1)%nat ->
  Forall (fun release => release_certified release = true /\
                         blank_certification release = false)
    (flat_map release_entries
       (filter is_us_entry (country_entries movie_details))) ->
  card_age_rating movie_details = get_age_rating_from_details movie_details.
Proof.
  intros Hshape Hone Hblank.
  rewrite (card_age_rating_returns _ (details_certified_shaped _ Hshape)).
  rewrite (get_age_rating_from_details_certified _ Hshape). f_equal.
  rewrite <- (one_us_entry_age_rating _ Hone).
  unfold spec_age_rating, first_certification, us_certification.
  rewrite (find_agree has_certification is_rated); [reflexivity|].
  eapply Forall_impl; [|exact Hblank].
  intros release [Hc Hb]. apply blank_certification_agree; assumption.
Qed.

Lemma card_and_discovery_age_rating_agree_witness :
  card_age_rating matrix_details = get_age_rating_from_details matrix_details.
Proof.
  apply card_and_discovery_age_rating_agree.
  - reflexivity.
  - simpl. lia.
  - repeat constructor.
Defined.

(** ** Streaming providers *)

Section Providers.
Context `{PyStr}.
Variable self : MovieRecommender.

Lemma provider_entries_map (provider_type : string) (listed : list json) :
  forallb provider_shaped listed = true ->
  provider_entries provider_type listed
  = Ok (map (provider_entry provider_type) listed).
Proof.
  induction listed as [|provider rest IH]; simpl; [reflexivity|].
  intros Hall. apply andb_true_iff in Hall as [Hp Hrest].
  destruct provider as [| | | | |l|d]; try discriminate. simpl in *.
  destruct (dict_get "provider_name" d) as [name|] eqn:En; [|discriminate].
  destruct (dict_get "logo_path" d) as [logo|] eqn:El; [|discriminate].
  cbn [rbind]. rewrite (IH Hrest). cbn [rbind].
  unfold provider_entry, field_or_null. rewrite En, El. reflexivity.
Qed.

Lemma offers_of_type (provider_type : string) (us_providers : list (string * json)) :
  match dict_get provider_type us_providers with
  | None => True
  | Some (JList listed) => forallb provider_shaped listed = true
  | Some _ => False
  end ->
  forall (then_ : list json -> result (list json)),
  (present <- py_contains (JDict us_providers) provider_type ;;
   here <- (if present then
              listed <- subscript (JDict us_providers) provider_type ;;
              items <- py_iter listed ;;
              provider_entries provider_type items
            else Ok []) ;;
   then_ here)%result
  = then_ (map (provider_entry provider_type) (offers provider_type us_providers)).
Proof.
  unfold offers. simpl.
  destruct (dict_get provider_type us_providers) as [[| | | | |listed|]|];
    try contradiction; simpl; [|reflexivity].
  intros Hall then_. rewrite (provider_entries_map _ _ Hall). reflexivity.
Qed.

Lemma providers_by_type_shaped (us_providers : list (string * json)) :
  offers_shaped us_providers = true ->
  providers_by_type ["flatrate"; "rent"; "buy"] (JDict us_providers)
  = Ok (map (provider_entry "flatrate") (offers "flatrate" us_providers)
        ++ map (provider_entry "rent") (offers "rent" us_providers)
        ++ map (provider_entry "buy") (offers "buy" us_providers))%list.
Proof.
  unfold offers_shaped. cbn [forallb].
  intros Hall.
  apply andb_true_iff in Hall as [Hflat Hall].
  apply andb_true_iff in Hall as [Hrent Hall].
  apply andb_true_iff in Hall as [Hbuy _].
  cbn [providers_by_type].
  rewrite (offers_of_type "flatrate"), (offers_of_type "rent"),
    (offers_of_type "buy"); cbn [rbind].
  - rewrite !app_nil_r. reflexivity.
  - destruct (dict_get "buy" us_providers) as [[| | | | |listed|]|];
      try discriminate; auto.
  - destruct (dict_get "rent" us_providers) as [[| | | | |listed|]|];
      try discriminate; auto.
  - destruct (dict_get "flatrate" us_providers) as [[| | | | |listed|]|];
      try discriminate; auto.
Qed.

(** X4.  The providers of a movie come grouped by offer type, subscription first,
    then rent, then buy, whatever the order of the types in the provider's
    answer, and within a type in the provider's order; each entry carries
    the provider's name, the offer type and the logo URL.  Offer types other
    than these three are left out, and an answer without a US block gives
    the empty list. *)
Theorem streaming_providers_grouped (movie_id data results : json)
    (us_providers : list (string * json)) (w : world) :
  key_set (tmdb_api_key self) = true ->
  next_http w = HttpBody data ->
  method_get data "results" (JDict []) = Ok results ->
  method_get results "US" (JDict []) = Ok (JDict us_providers) ->
  offers_shaped us_providers = true ->
  fst (get_streaming_providers self movie_id w)
  = Ok (JList (map (provider_entry "flatrate") (offers "flatrate" us_providers)
               ++ map (provider_entry "rent") (offers "rent" us_providers)
               ++ map (provider_entry "buy") (offers "buy" us_providers))).
Proof.
  intros Hkey Hnext Hres Hus Hshape.
  unfold get_streaming_providers. rewrite Hkey. cbn [negb].
  unfold except_request, bind, requests_get_json, lift.
  rewrite Hnext, Hres, Hus, (providers_by_type_shaped _ Hshape). reflexivity.
Qed.

End Providers.

Lemma streaming_providers_grouped_witness :
  fst (@get_streaming_providers scalar_str tmdb_only (JInt 603)
         (replies [HttpBody matrix_providers]))
  = Ok (JList [JDict [("name", JStr "Max"); ("type", JStr "flatrate");
                      ("logo", JStr "https://image.tmdb.org/t/p/w45/max.jpg")];
               JDict [("name", JStr "Apple TV"); ("type", JStr "rent");
                      ("logo", JStr "https://image.tmdb.org/t/p/w45/apple.jpg")]]).
Proof.
  apply (@streaming_providers_grouped scalar_str tmdb_only (JInt 603)
           matrix_providers _ _ (replies [HttpBody matrix_providers])
           eq_refl eq_refl eq_refl eq_refl eq_refl).
Defined.

(** ** Provider records with a field missing *)

Section MissingFields.
Context `{PyStr}.
Variable self : MovieRecommender.

Lemma find_trailer_key_error (before after : list json)
    (d : list (string * json)) :
  Forall (fun v => passed_over v = true) before ->
  youtube_trailer (JDict d) = true ->
  dict_get "key" d = None ->
  find_trailer (before ++ JDict d :: after) = Raise (KeyError "key").
Proof.
  induction 1 as [|v before Hv _ IH]; intros Hy Hk.
  - cbn [app find_trailer method_get].
    unfold youtube_trailer, field_or_null in Hy.
    destruct (dict_get "site" d) as [site|] eqn:Es; [|discriminate].
    destruct (eq_str site "YouTube") eqn:Ey; [|discriminate].
    destruct (dict_get "type" d) as [type|] eqn:Et; [|discriminate].
    destruct (eq_str type "Trailer") eqn:Er; [|discriminate].
    cbn [rbind]. rewrite Ey. cbn [rbind]. rewrite Er.
    cbn [subscript]. rewrite Hk. reflexivity.
  - rewrite <- app_comm_cons, (passed_over_step _ _ Hv). auto.
Qed.

(** X5.  A YouTube trailer entry without a ['key'] is not skipped: when it is the
    first such trailer of the list, the trailer lookup raises [KeyError],
    which its handler for request failures does not catch, and nothing is
    shown. *)
Theorem trailer_without_key_raises (movie_id body : json)
    (before after : list json) (d : list (string * json)) (w : world) :
  key_set (tmdb_api_key self) = true ->
  next_http w = HttpBody body ->
  method_get body "results" (JList []) = Ok (JList (before ++ JDict d :: after)) ->
  Forall (fun v => passed_over v = true) before ->
  youtube_trailer (JDict d) = true ->
  dict_get "key" d = None ->
  fst (get_movie_trailer self movie_id w) = Raise (KeyError "key") /\
  messages (snd (get_movie_trailer self movie_id w)) = messages w.
Proof.
  intros Hkey Hnext Hres Hb Hy Hk.
  unfold get_movie_trailer. rewrite Hkey. cbn [negb].
  unfold except_request, bind, requests_get_json, lift.
  rewrite Hnext, Hres. cbn [py_iter].
  rewrite (find_trailer_key_error _ _ _ Hb Hy Hk). split; reflexivity.
Qed.

Lemma provider_entries_key_error (provider_type : string)
    (before after : list json) (d : list (string * json)) (name : json) :
  forallb provider_shaped before = true ->
  dict_get "provider_name" d = Some name ->
  dict_get "logo_path" d = None ->
  provider_entries provider_type (before ++ JDict d :: after)
  = Raise (KeyError "logo_path").
Proof.
  intros Hb Hn Hl. induction before as [|provider rest IH]; simpl.
  - rewrite Hn, Hl. reflexivity.
  - simpl in Hb. apply andb_true_iff in Hb as [Hp Hrest].
    destruct provider as [| | | | |l|p]; try discriminate. simpl in *.
    destruct (dict_get "provider_name" p); [|discriminate].
    destruct (dict_get "logo_path" p); [|discriminate].
    simpl. rewrite (IH Hrest). reflexivity.
Qed.

(** X6.  A subscription offer without a ['logo_path'] makes the providers lookup
    raise [KeyError] instead of returning the other providers. *)
Theorem provider_without_logo_raises (movie_id data results : json)
    (us_providers : list (string * json)) (before after : list json)
    (d : list (string * json)) (name : json) (w : world) :
  key_set (tmdb_api_key self) = true ->
  next_http w = HttpBody data ->
  method_get data "results" (JDict []) = Ok results ->
  method_get results "US" (JDict []) = Ok (JDict us_providers) ->
  dict_get "flatrate" us_providers = Some (JList (before ++ JDict d :: after)) ->
  forallb provider_shaped before = true ->
  dict_get "provider_name" d = Some name ->
  dict_get "logo_path" d = None ->
  fst (get_streaming_providers self movie_id w) = Raise (KeyError "logo_path").
Proof.
  intros Hkey Hnext Hres Hus Hflat Hb Hn Hl.
  unfold get_streaming_providers. rewrite Hkey. cbn [negb].
  unfold except_request, bind, requests_get_json, lift.
  rewrite Hnext, Hres, Hus.
  cbn [providers_by_type py_contains subscript]. rewrite Hflat.
  cbn [rbind py_iter].
  rewrite (provider_entries_key_error _ _ _ _ _ Hb Hn Hl). reflexivity.
Qed.

End MissingFields.

Lemma trailer_without_key_raises_witness :
  fst (@get_movie_trailer scalar_str tmdb_only (JInt 603)
         (replies [HttpBody keyless_trailer])) = Raise (KeyError "key").
Proof.
  apply (@trailer_without_key_raises scalar_str tmdb_only (JInt 603)
           keyless_trailer [video "Vimeo" "Trailer" "v-1"]
           [video "YouTube" "Trailer" "vKQi3bBA1y8"]
           [("site", JStr "YouTube"); ("type", JStr "Trailer")]
           (replies [HttpBody keyless_trailer])); try reflexivity.
  repeat constructor.
Defined.

Lemma provider_without_logo_raises_witness :
  fst (@get_streaming_providers scalar_str tmdb_only (JInt 603)
         (replies [HttpBody logoless_providers]))
  = Raise (KeyError "logo_path").
Proof.
  eapply (@provider_without_logo_raises scalar_str tmdb_only (JInt 603)
            logoless_providers)
    with (before := [JDict [("provider_name", JStr "Max");
                            ("logo_path", JStr "/max.jpg")]])
         (after := []) (name := JStr "Hulu");
    reflexivity.
Defined.

(** ** The discovery request *)

Lemma cert_mapping_identity (age_ratings : list string) :
  map (fun rating => match assoc rating cert_mapping with
                     | Some c => c
                     | None => rating
                     end) age_ratings = age_ratings.
Proof.
  induction age_ratings as [|rating rest IH]; cbn [map]; [reflexivity|].
  rewrite IH. f_equal. unfold cert_mapping. cbn [assoc].
  repeat match goal with
         | |- context [String.eqb ?k rating] =>
             destruct (String.eqb_spec k rating); [subst; reflexivity|]
         end.
  reflexivity.
Qed.

Ltac dict_lookup :=
  repeat (rewrite dict_get_set_same
          || (rewrite dict_get_set_other by discriminate));
  try reflexivity.

Section DiscoverParams.
Context `{PyStr}.
Variable self : MovieRecommender.

(** X7.  What a discovery request carries.  The key, the sort order, the page and
    the language are always sent.  A year is sent when one is chosen.  The
    chosen genres are sent as the comma-joined ids of those the genre table
    knows, and not at all when it knows none.  The certifications are sent,
    joined by a bar and with the country set to US, exactly when some are
    chosen; the certification mapping changes none of them. *)
Theorem discover_params_sent (genres : list string) (year : option Z)
    (age_ratings : list string) (sort_by : string) (page : Z) :
  let params := discover_params self genres year age_ratings sort_by page in
  dict_get "api_key" params = Some (key_json (tmdb_api_key self)) /\
  dict_get "sort_by" params = Some (JStr sort_by) /\
  dict_get "page" params = Some (JInt page) /\
  dict_get "language" params = Some (JStr "en-US") /\
  dict_get "year" params
    = match year with
      | Some y => if y =? 0 then None else Some (JInt y)
      | None => None
      end /\
  dict_get "with_genres" params
    = (if nonempty (known_genre_ids genres)
       then Some (JStr (join "," (known_genre_ids genres)))
       else None) /\
  dict_get "certification_country" params
    = (if nonempty age_ratings then Some (JStr "US") else None) /\
  dict_get "certification" params
    = (if nonempty age_ratings then Some (JStr (join "|" age_ratings)) else None).
Proof.
  unfold discover_params. rewrite cert_mapping_identity.
  fold (known_genre_ids genres).
  assert (Hno : nonempty genres = false -> nonempty (known_genre_ids genres) = false).
  { destruct genres; [reflexivity|discriminate]. }
  destruct (nonempty genres); [|rewrite (Hno eq_refl)];
    destruct (nonempty (known_genre_ids genres));
    (destruct year as [y|]; [destruct (y =? 0)|]);
    destruct (nonempty age_ratings);
    cbv zeta; repeat split; dict_lookup.
Qed.

End DiscoverParams.

(** ** What discovery asks and keeps *)

Section DiscoveryCost.
Context `{PyStr}.
Variable self : MovieRecommender.

Lemma get_movie_details_calls (movie_id : json) (w w' : world) (r : result json) :
  get_movie_details self movie_id w = (r, w') ->
  exists new, extends w w' new /\ (length new <= 1)%nat.
Proof.
  unfold get_movie_details.
  destruct (key_set (tmdb_api_key self)); cbn [negb].
  - unfold except_request.
    destruct (requests_get_json _ _ w) as [r1 w1] eqn:Hget.
    apply requests_get_json_run in Hget as (Hext & _ & Hreply).
    destruct (next_http w) as [msg|body]; subst r1.
    + unfold bind. destruct (st_error _ _ w1) as [r2 w2] eqn:Herr.
      apply st_error_run in Herr as (-> & Htr & _).
      unfold ret. intros [= <- <-].
      eexists. split; [unfold extends in *; rewrite Htr; exact Hext|simpl; lia].
    + intros [= <- <-]. eexists. split; [exact Hext|simpl; lia].
  - unfold ret. intros [= <- <-]. exists []. split; [apply extends_refl|simpl; lia].
Qed.

(** The client-side loop makes at most one call per server result. *)
Lemma filter_results_calls (age_ratings : list string) (results : list json) :
  forall (w w' : world) (r : result (list json)),
    filter_results self age_ratings results w = (r, w') ->
    exists new, extends w w' new /\ (length new <= length results)%nat.
Proof.
  induction results as [|movie rest IH]; intros w w' r; simpl.
  - unfold ret. intros [= <- <-]. exists []. split; [apply extends_refl|simpl; lia].
  - intros Hr. apply bind_run in Hr as [(movie_id & w0 & Hid & Hr)|(e & Hid & ->)].
    2:{ unfold lift in Hid. injection Hid as _ <-.
        exists []; split; [apply extends_refl|simpl; lia]. }
    unfold lift in Hid. injection Hid as Hid <-.
    apply bind_run in Hr as [(movie_details & w1 & Hdet & Hr)|(e & Hdet & ->)].
    2:{ apply get_movie_details_calls in Hdet as (new & Hext & Hlen).
        exists new. split; [exact Hext|lia]. }
    apply get_movie_details_calls in Hdet as (new1 & Hext1 & Hlen1).
    assert (Hrest : forall w2 r2,
               filter_results self age_ratings rest w1 = (r2, w2) ->
               exists new, extends w w2 new /\ (length new <= S (length rest))%nat).
    { intros w2 r2 Hrun. apply IH in Hrun as (new2 & Hext2 & Hlen2).
      exists (new1 ++ new2)%list.
      split; [eapply extends_trans; eassumption|rewrite length_app; lia]. }
    destruct (truthy movie_details); [|eauto].
    apply bind_run in Hr as [(rating & w2 & Hrat & Hr)|(e & Hrat & ->)].
    2:{ unfold lift in Hrat. injection Hrat as _ <-.
        exists new1. split; [exact Hext1|lia]. }
    unfold lift in Hrat. injection Hrat as Hrat <-.
    destruct (existsb (eq_str rating) age_ratings || eq_str rating not_rated);
      [|eauto].
    apply bind_run in Hr as [(filtered & w3 & Hrun & Hr)|(e & Hrun & ->)];
      [|eauto].
    unfold ret in Hr. injection Hr as _ <-. eauto.
Qed.

(** X8.  Discovery never invents or reorders candidates and asks little: when the
    provider answers the discovery request with a list, what discovery
    returns is a subsequence of that list, and the whole call makes at most
    one request more than the list has items. *)
Theorem discover_keeps_server_order (genres : list string) (year : option Z)
    (age_ratings : list string) (sort_by : string) (page : Z)
    (body : json) (items out : list json) (w w' : world) :
  key_set (tmdb_api_key self) = true ->
  next_http w = HttpBody body ->
  method_get body "results" (JList []) = Ok (JList items) ->
  discover_movies self genres year age_ratings sort_by page w
  = (Ok (JList out), w') ->
  subsequence out items /\
  exists new, extends w w' new /\ (length new <= S (length items))%nat.
Proof.
  intros Hkey Hnext Hres. unfold discover_movies. rewrite Hkey. cbn [negb].
  unfold except_request.
  match goal with
  | |- match ?body w with _ => _ end = _ -> _ =>
      destruct (body w) as [[v|e] w1] eqn:Hbody
  end.
  - intros Hout. injection Hout as -> ->.
    apply bind_run in Hbody as [(response & w0 & Hget & Hbody)|(e & _ & Hno)];
      [|discriminate].
    pose proof Hget as Hget'.
    apply requests_get_json_run in Hget' as (Hext0 & _ & Hreply).
    rewrite Hnext in Hreply. injection Hreply as ->.
    apply bind_run in Hbody as [(results & w1 & Hr & Hbody)|(e & _ & Hno)];
      [|discriminate].
    unfold lift in Hr. injection Hr as Hr <-.
    rewrite Hres in Hr. injection Hr as <-.
    destruct (nonempty age_ratings && truthy (JList items)).
    + apply bind_run in Hbody as [(its & w2 & Hit & Hbody)|(e & _ & Hno)];
        [|discriminate].
      unfold lift in Hit. simpl in Hit. injection Hit as <- <-.
      apply bind_run in Hbody as [(filtered & w3 & Hfil & Hbody)|(e & _ & Hno)];
        [|discriminate].
      unfold ret in Hbody. injection Hbody as <- <-.
      pose proof Hfil as Hfil'.
      apply filter_results_run in Hfil as (new & Hext & Hkept).
      destruct (Hkept filtered eq_refl) as [Hsub _].
      apply filter_results_calls in Hfil' as (new' & Hext' & Hlen).
      split; [exact Hsub|].
      eexists. split; [eapply extends_trans; eassumption|simpl; lia].
    + unfold ret in Hbody. injection Hbody as <- <-.
      split; [clear; induction items; constructor; auto|].
      eexists. split; [exact Hext0|simpl; lia].
  - destruct e as [k| | |msg|msg]; try discriminate.
    unfold bind. destruct (st_error _ _ w1) as [r2 w2] eqn:Herr.
    apply st_error_run in Herr as (-> & Htr & _).
    unfold ret. intros [= <- <-].
    split; [clear; induction items; constructor; auto|].
    apply bind_run in Hbody as [(response & w0 & Hget & Hbody)|(e & Hget & _)].
    + apply requests_get_json_run in Hget as (Hext0 & _ & Hreply).
      rewrite Hnext in Hreply. injection Hreply as ->.
      apply bind_run in Hbody as [(results & w3 & Hr & Hbody)|(e & Hr & _)].
      * unfold lift in Hr. injection Hr as Hr <-.
        rewrite Hres in Hr. injection Hr as <-.
        destruct (nonempty age_ratings && truthy (JList items)).
        -- apply bind_run in Hbody as [(its & w4 & Hit & Hbody)|(e & Hit & _)].
           ++ unfold lift in Hit. simpl in Hit. injection Hit as <- <-.
              apply bind_run in Hbody
                as [(filtered & w5 & Hfil & Hbody)|(e & Hfil & _)];
                [discriminate|].
              apply filter_results_calls in Hfil as (new & Hext & Hlen).
              eexists. split.
              ** unfold extends in *. rewrite Htr, Hext, Hext0, <- app_assoc.
                 reflexivity.
              ** simpl. lia.
           ++ unfold lift in Hit. discriminate.
        -- discriminate.
      * unfold lift in Hr. rewrite Hres in Hr. discriminate.
    + apply requests_get_json_run in Hget as (Hext0 & _ & _).
      eexists. split; [unfold extends in *; rewrite Htr; exact Hext0|simpl; lia].
Qed.

End DiscoveryCost.

Lemma discover_keeps_server_order_witness :
  let run := @discover_movies scalar_str tmdb_only ["Horror"] (Some 2020) ["R"]
               "popularity.desc" 1 horror_world in
  fst run = Ok (JList [candidate 1 "Rated R" (70 # 10);
                       candidate 3 "No US release" (60 # 10)]) /\
  subsequence [candidate 1 "Rated R" (70 # 10);
               candidate 3 "No US release" (60 # 10)]
    [candidate 1 "Rated R" (70 # 10); candidate 2 "Rated PG-13" (65 # 10);
     candidate 3 "No US release" (60 # 10)] /\
  exists new, extends horror_world (snd run) new /\ (length new <= 4)%nat.
Proof.
  split; [reflexivity|].
  eapply (@discover_keeps_server_order scalar_str tmdb_only ["Horror"] (Some 2020)
            ["R"] "popularity.desc" 1 horror_page); try reflexivity.
Defined.

Section DetailsDown.
Context `{PyStr}.
Variable self : MovieRecommender.

Lemma filter_results_down (age_ratings : list string) (results : list json) :
  key_set (tmdb_api_key self) = true ->
  Forall (fun movie => has_id movie = true) results ->
  forall w, http_script w = [] ->
    exists w',
      filter_results self age_ratings results w = (Ok [], w') /\
      http_script w' = [] /\
      messages w' = (messages w ++ map (fun _ => details_error) results)%list.
Proof.
  intros Hkey. induction 1 as [|movie rest Hid _ IH]; intros w Hdown.
  - exists w. simpl. rewrite app_nil_r. auto.
  - unfold has_id in Hid.
    destruct (subscript movie "id") as [movie_id|] eqn:Eid; [|discriminate].
    set (w1 := snd (get_movie_details self movie_id w)).
    assert (Hdet : get_movie_details self movie_id w = (Ok JNull, w1) /\
                   http_script w1 = [] /\
                   messages w1 = (messages w ++ [details_error])%list).
    { subst w1. unfold get_movie_details. rewrite Hkey. cbn [negb].
      unfold except_request, bind, requests_get_json, next_http.
      rewrite Hdown. simpl. auto. }
    destruct Hdet as (Hdet & Hdown1 & Hmsg1).
    destruct (IH w1 Hdown1) as (w' & Hrun & Hdown' & Hmsg').
    exists w'. cbn [filter_results]. unfold bind at 1. unfold lift at 1.
    rewrite Eid. unfold bind at 1. rewrite Hdet. cbn [truthy].
    rewrite Hrun. split; [reflexivity|split; [exact Hdown'|]].
    rewrite Hmsg', Hmsg1, <- app_assoc. reflexivity.
Qed.

(** X9.  With a certification filter and the provider unreachable after it has
    answered the discovery request, discovery returns no movie at all, and
    shows one error message for each movie the provider had listed. *)
Theorem discover_without_details_is_empty (genres : list string)
    (year : option Z) (age_ratings : list string) (sort_by : string) (page : Z)
    (body : json) (items : list json) (w : world) :
  key_set (tmdb_api_key self) = true ->
  age_ratings <> [] ->
  http_script w = [HttpBody body] ->
  method_get body "results" (JList []) = Ok (JList items) ->
  Forall (fun movie => has_id movie = true) items ->
  exists w',
    discover_movies self genres year age_ratings sort_by page w
    = (Ok (JList []), w') /\
    messages w' = (messages w ++ map (fun _ => details_error) items)%list.
Proof.
  intros Hkey Hsome Hscript Hres Hids.
  unfold discover_movies. rewrite Hkey. cbn [negb].
  unfold except_request. unfold bind at 1.
  unfold requests_get_json at 1, next_http. rewrite Hscript. cbn [tl].
  unfold bind at 1. unfold lift at 1. rewrite Hres.
  destruct age_ratings as [|rating ratings]; [contradiction|]. cbn [nonempty andb].
  destruct items as [|item items'].
  - cbn [truthy]. unfold ret. eexists. split; [reflexivity|].
    simpl. rewrite app_nil_r. reflexivity.
  - cbn [truthy]. unfold bind at 1. unfold lift at 1. cbn [py_iter].
    match goal with
    | |- context [bind (filter_results self ?a ?l) _ ?w0] =>
        destruct (filter_results_down a l Hkey Hids w0 eq_refl)
          as (w' & Hrun & _ & Hmsg)
    end.
    unfold bind at 1. rewrite Hrun. unfold ret.
    eexists. split; [reflexivity|]. exact Hmsg.
Qed.

End DetailsDown.

Lemma discover_without_details_is_empty_witness :
  exists w',
    @discover_movies scalar_str tmdb_only [] None ["R"] "popularity.desc" 1
      (replies [HttpBody horror_page]) = (Ok (JList []), w') /\
    messages w' = [details_error; details_error; details_error].
Proof.
  apply (@discover_without_details_is_empty scalar_str tmdb_only [] None ["R"]
           "popularity.desc" 1 horror_page
           [candidate 1 "Rated R" (70 # 10); candidate 2 "Rated PG-13" (65 # 10);
            candidate 3 "No US release" (60 # 10)]
           (replies [HttpBody horror_page])).
  - reflexivity.
  - discriminate.
  - reflexivity.
  - reflexivity.
  - repeat constructor.
Defined.

(** ** The similarity strategy *)

Section SimilarMovies.
Context `{PyStr}.
Variable self : MovieRecommender.

(** X10.  Similarity asks for the movies similar to the top match of the title
    search, and to no other: with a first match that has an identifier, it
    makes exactly two requests, the search and the similar-movies request of
    that identifier, and returns what the second answers under [results];
    when the second request fails it returns the empty list and shows an
    error. *)
Theorem similar_movies_of_top_match (movie_title : string) (page top : json)
    (others : list json) (movie_id : json) (second : http_reply)
    (rest : list http_reply) (w : world) :
  key_set (tmdb_api_key self) = true ->
  http_script w = HttpBody page :: second :: rest ->
  method_get page "results" (JList []) = Ok (JList (top :: others)) ->
  subscript top "id" = Ok movie_id ->
  exists w',
    snd (find_similar_movies self movie_title w) = w' /\
    http_script w' = rest /\
    trace w' =
      (trace w ++
       [HttpGet search_url
          [("api_key", key_json (tmdb_api_key self));
           ("query", JStr movie_title); ("language", JStr "en-US")]
          (HttpBody page);
        HttpGet (similar_url movie_id)
          [("api_key", key_json (tmdb_api_key self));
           ("language", JStr "en-US")]
          second])%list /\
    match second with
    | HttpBody similar =>
        fst (find_similar_movies self movie_title w)
        = method_get similar "results" (JList []) /\
        messages w' = messages w
    | HttpFailure msg =>
        fst (find_similar_movies self movie_title w) = Ok (JList []) /\
        messages w' = (messages w ++ [similar_error msg])%list
    end.
Proof.
  intros Hkey Hscript Hres Hid.
  set (calls := (trace w ++
                 [HttpGet search_url
                    [("api_key", key_json (tmdb_api_key self));
                     ("query", JStr movie_title); ("language", JStr "en-US")]
                    (HttpBody page);
                  HttpGet (similar_url movie_id)
                    [("api_key", key_json (tmdb_api_key self));
                     ("language", JStr "en-US")]
                    second])%list).
  assert (Hrun :
    find_similar_movies self movie_title w
    = match second with
      | HttpBody similar =>
          (method_get similar "results" (JList []),
           {| http_script := rest; gen_script := gen_script w;
              trace := calls; messages := messages w |})
      | HttpFailure msg =>
          (Ok (JList []),
           {| http_script := rest; gen_script := gen_script w;
              trace := calls;
              messages := (messages w ++ [similar_error msg])%list |})
      end).
  { subst calls.
    unfold find_similar_movies. unfold bind at 1.
    unfold search_movies. rewrite Hkey. cbn [negb].
    unfold except_request at 1. unfold bind at 1.
    unfold requests_get_json at 1, next_http. rewrite Hscript. cbn [tl].
    unfold lift at 1. rewrite Hres. cbn [truthy negb].
    unfold bind at 1. unfold lift at 1. cbn [first_result hd].
    unfold bind at 1. unfold lift at 1. rewrite Hid.
    unfold except_request, bind, requests_get_json, next_http, lift.
    cbn [http_script tl gen_script trace messages].
    destruct second as [msg|similar].
    - cbn. rewrite <- app_assoc. reflexivity.
    - cbn [http_script tl gen_script trace messages].
      rewrite <- app_assoc.
      destruct similar as [| | | | | |d]; try reflexivity.
      cbn [method_get]. destruct (dict_get "results" d); reflexivity. }
  rewrite Hrun.
  destruct second as [msg|similar]; eexists; repeat split.
Qed.

(** X11.  When the title search finds nothing (no result, or the search request
    fails), similarity returns the empty list after that one request. *)
Theorem similar_movies_without_match (movie_title : string) (w : world) :
  key_set (tmdb_api_key self) = true ->
  match next_http w with
  | HttpFailure _ => True
  | HttpBody page =>
      exists found, method_get page "results" (JList []) = Ok found /\
                    truthy found = false
  end ->
  fst (find_similar_movies self movie_title w) = Ok (JList []) /\
  http_script (snd (find_similar_movies self movie_title w))
  = tl (http_script w) /\
  length (trace (snd (find_similar_movies self movie_title w)))
  = S (length (trace w)).
Proof.
  intros Hkey Hnext.
  assert (Hrun : exists shown,
    find_similar_movies self movie_title w
    = (Ok (JList []),
       {| http_script := tl (http_script w); gen_script := gen_script w;
          trace := (trace w ++
                    [HttpGet (base_url ++ "/search/movie")
                       [("api_key", key_json (tmdb_api_key self));
                        ("query", JStr movie_title); ("language", JStr "en-US")]
                       (next_http w)])%list;
          messages := shown |})).
  { unfold find_similar_movies. unfold bind at 1.
    unfold search_movies. rewrite Hkey. cbn [negb].
    unfold except_request at 1. unfold bind at 1.
    unfold requests_get_json at 1.
    destruct (next_http w) as [msg|page].
    - eexists. reflexivity.
    - destruct Hnext as (found & Hres & Hfalsy).
      unfold lift at 1. rewrite Hres, Hfalsy. eexists. reflexivity. }
  destruct Hrun as [shown ->]. cbn [fst snd http_script trace].
  rewrite length_app. simpl. repeat split; lia.
Qed.

End SimilarMovies.

Lemma similar_movies_of_top_match_witness :
  let run := @find_similar_movies scalar_str tmdb_only "The Matrix"
               (replies [HttpBody matrix_search; HttpBody matrix_similar]) in
  fst run = Ok (JList [candidate 78 "Blade Runner" (79 # 10);
                       candidate 1891 "The Empire Strikes Back" (84 # 10)]) /\
  exists query,
    nth_error (trace (snd run)) 1
    = Some (HttpGet "https://api.themoviedb.org/3/movie/603/similar" query
              (HttpBody matrix_similar)).
Proof.
  destruct (@similar_movies_of_top_match scalar_str tmdb_only "The Matrix"
              matrix_search matrix
              [candidate 604 "The Matrix Reloaded" (70 # 10)] (JInt 603)
              (HttpBody matrix_similar) []
              (replies [HttpBody matrix_search; HttpBody matrix_similar])
              eq_refl eq_refl eq_refl eq_refl)
    as (w' & Hw & _ & Htrace & Hresult & _).
  split; [exact Hresult|].
  rewrite Hw, Htrace. eexists. reflexivity.
Defined.

Lemma similar_movies_without_match_witness :
  fst (@find_similar_movies scalar_str tmdb_only "zzzz"
         (replies [HttpBody (search_page []); HttpBody matrix_similar]))
  = Ok (JList []) /\
  http_script (snd (@find_similar_movies scalar_str tmdb_only "zzzz"
                      (replies [HttpBody (search_page []);
                                HttpBody matrix_similar])))
  = [HttpBody matrix_similar].
Proof.
  destruct (@similar_movies_without_match scalar_str tmdb_only "zzzz"
              (replies [HttpBody (search_page []); HttpBody matrix_similar])
              eq_refl) as (Hr & Hs & _).
  - exists (JList []). split; reflexivity.
  - split; [exact Hr|exact Hs].
Defined.

(** ** The free-text strategy, step by step *)

Section FreeTextSteps.
Variable self : MovieRecommender.

(** X12.  Without a text-generation key the free-text strategy calls no service:
    it returns the empty list and shows one warning.  With a key and a
    failing generation it makes no title search: it returns the empty list
    and shows the error. *)
Theorem free_text_without_titles (description : string) (w : world) :
  (key_set (gemini_api_key self) = false ->
   get_gemini_recommendations self description w
   = (Ok (JList []),
      {| http_script := http_script w; gen_script := gen_script w;
         trace := trace w;
         messages := (messages w ++ [no_gemini_key_warning])%list |})) /\
  (forall msg,
     key_set (gemini_api_key self) = true ->
     next_gen w = GenFailure msg ->
     get_gemini_recommendations self description w
     = (Ok (JList []),
        {| http_script := http_script w; gen_script := tl (gen_script w);
           trace := (trace w ++ [GenerateContent gemini_model
                                   (gemini_prompt description)
                                   (GenFailure msg)])%list;
           messages := (messages w ++ [StError "Error with Gemini AI: "
                                         (GeminiException msg)])%list |})).
Proof.
  split.
  - intros Hkey. unfold get_gemini_recommendations. rewrite Hkey. reflexivity.
  - intros msg Hkey Hnext. unfold get_gemini_recommendations. rewrite Hkey.
    cbn [negb]. unfold except_any, bind, generate_content_text.
    rewrite Hnext. reflexivity.
Qed.

(** X13.  When the text comes back and the search replies are usable, the titles
    searched are exactly the first five parsed titles, in order, one request
    each, right after the generation call. *)
Theorem free_text_searches_first_five (description text : string) (w : world) :
  key_set (gemini_api_key self) = true ->
  key_set (tmdb_api_key self) = true ->
  next_gen w = GenText text ->
  Forall (fun reply => list_reply reply = true) (http_script w) ->
  exists found searches w',
    get_gemini_recommendations self description w = (Ok (JList found), w') /\
    trace w' = (trace w
                ++ GenerateContent gemini_model (gemini_prompt description)
                     (GenText text)
                :: searches)%list /\
    map searched_title searches = map Some (firstn 5 (parse_titles text)).
Proof.
  intros Hgem Hkey Hnext Hscript.
  unfold get_gemini_recommendations. rewrite Hgem. cbn [negb].
  unfold except_any. unfold bind at 1. unfold generate_content_text.
  rewrite Hnext.
  match goal with
  | |- context [bind (search_titles self ?ts ?acc) _ ?w0] =>
      destruct (search_titles_listed self ts Hkey acc w0 Hscript)
        as (found & searches & w' & Hloop & Htr & Hq)
  end.
  unfold bind at 1. rewrite Hloop. unfold ret.
  exists found, searches, w'. split; [reflexivity|]. split; [|exact Hq].
  rewrite Htr. cbn [trace]. rewrite <- app_assoc. reflexivity.
Qed.

End FreeTextSteps.

Lemma free_text_without_titles_witness :
  fst (get_gemini_recommendations tmdb_only "dark sci-fi thriller with robots"
         robots_world) = Ok (JList []) /\
  fst (get_gemini_recommendations both_keys "dark sci-fi thriller with robots"
         (replies [HttpBody matrix_search])) = Ok (JList []).
Proof.
  destruct (free_text_without_titles tmdb_only "dark sci-fi thriller with robots"
              robots_world) as [Hnokey _].
  destruct (free_text_without_titles both_keys "dark sci-fi thriller with robots"
              (replies [HttpBody matrix_search])) as [_ Hfail].
  rewrite (Hnokey eq_refl), (Hfail unreachable eq_refl eq_refl).
  split; reflexivity.
Defined.

Lemma free_text_searches_first_five_witness :
  exists found searches w',
    get_gemini_recommendations both_keys "dark sci-fi thriller with robots"
      robots_world = (Ok (JList found), w') /\
    trace w' = (trace robots_world
                ++ GenerateContent gemini_model
                     (gemini_prompt "dark sci-fi thriller with robots")
                     (GenText robots_text)
                :: searches)%list /\
    map searched_title searches
    = [Some "Blade Runner"; Some "Ex Machina"; Some "The Terminator";
       Some "I, Robot"; Some "Ghost in the Shell"].
Proof.
  apply (free_text_searches_first_five both_keys
           "dark sci-fi thriller with robots" robots_text robots_world
           eq_refl eq_refl eq_refl).
  repeat constructor.
Defined.

(** ** Parsing the generated text *)

Lemma lstrip_head (s : string) :
  lstrip s = "" \/ exists c r, lstrip s = String c r /\ py_isspace c = false.
Proof.
  induction s as [|c s IH]; simpl; [auto|].
  destruct (py_isspace c) eqn:E; [exact IH|].
  right. exists c, s. auto.
Qed.

Lemma rstrip_head (c : ascii) (s : string) :
  py_isspace c = false -> rstrip (String c s) = String c (rstrip s).
Proof.
  intros Hc. simpl. rewrite Hc. destruct (rstrip s); reflexivity.
Qed.

Lemma rstrip_unfold (c : ascii) (s : string) :
  rstrip (String c s)
  = match rstrip s with
    | EmptyString => if py_isspace c then EmptyString else String c EmptyString
    | String c' r => String c (String c' r)
    end.
Proof. reflexivity. Qed.

Lemma rstrip_idempotent (s : string) : rstrip (rstrip s) = rstrip s.
Proof.
  induction s as [|c s IH]; [reflexivity|].
  rewrite rstrip_unfold.
  destruct (rstrip s) as [|c' r] eqn:E.
  - destruct (py_isspace c) eqn:Hc; [reflexivity|].
    rewrite rstrip_unfold. cbn [rstrip]. rewrite Hc. reflexivity.
  - rewrite rstrip_unfold, IH. reflexivity.
Qed.

Lemma strip_idempotent (s : string) : strip (strip s) = strip s.
Proof.
  unfold strip.
  destruct (lstrip_head s) as [->|(c & r & -> & Hc)]; [reflexivity|].
  rewrite (rstrip_head _ _ Hc). cbn [lstrip]. rewrite Hc.
  rewrite (rstrip_head _ _ Hc), rstrip_idempotent. reflexivity.
Qed.

(** X14.  Every parsed title is a line of the generated text with the white space
    around it removed, is not empty, and has no white space left around it;
    blank lines give no title. *)
Theorem parsed_titles_are_clean (text : string) :
  Forall (fun title =>
            title <> "" /\ strip title = title /\
            exists line, In line (split "010"%char text) /\ title = strip line)
    (parse_titles text).
Proof.
  unfold parse_titles. apply Forall_forall. intros title Hin.
  apply in_map_iff in Hin as (line & <- & Hin).
  apply filter_In in Hin as [Hline Hkeep].
  split; [|split].
  - intros Hempty. rewrite Hempty in Hkeep. discriminate.
  - apply strip_idempotent.
  - exists line. auto.
Qed.

(** ** Saving the session *)

Section Saving.
Context `{PyStr}.

Lemma star_buttons_flow (movie_id rating : json) (pressed : Z -> bool)
    (stars : list Z) (s s' : session_state) (d d' : disk) (f : flow) :
  star_buttons movie_id rating pressed stars s d = Ok (f, s', d') ->
  match f with
  | Rerun =>
      exists i,
        In i stars /\ pressed i = true /\
        item_assign (user_ratings s) (py_str movie_id) (JInt i)
        = Ok (user_ratings s') /\
        favorites s' = favorites s /\
        recommendations s' = recommendations s /\
        dark_mode s' = dark_mode s /\
        d' = save_user_ratings s' d
  | Continue => s' = s /\ d' = d
  end.
Proof.
  induction stars as [|i rest IH]; simpl.
  - intros [= <- <- <-]. auto.
  - intros Hr. run_step Hr.
    destruct (pressed i) eqn:Hp.
    + run_step Hr. injection Hr as <- <- <-. exists i. cbn. auto 10.
    + apply IH in Hr. destruct f; [exact Hr|].
      destruct Hr as (j & Hin & Hrest). exists j. auto.
Qed.

Lemma display_star_rating_flow (movie_id : json) (pressed : Z -> bool)
    (s s' : session_state) (d d' : disk) (f : flow) :
  display_star_rating movie_id pressed s d = Ok (f, s', d') ->
  match f with
  | Rerun =>
      exists i,
        1 <= i <= 5 /\ pressed i = true /\
        item_assign (user_ratings s) (py_str movie_id) (JInt i)
        = Ok (user_ratings s') /\
        favorites s' = favorites s /\
        recommendations s' = recommendations s /\
        dark_mode s' = dark_mode s /\
        d' = save_user_ratings s' d
  | Continue => s' = s /\ d' = d
  end.
Proof.
  unfold display_star_rating. intros Hr. run_step Hr. run_step Hr.
  destruct a0 as [[f0 s0] d0].
  assert (Hsame : (f0, s0, d0) = (f, s', d')).
  { destruct f0; [|injection Hr; intros; subst; reflexivity].
    run_step Hr. run_step Hr. injection Hr; intros; subst; reflexivity. }
  injection Hsame as -> -> ->.
  apply star_buttons_flow in Hval0. destruct f; [exact Hval0|].
  destruct Hval0 as (i & Hin & Hrest). exists i. split; [|exact Hrest].
  simpl in Hin. lia.
Qed.

Lemma add_to_favorites_flow (movie_card : json) (pressed : bool)
    (s s' : session_state) (d d' : disk) (f : flow) :
  add_to_favorites movie_card pressed s d = Ok (f, s', d') ->
  match f with
  | Rerun =>
      method_append (favorites s) movie_card = Ok (favorites s') /\
      d' = save_favorites s' d
  | Continue => s' = s /\ d' = d
  end.
Proof.
  unfold add_to_favorites. intros Hr. run_step Hr. run_step Hr.
  destruct (negb a0); [|injection Hr as <- <- <-; auto].
  run_step Hr.
  destruct pressed; [|injection Hr as <- <- <-; auto].
  run_step Hr. injection Hr as <- <- <-. cbn. auto.
Qed.

(** X15.  Every change of the session is written out at once and whole: after a
    run that stored a rating, added a favorite, removed one or cleared them,
    with a writable file, a new session loads exactly the ratings or the
    favorites of the session, and the other file is as it was.  A run that
    changed nothing leaves session and files as they were. *)
Theorem changes_are_saved (s : session_state) (d : disk) :
  writable d = true ->
  (forall movie_id pressed f s' d',
     display_star_rating movie_id pressed s d = Ok (f, s', d') ->
     match f with
     | Rerun => user_ratings (init_session_state d') = user_ratings s' /\
                favorites (init_session_state d') = load_favorites d
     | Continue => s' = s /\ d' = d
     end) /\
  (forall movie_card pressed f s' d',
     add_to_favorites movie_card pressed s d = Ok (f, s', d') ->
     match f with
     | Rerun => favorites (init_session_state d') = favorites s' /\
                user_ratings (init_session_state d') = load_user_ratings d
     | Continue => s' = s /\ d' = d
     end) /\
  (forall i f s' d',
     remove_favorite i s d = inr (f, s', d') ->
     favorites (init_session_state d') = favorites s' /\
     user_ratings (init_session_state d') = load_user_ratings d) /\
  (forall f s' d',
     clear_favorites s d = (f, s', d') ->
     favorites s' = JList [] /\
     favorites (init_session_state d') = JList [] /\
     user_ratings (init_session_state d') = load_user_ratings d).
Proof.
  intros Hw. repeat split.
  - intros movie_id pressed f s' d' Hr.
    apply display_star_rating_flow in Hr. destruct f; [exact Hr|].
    destruct Hr as (i & _ & _ & _ & _ & _ & _ & ->).
    unfold save_user_ratings. rewrite Hw. split; reflexivity.
  - intros movie_card pressed f s' d' Hr.
    apply add_to_favorites_flow in Hr. destruct f; [exact Hr|].
    destruct Hr as (_ & ->).
    unfold save_favorites. rewrite Hw. split; reflexivity.
  - unfold remove_favorite in H0.
    destruct (method_pop (favorites s) i); [discriminate|].
    injection H0 as <- <- <-.
    unfold save_favorites. rewrite Hw. reflexivity.
  - unfold remove_favorite in H0.
    destruct (method_pop (favorites s) i); [discriminate|].
    injection H0 as <- <- <-.
    unfold save_favorites. rewrite Hw. reflexivity.
  - unfold clear_favorites in H0. injection H0 as <- <- <-. reflexivity.
  - unfold clear_favorites in H0. injection H0 as <- <- <-.
    unfold save_favorites. rewrite Hw. reflexivity.
  - unfold clear_favorites in H0. injection H0 as <- <- <-.
    unfold save_favorites. rewrite Hw. reflexivity.
Qed.

(** X16.  When the files cannot be written the failure is swallowed: the session
    changes, the files keep what they held, and a new session starts from
    the old state. *)
Theorem unwritable_files_keep_old_state (s : session_state) (d : disk) :
  writable d = false ->
  (forall movie_id pressed f s' d',
     display_star_rating movie_id pressed s d = Ok (f, s', d') -> d' = d) /\
  (forall movie_card pressed f s' d',
     add_to_favorites movie_card pressed s d = Ok (f, s', d') -> d' = d) /\
  (forall i f s' d', remove_favorite i s d = inr (f, s', d') -> d' = d) /\
  (forall f s' d', clear_favorites s d = (f, s', d') -> d' = d).
Proof.
  intros Hw. repeat split.
  - intros movie_id pressed f s' d' Hr.
    apply display_star_rating_flow in Hr. destruct f; [apply Hr|].
    destruct Hr as (i & _ & _ & _ & _ & _ & _ & ->).
    unfold save_user_ratings. rewrite Hw. reflexivity.
  - intros movie_card pressed f s' d' Hr.
    apply add_to_favorites_flow in Hr. destruct f; [apply Hr|].
    destruct Hr as (_ & ->).
    unfold save_favorites. rewrite Hw. reflexivity.
  - intros i f s' d'. unfold remove_favorite.
    destruct (method_pop (favorites s) i); [discriminate|].
    intros [= <- <- <-]. unfold save_favorites. rewrite Hw. reflexivity.
  - intros f s' d'. unfold clear_favorites. intros [= <- <- <-].
    unfold save_favorites. rewrite Hw. reflexivity.
Qed.

End Saving.

Lemma changes_are_saved_witness :
  exists s' d',
    add_to_favorites matrix_card true (init_session_state empty_disk) empty_disk
    = Ok (Rerun, s', d') /\
    favorites (init_session_state d') = JList [matrix_card].
Proof.
  destruct (@changes_are_saved scalar_str (init_session_state empty_disk)
              empty_disk eq_refl) as (_ & Hadd & _).
  eexists; eexists. split; [reflexivity|].
  destruct (Hadd matrix_card true Rerun _ _ eq_refl) as [Hfav _].
  exact Hfav.
Defined.

Lemma unwritable_files_keep_old_state_witness :
  exists s' d',
    add_to_favorites matrix_card true (init_session_state readonly_disk)
      readonly_disk = Ok (Rerun, s', d') /\
    favorites s' = JList [matrix_card] /\
    favorites (init_session_state d') = JList [].
Proof.
  destruct (@unwritable_files_keep_old_state scalar_str
              (init_session_state readonly_disk) readonly_disk eq_refl)
    as (_ & Hadd & _).
  eexists; eexists. split; [reflexivity|]. split; [reflexivity|].
  rewrite (Hadd matrix_card true Rerun _ _ eq_refl). reflexivity.
Defined.

(** ** Removing favorites *)

Lemma distinct_ids_subsequence (out favs : list json) :
  subsequence out favs -> distinct_ids favs -> distinct_ids out.
Proof.
  induction 1 as [|x out l Hsub IH|x out l Hsub IH]; simpl.
  - auto.
  - intros [Hx Hl]. split; [|auto].
    apply Forall_forall. intros other Hin.
    rewrite Forall_forall in Hx. apply Hx.
    eapply subsequence_In; eassumption.
  - intros [_ Hl]. auto.
Qed.

Lemma subsequence_refl {A : Type} (l : list A) : subsequence l l.
Proof. induction l; constructor; auto. Qed.

Lemma subsequence_remove {A : Type} (i : nat) (l : list A) :
  subsequence (firstn i l ++ skipn (S i) l) l.
Proof.
  revert i. induction l as [|x l IH]; intros [|i]; simpl.
  - constructor.
  - constructor.
  - constructor. apply subsequence_refl.
  - constructor. apply IH.
Qed.

(** X17.  Removing row [i] of the favorites takes out that entry and no other:
    the entries before and after it stay, in their order, so the list is one
    shorter and identifiers that were pairwise distinct still are; ratings
    are not touched. *)
Theorem remove_favorite_takes_one (i : nat) (s : session_state) (d : disk)
    (favs : list json) :
  favorites s = JList favs ->
  (i < length favs)%nat ->
  exists s' d',
    remove_favorite i s d = inr (Rerun, s', d') /\
    favorites s' = JList (firstn i favs ++ skipn (S i) favs) /\
    S (length (firstn i favs ++ skipn (S i) favs)) = length favs /\
    subsequence (firstn i favs ++ skipn (S i) favs) favs /\
    (distinct_ids favs -> distinct_ids (firstn i favs ++ skipn (S i) favs)) /\
    user_ratings s' = user_ratings s /\
    d' = save_favorites s' d.
Proof.
  intros Hs Hi. unfold remove_favorite, method_pop. rewrite Hs.
  apply Nat.ltb_lt in Hi as Hb. rewrite Hb.
  eexists; eexists. split; [reflexivity|]. cbn [favorites user_ratings].
  repeat split.
  - rewrite length_app, length_firstn, length_skipn. lia.
  - apply subsequence_remove.
  - apply distinct_ids_subsequence, subsequence_remove.
Qed.

Lemma remove_favorite_takes_one_witness :
  exists s' d',
    remove_favorite 0 two_favorites empty_disk = inr (Rerun, s', d') /\
    favorites s' = JList [blade_runner_card] /\
    load_favorites d' = JList [blade_runner_card].
Proof.
  destruct (remove_favorite_takes_one 0 two_favorites empty_disk
              [matrix_card; blade_runner_card] eq_refl ltac:(simpl; lia))
    as (s' & d' & Hrun & Hfav & _ & _ & _ & _ & Hd).
  exists s', d'. split; [exact Hrun|]. split; [exact Hfav|].
  rewrite Hd. unfold save_favorites. simpl. exact Hfav.
Defined.

(** X18.  Adding a card that is not a favorite yet and then removing the last row
    gives back the favorites there were, in the session and in the file. *)
Theorem add_then_remove_last (movie_card : json) (s : session_state) (d : disk)
    (favs : list json) :
  favorites s = JList favs ->
  Forall (fun fav => identified fav = true) favs ->
  identified movie_card = true ->
  existsb (fun fav => same_id fav movie_card) favs = false ->
  exists s1 d1 s2 d2,
    add_to_favorites movie_card true s d = Ok (Rerun, s1, d1) /\
    remove_favorite (length favs) s1 d1 = inr (Rerun, s2, d2) /\
    favorites s2 = favorites s /\
    user_ratings s2 = user_ratings s /\
    (writable d = true -> load_favorites d2 = favorites s).
Proof.
  intros Hs Hfavs Hcard Hnew.
  unfold add_to_favorites. rewrite Hs. cbn [py_iter rbind].
  rewrite (any_same_id_run _ _ Hfavs Hcard), Hnew.
  destruct (identified_id _ Hcard) as (id & Hid & _).
  rewrite Hid. cbn [rbind negb method_append].
  eexists; eexists; eexists; eexists. split; [reflexivity|].
  unfold remove_favorite, method_pop. cbn [favorites].
  assert (Hlt : (length favs <? length (favs ++ [movie_card]))%nat = true).
  { apply Nat.ltb_lt. rewrite length_app. simpl. lia. }
  rewrite Hlt. split; [reflexivity|]. cbn [favorites user_ratings].
  assert (Hback : (firstn (length favs) (favs ++ [movie_card])
                   ++ skipn (S (length favs)) (favs ++ [movie_card]))%list = favs).
  { rewrite skipn_all2 by (rewrite length_app; simpl; lia).
    rewrite firstn_app, Nat.sub_diag, firstn_all. simpl.
    rewrite !app_nil_r. reflexivity. }
  rewrite Hback. repeat split.
  intros Hw. unfold save_favorites. cbn [writable]. rewrite Hw.
  cbn [writable load_favorites favorites_json favorites]. reflexivity.
Qed.

Lemma add_then_remove_last_witness :
  exists s1 d1 s2 d2,
    add_to_favorites (candidate 348 "Alien" (81 # 10)) true two_favorites empty_disk
    = Ok (Rerun, s1, d1) /\
    remove_favorite 2 s1 d1 = inr (Rerun, s2, d2) /\
    favorites s2 = favorites two_favorites /\
    user_ratings s2 = user_ratings two_favorites /\
    (writable empty_disk = true -> load_favorites d2 = favorites two_favorites).
Proof.
  apply (add_then_remove_last (candidate 348 "Alien" (81 # 10)) two_favorites
           empty_disk [matrix_card; blade_runner_card] eq_refl).
  - repeat constructor.
  - reflexivity.
  - reflexivity.
Defined.

(** ** One rating per movie *)

Lemma dict_set_keys (key : string) (v : json) (d : list (string * json)) :
  map fst (dict_set key v d)
  = match dict_get key d with
    | Some _ => map fst d
    | None => (map fst d ++ [key])%list
    end.
Proof.
  induction d as [|[k x] d IH]; simpl; [reflexivity|].
  destruct (String.eqb k key) eqn:E; simpl; [reflexivity|].
  rewrite IH. destruct (dict_get key d); reflexivity.
Qed.

Lemma dict_get_none_keys (key : string) (d : list (string * json)) :
  dict_get key d = None -> ~ In key (map fst d).
Proof.
  induction d as [|[k x] d IH]; simpl; [auto|].
  destruct (String.eqb k key) eqn:E; [discriminate|].
  intros Hn [Hk|Hin]; [|exact (IH Hn Hin)].
  subst k. rewrite String.eqb_refl in E. discriminate.
Qed.

Section OneRating.
Context `{PyStr}.

(** X19.  A run of the star widget that stores a rating changes the entry of that
    movie and nothing else: the movie reads as the pressed star, a number
    from 1 to 5; every other key of the ratings reads as before; a movie
    rated again keeps its one entry, a movie rated for the first time gets
    one new entry at the end; favorites are not touched. *)
Theorem rating_changes_one_entry (movie_id : json) (pressed : Z -> bool)
    (s s' : session_state) (d d' : disk) (ratings : list (string * json)) :
  user_ratings s = JDict ratings ->
  display_star_rating movie_id pressed s d = Ok (Rerun, s', d') ->
  exists i ratings',
    1 <= i <= 5 /\ pressed i = true /\
    user_ratings s' = JDict ratings' /\
    dict_get (py_str movie_id) ratings' = Some (JInt i) /\
    (forall key, key <> py_str movie_id ->
                 dict_get key ratings' = dict_get key ratings) /\
    map fst ratings'
    = match dict_get (py_str movie_id) ratings with
      | Some _ => map fst ratings
      | None => (map fst ratings ++ [py_str movie_id])%list
      end /\
    (NoDup (map fst ratings) -> NoDup (map fst ratings')) /\
    favorites s' = favorites s.
Proof.
  intros Hs Hr. apply display_star_rating_flow in Hr.
  destruct Hr as (i & Hi & Hp & Hset & Hfav & _).
  rewrite Hs in Hset. cbn [item_assign] in Hset. injection Hset as Hset.
  exists i, (dict_set (py_str movie_id) (JInt i) ratings).
  repeat split; auto; try lia.
  - apply dict_get_set_same.
  - intros key Hne. apply dict_get_set_other. exact Hne.
  - apply dict_set_keys.
  - intros Hnd. rewrite dict_set_keys.
    destruct (dict_get (py_str movie_id) ratings) eqn:E; [exact Hnd|].
    apply NoDup_app; [exact Hnd|repeat constructor; auto|].
    intros key Hin [<-|[]]. exact (dict_get_none_keys _ _ E Hin).
Qed.

(** X20.  A stored rating that is not a number, as a file edited by hand can hold,
    makes the star widget raise [TypeError] before any button is drawn; a
    ratings value that is not a dict makes it raise [AttributeError].  In
    both cases no star can be pressed. *)
Theorem unreadable_rating_raises (movie_id : json) (pressed : Z -> bool)
    (s : session_state) (d : disk) :
  (forall ratings x,
     user_ratings s = JDict ratings ->
     dict_get (py_str movie_id) ratings = Some x ->
     number x = None ->
     display_star_rating movie_id pressed s d = Raise TypeError) /\
  ((forall ratings, user_ratings s <> JDict ratings) ->
   display_star_rating movie_id pressed s d = Raise AttributeError).
Proof.
  split.
  - intros ratings x Hs Hx Hnum.
    unfold display_star_rating, current_rating. rewrite Hs. cbn [method_get].
    rewrite Hx. cbn [rbind star_buttons]. unfold py_int_le. rewrite Hnum.
    reflexivity.
  - intros Hnot. unfold display_star_rating, current_rating.
    destruct (user_ratings s) as [| | | | | |ratings]; try reflexivity.
    exfalso. apply (Hnot ratings). reflexivity.
Qed.

End OneRating.

Lemma rating_changes_one_entry_witness :
  exists i ratings',
    1 <= i <= 5 /\
    user_ratings (snd (fst (match @display_star_rating scalar_str (JInt 78)
                                    (Z.eqb 3) two_favorites empty_disk with
                            | Ok after => after
                            | Raise _ => (Continue, two_favorites, empty_disk)
                            end)))
    = JDict ratings' /\
    dict_get "78" ratings' = Some (JInt i) /\
    dict_get "603" ratings' = Some (JInt 5) /\
    map fst ratings' = ["603"; "78"].
Proof.
  destruct (@rating_changes_one_entry scalar_str (JInt 78) (Z.eqb 3)
              two_favorites _ empty_disk _ [("603", JInt 5)] eq_refl eq_refl)
    as (i & ratings' & Hi & _ & Hs & Hget & Hother & Hkeys & _).
  exists i, ratings'. split; [exact Hi|]. split; [exact Hs|].
  split; [exact Hget|]. split; [|exact Hkeys].
  rewrite Hother; [reflexivity|discriminate].
Defined.

Lemma unreadable_rating_raises_witness :
  @display_star_rating scalar_str (JInt 603) (Z.eqb 4)
    (init_session_state text_rating_disk) text_rating_disk = Raise TypeError /\
  @display_star_rating scalar_str (JInt 603) (Z.eqb 4)
    (init_session_state list_rating_disk) list_rating_disk = Raise AttributeError.
Proof.
  destruct (@unreadable_rating_raises scalar_str (JInt 603) (Z.eqb 4)
              (init_session_state text_rating_disk) text_rating_disk)
    as [Htext _].
  destruct (@unreadable_rating_raises scalar_str (JInt 603) (Z.eqb 4)
              (init_session_state list_rating_disk) list_rating_disk)
    as [_ Hlist].
  split.
  - apply (Htext [("603", JStr "five")] (JStr "five")); reflexivity.
  - apply Hlist. intros ratings. discriminate.
Defined.

(** ** Candidates the stage cannot rate *)

Lemma keep_rated_first_unrated (min_rating : Q) (before after : list json)
    (bad : json) :
  Forall (fun movie => rated_candidate movie = true) before ->
  rated_candidate bad = false ->
  keep_rated min_rating (before ++ bad :: after)
  = Raise (match bad with JDict _ => TypeError | _ => AttributeError end).
Proof.
  intros Hb Hbad. induction Hb as [|movie rest Hm _ IH]; simpl.
  - destruct bad as [| | | | |l|d]; try reflexivity. simpl in *.
    destruct (dict_get "vote_average" d) as [v|]; [|discriminate].
    simpl. unfold py_ge. destruct (number v); [discriminate|reflexivity].
  - destruct (rated_candidate_rating movie Hm) as (v & x & Hget & Hnum & _).
    rewrite Hget. simpl. unfold py_ge. rewrite Hnum. simpl.
    rewrite IH. reflexivity.
Qed.

(** X21.  The stage rates every candidate before it cuts the list: it returns
    exactly when every candidate is a dict whose [vote_average], if any, is a
    number.  Otherwise the first candidate it cannot rate makes it raise,
    [TypeError] for a rating that is not a number and [AttributeError] for a
    candidate that is not a dict, wherever that candidate stands, also past
    the first [max_results]. *)
Theorem filter_stage_rates_every_candidate (candidates : list json)
    (min_rating : Q) (max_results : nat) :
  ((exists out,
      filtered_recommendations (JList candidates) min_rating max_results = Ok out)
   <-> Forall (fun movie => rated_candidate movie = true) candidates) /\
  (forall before bad after,
     candidates = (before ++ bad :: after)%list ->
     Forall (fun movie => rated_candidate movie = true) before ->
     rated_candidate bad = false ->
     filtered_recommendations (JList candidates) min_rating max_results
     = Raise (match bad with JDict _ => TypeError | _ => AttributeError end)).
Proof.
  split; [split|].
  - intros [out Hout]. unfold filtered_recommendations in Hout. simpl in Hout.
    destruct (keep_rated min_rating candidates) as [kept|] eqn:E; [|discriminate].
    eapply keep_rated_returns. exact E.
  - intros Hall. eexists. unfold filtered_recommendations. simpl.
    rewrite (keep_rated_filter _ _ Hall). reflexivity.
  - intros before bad after -> Hb Hbad.
    unfold filtered_recommendations. simpl.
    rewrite (keep_rated_first_unrated _ _ _ _ Hb Hbad). reflexivity.
Qed.

Lemma filter_stage_rates_every_candidate_witness :
  filtered_recommendations
    (JList [candidate 603 "The Matrix" (82 # 10);
            JDict [("id", JInt 7); ("vote_average", JNull)]])
    0 1 = Raise TypeError.
Proof.
  destruct (filter_stage_rates_every_candidate
              [candidate 603 "The Matrix" (82 # 10);
               JDict [("id", JInt 7); ("vote_average", JNull)]] 0 1)
    as [_ Hbad].
  apply (Hbad [candidate 603 "The Matrix" (82 # 10)]
           (JDict [("id", JInt 7); ("vote_average", JNull)]) []).
  - reflexivity.
  - repeat constructor.
  - reflexivity.
Defined.

(** ** The fields of a card *)

Section CardFields.
Context `{PyStr}.
Variable self : MovieRecommender.

Lemma format_movie_card_fields (movie card : json) (w w' : world) :
  format_movie_card self movie w = (Ok card, w') ->
  subscript card "id" = subscript movie "id" /\
  subscript card "rating" = method_get movie "vote_average" (JInt 0) /\
  subscript card "title" = method_get movie "title" (JStr "Unknown Title") /\
  subscript card "overview"
  = method_get movie "overview" (JStr "No description available.") /\
  subscript card "poster_url"
  = Ok (JStr (if truthy (field_or_null "poster_path" movie)
              then image_base_url ++ py_str (field_or_null "poster_path" movie)
              else poster_placeholder)) /\
  subscript card "year"
  = (if truthy (field_or_null "release_date" movie)
     then slice_to 4 (field_or_null "release_date" movie)
     else Ok (JStr "N/A")) /\
  exists fields, card = JDict fields /\ map fst fields = card_keys.
Proof.
  unfold format_movie_card. intros Hr.
  run_step Hr. lift_step Hrun.
  apply method_get_Ok in Hval as (m & -> & ->).
  run_step Hr.
  assert (Hposter :
            a = (if truthy (field_or_null "poster_path" (JDict m))
                 then image_base_url
                      ++ py_str (field_or_null "poster_path" (JDict m))
                 else poster_placeholder) /\ w0 = w).
  { unfold field_or_null.
    destruct (dict_get "poster_path" m) as [p|] eqn:Ep.
    - destruct (truthy p).
      + run_step Hrun. lift_step Hrun0. lift_step Hrun.
        simpl in Hval. rewrite Ep in Hval. injection Hval as <-. auto.
      + lift_step Hrun. auto.
    - cbn [truthy] in *. lift_step Hrun. auto. }
  destruct Hposter as [-> ->]. clear Hrun.
  run_step Hr. lift_step Hrun.
  run_step Hr. clear Hrun.
  run_step Hr. lift_step Hrun.
  run_step Hr. clear Hrun.
  run_step Hr. lift_step Hrun.
  run_step Hr. clear Hrun.
  run_step Hr. lift_step Hrun.
  run_step Hr. lift_step Hrun.
  match goal with
  | Hrel : method_get (JDict m) "release_date" JNull = Ok ?rd |- _ =>
      apply method_get_Ok in Hrel as (m' & Hm' & Hrd);
      injection Hm' as <-; subst rd
  end.
  run_step Hr.
  assert (Hy : (if truthy (field_or_null "release_date" (JDict m))
                then slice_to 4 (field_or_null "release_date" (JDict m))
                else Ok (JStr "N/A")) = Ok a6 /\ w3 = w2).
  { unfold field_or_null.
    destruct (dict_get "release_date" m) as [rd0|] eqn:Erd.
    - destruct (truthy rd0).
      + run_step Hrun. lift_step Hrun0. lift_step Hrun.
        match goal with
        | Hv : method_get (JDict m) "release_date" (JStr "") = Ok _ |- _ =>
            simpl in Hv; rewrite Erd in Hv; injection Hv as <-
        end.
        auto.
      + lift_step Hrun. auto.
    - cbn [truthy] in *. lift_step Hrun. auto. }
  destruct Hy as [Hy ->]. clear Hrun.
  run_step Hr. lift_step Hrun.
  run_step Hr. lift_step Hrun.
  run_step Hr. lift_step Hrun.
  run_step Hr. lift_step Hrun.
  lift_step Hr.
  repeat match goal with
         | Heq : _ = Ok ?x |- _ => rewrite Heq; clear Heq
         end.
  repeat split. eexists. split; reflexivity.
Qed.

(** X22.  A card takes its identifier, rating, title and overview from the
    candidate, with 0, 'Unknown Title' and 'No description available.' for
    the ones the candidate lacks; its poster is the image URL of the
    candidate's poster path, or the placeholder when the candidate has none;
    its year is the first four characters of the release date, or 'N/A'
    without one.  It has its nine fields in a fixed order. *)
Theorem card_fields_from_candidate (movie card : json) (w w' : world) :
  format_movie_card self movie w = (Ok card, w') ->
  subscript card "id" = subscript movie "id" /\
  subscript card "rating" = method_get movie "vote_average" (JInt 0) /\
  subscript card "title" = method_get movie "title" (JStr "Unknown Title") /\
  subscript card "overview"
  = method_get movie "overview" (JStr "No description available.") /\
  subscript card "poster_url"
  = Ok (JStr (if truthy (field_or_null "poster_path" movie)
              then image_base_url ++ py_str (field_or_null "poster_path" movie)
              else poster_placeholder)) /\
  subscript card "year"
  = (if truthy (field_or_null "release_date" movie)
     then slice_to 4 (field_or_null "release_date" movie)
     else Ok (JStr "N/A")) /\
  exists fields, card = JDict fields /\ map fst fields = card_keys.
Proof.
  apply format_movie_card_fields.
Qed.

(** X23.  A card built from a candidate whose identifier is an [int] or a [str]
    can be added to favorites: on favorites that all carry identifiers the
    add returns, appends the card when no favorite has its identifier, and
    changes nothing when one has. *)
Theorem card_can_be_added (movie card : json) (w w' : world)
    (s : session_state) (d : disk) (favs : list json) (movie_id : json) :
  format_movie_card self movie w = (Ok card, w') ->
  subscript movie "id" = Ok movie_id ->
  identifier movie_id = true ->
  favorites s = JList favs ->
  Forall (fun fav => identified fav = true) favs ->
  identified card = true /\
  exists f s' d',
    add_to_favorites card true s d = Ok (f, s', d') /\
    favorites s'
    = JList (if existsb (fun fav => same_id fav card) favs
             then favs else favs ++ [card])%list.
Proof.
  intros Hcard Hid Hident Hs Hfavs.
  apply format_movie_card_fields in Hcard as (Hcid & _).
  assert (Hc : identified card = true).
  { unfold identified. rewrite Hcid, Hid. exact Hident. }
  split; [exact Hc|].
  unfold add_to_favorites. rewrite Hs. cbn [py_iter rbind].
  rewrite (any_same_id_run _ _ Hfavs Hc). cbn [rbind].
  destruct (existsb (fun fav => same_id fav card) favs); cbn [negb].
  - exists Continue, s, d. auto.
  - rewrite Hcid, Hid. cbn [method_append rbind]. eexists; eexists; eexists.
    split; reflexivity.
Qed.

End CardFields.

Lemma card_fields_from_candidate_witness :
  subscript matrix_card "id" = subscript matrix "id" /\
  subscript matrix_card "year" = Ok (JStr "1999") /\
  subscript matrix_card "poster_url"
  = Ok (JStr "https://image.tmdb.org/t/p/w500/matrix.jpg").
Proof.
  destruct (@card_fields_from_candidate scalar_str tmdb_only matrix matrix_card
              (replies [HttpBody matrix_details; HttpBody matrix_providers;
                        HttpBody teaser_then_trailer]) _ eq_refl)
    as (Hid & _ & _ & _ & Hposter & Hyear & _).
  split; [exact Hid|]. split; [exact Hyear|exact Hposter].
Defined.

(** ** The requests behind a card *)

Section CardRequests.
Context `{PyStr}.
Variable self : MovieRecommender.
Hypothesis key : key_set (tmdb_api_key self) = true.

Lemma get_movie_details_one_call (movie_id : json) (w w' : world) (r : result json) :
  get_movie_details self movie_id w = (r, w') ->
  exists params,
    trace w' = (trace w ++ [HttpGet (details_url movie_id) params (next_http w)])%list /\
    http_script w' = tl (http_script w).
Proof.
  unfold get_movie_details. rewrite key. cbn [negb].
  unfold except_request, bind, requests_get_json, st_error, ret.
  destruct (next_http w); intros [= <- <-]; eexists; split; reflexivity.
Qed.

Lemma get_streaming_providers_one_call (movie_id : json) (w w' : world)
    (r : result json) :
  get_streaming_providers self movie_id w = (r, w') ->
  exists params,
    trace w' = (trace w ++ [HttpGet (providers_url movie_id) params (next_http w)])%list /\
    http_script w' = tl (http_script w).
Proof.
  unfold get_streaming_providers. rewrite key. cbn [negb].
  unfold except_request, bind, requests_get_json, lift, ret.
  destruct (next_http w) as [msg|data].
  - intros [= <- <-]; eexists; split; reflexivity.
  - destruct (method_get data "results" (JDict [])) as [results|[]];
      try (intros [= <- <-]; eexists; split; reflexivity).
    destruct (method_get results "US" (JDict [])) as [us|[]];
      try (intros [= <- <-]; eexists; split; reflexivity).
    destruct (providers_by_type _ us) as [providers|[]];
      intros [= <- <-]; eexists; split; reflexivity.
Qed.

Lemma get_movie_trailer_one_call (movie_id : json) (w w' : world)
    (r : result json) :
  get_movie_trailer self movie_id w = (r, w') ->
  exists params,
    trace w' = (trace w ++ [HttpGet (videos_url movie_id) params (next_http w)])%list /\
    http_script w' = tl (http_script w).
Proof.
  unfold get_movie_trailer. rewrite key. cbn [negb].
  unfold except_request, bind, requests_get_json, lift, ret.
  destruct (next_http w) as [msg|response].
  - intros [= <- <-]; eexists; split; reflexivity.
  - destruct (method_get response "results" (JList [])) as [videos|[]];
      try (intros [= <- <-]; eexists; split; reflexivity).
    destruct (py_iter videos) as [items|[]];
      try (intros [= <- <-]; eexists; split; reflexivity).
    destruct (find_trailer items) as [found|[]];
      intros [= <- <-]; eexists; split; reflexivity.
Qed.

(** X24.  Building one card costs three requests, in this order: the details of
    the candidate, its streaming providers, its videos; each of them is for
    the candidate's own identifier, and the three consume the next three
    replies. *)
Theorem card_costs_three_requests (movie card : json) (w w' : world) :
  format_movie_card self movie w = (Ok card, w') ->
  exists movie_id p1 p2 p3 r1 r2 r3,
    subscript movie "id" = Ok movie_id /\
    trace w' = (trace w ++ [HttpGet (details_url movie_id) p1 r1;
                            HttpGet (providers_url movie_id) p2 r2;
                            HttpGet (videos_url movie_id) p3 r3])%list /\
    http_script w' = tl (tl (tl (http_script w))).
Proof.
  unfold format_movie_card. intros Hr.
  run_step Hr. lift_step Hrun.
  run_step Hr.
  assert (w0 = w) as ->.
  { destruct (truthy a); [run_step Hrun; lift_step Hrun0|]; lift_step Hrun;
      reflexivity. }
  clear Hrun.
  run_step Hr. lift_step Hrun.
  run_step Hr. apply get_movie_details_one_call in Hrun as (p1 & Ht1 & Hs1).
  run_step Hr. lift_step Hrun.
  run_step Hr. apply get_streaming_providers_one_call in Hrun as (p2 & Ht2 & Hs2).
  run_step Hr. lift_step Hrun.
  run_step Hr. apply get_movie_trailer_one_call in Hrun as (p3 & Ht3 & Hs3).
  run_step Hr. lift_step Hrun.
  run_step Hr. lift_step Hrun.
  run_step Hr.
  match type of Hrun with
  | (if truthy ?rd then _ else _) ?wa = (_, ?wb) =>
      assert (wb = wa) as ->
        by (destruct (truthy rd); [run_step Hrun; lift_step Hrun0|];
            lift_step Hrun; reflexivity)
  end.
  clear Hrun.
  run_step Hr. lift_step Hrun.
  run_step Hr. lift_step Hrun.
  run_step Hr. lift_step Hrun.
  run_step Hr. lift_step Hrun.
  lift_step Hr.
  repeat match goal with
         | Ha : subscript movie "id" = Ok ?x, Hb : subscript movie "id" = Ok ?y |- _ =>
             rewrite Ha in Hb; injection Hb as <-
         end.
  do 7 eexists. split; [eassumption|]. split.
  - rewrite Ht3, Ht2, Ht1, <- !app_assoc. reflexivity.
  - rewrite Hs3, Hs2, Hs1. reflexivity.
Qed.

End CardRequests.

Lemma card_costs_three_requests_witness :
  let w := replies [HttpBody matrix_details; HttpBody matrix_providers;
                    HttpBody teaser_then_trailer; HttpBody matrix_similar] in
  exists movie_id p1 p2 p3 r1 r2 r3,
    subscript matrix "id" = Ok movie_id /\
    trace (snd (@format_movie_card scalar_str tmdb_only matrix w))
    = (trace w ++ [HttpGet (@details_url scalar_str movie_id) p1 r1;
                   HttpGet (@providers_url scalar_str movie_id) p2 r2;
                   HttpGet (@videos_url scalar_str movie_id) p3 r3])%list /\
    http_script (snd (@format_movie_card scalar_str tmdb_only matrix w))
    = [HttpBody matrix_similar].
Proof.
  apply (@card_costs_three_requests scalar_str tmdb_only eq_refl matrix matrix_card).
  reflexivity.
Defined.

Section CardOffline.
Context `{PyStr}.
Variable self : MovieRecommender.

Lemma offline_enrichment (movie_id : json) (w : world) :
  key_set (tmdb_api_key self) = true ->
  http_script w = [] ->
  exists w1 w2 w3,
    get_movie_details self movie_id w = (Ok JNull, w1) /\
    get_streaming_providers self movie_id w1 = (Ok (JList []), w2) /\
    get_movie_trailer self movie_id w2 = (Ok JNull, w3) /\
    http_script w3 = [] /\
    messages w3 = (messages w ++ [details_error])%list.
Proof.
  intros Hkey Hdown.
  unfold get_movie_details, get_streaming_providers, get_movie_trailer.
  rewrite Hkey. cbn [negb].
  unfold except_request, bind, requests_get_json, next_http, st_error, ret.
  rewrite Hdown. cbn.
  eexists; eexists; eexists. repeat split.
Qed.

Lemma bind_intro {A B : Type} (m : M A) (k : A -> M B) (w w1 : world) (a : A)
    (r : result B * world) :
  m w = (Ok a, w1) -> k a w1 = r -> bind m k w = r.
Proof.
  intros Hm Hk. unfold bind. rewrite Hm. exact Hk.
Qed.

Lemma method_get_dict (d : list (string * json)) (key : string) (default : json) :
  method_get (JDict d) key default
  = Ok (match dict_get key d with Some x => x | None => default end).
Proof.
  simpl. destruct (dict_get key d); reflexivity.
Qed.

(** X25.  A card is still built when the provider cannot be reached: for a
    candidate with an identifier, the card comes back with 'Not Rated', no
    streaming providers and no trailer, and the one message shown is the
    error of the details request; the failures of the providers and trailer
    requests are not shown. *)
Theorem card_without_network (movie : json) (w : world) :
  key_set (tmdb_api_key self) = true ->
  http_script w = [] ->
  card_source movie = true ->
  exists card w',
    format_movie_card self movie w = (Ok card, w') /\
    subscript card "age_rating" = Ok (JStr not_rated) /\
    subscript card "streaming_providers" = Ok (JList []) /\
    subscript card "trailer_url" = Ok JNull /\
    subscript card "id" = subscript movie "id" /\
    messages w' = (messages w ++ [details_error])%list.
Proof.
  intros Hkey Hdown Hsource.
  destruct movie as [| | | | | |m]; try discriminate. simpl in Hsource.
  destruct (dict_get "id" m) as [movie_id|] eqn:Eid; [|discriminate].
  destruct (offline_enrichment movie_id w Hkey Hdown)
    as (w1 & w2 & w3 & Hd & Hp & Ht & _ & Hmsg).
  assert (Hid : forall w0, lift (subscript (JDict m) "id") w0 = (Ok movie_id, w0)).
  { intros w0. unfold lift. cbn [subscript]. rewrite Eid. reflexivity. }
  assert (Hget : forall key default w0,
             lift (method_get (JDict m) key default) w0
             = (Ok (match dict_get key m with Some x => x | None => default end),
                w0)).
  { intros. unfold lift. rewrite method_get_dict. reflexivity. }
  assert (Hposter : exists url,
            (if truthy match dict_get "poster_path" m with
                       | Some x => x
                       | None => JNull
                       end
             then bind (lift (method_get (JDict m) "poster_path" (JStr "")))
                    (fun shown => ret (image_base_url ++ py_str shown))
             else ret "https://via.placeholder.com/500x750?text=No+Poster") w
            = (Ok url, w)).
  { destruct (truthy _); [|eexists; reflexivity].
    eexists. eapply bind_intro; [apply Hget|reflexivity]. }
  assert (Hyear : exists year,
            (if truthy match dict_get "release_date" m with
                       | Some x => x
                       | None => JNull
                       end
             then bind (lift (method_get (JDict m) "release_date" (JStr "")))
                    (fun shown => lift (slice_to 4 shown))
             else ret (JStr "N/A")) w3
            = (Ok year, w3)).
  { destruct (dict_get "release_date" m) as [[| | | |date| |]|] eqn:Erd;
      try discriminate; try (eexists; reflexivity).
    destruct (truthy (JStr date)); [|eexists; reflexivity].
    eexists. eapply bind_intro; [apply Hget|]. rewrite Erd. reflexivity. }
  destruct Hposter as [url Hposter]. destruct Hyear as [year Hyear].
  eexists; eexists. split.
  { unfold format_movie_card.
    eapply bind_intro; [apply Hget|].
    eapply bind_intro; [exact Hposter|].
    eapply bind_intro; [apply Hid|].
    eapply bind_intro; [exact Hd|].
    eapply bind_intro; [apply Hid|].
    eapply bind_intro; [exact Hp|].
    eapply bind_intro; [apply Hid|].
    eapply bind_intro; [exact Ht|].
    eapply bind_intro; [apply Hget|].
    eapply bind_intro; [apply Hget|].
    eapply bind_intro; [exact Hyear|].
    eapply bind_intro; [reflexivity|].
    eapply bind_intro; [apply Hget|].
    eapply bind_intro; [apply Hget|].
    eapply bind_intro; [apply Hid|].
    reflexivity. }
  cbn [subscript]. rewrite Eid.
  repeat split; try reflexivity. exact Hmsg.
Qed.

End CardOffline.

Lemma card_without_network_witness :
  exists card w',
    @format_movie_card scalar_str tmdb_only matrix (replies []) = (Ok card, w') /\
    subscript card "age_rating" = Ok (JStr not_rated) /\
    subscript card "streaming_providers" = Ok (JList []) /\
    subscript card "trailer_url" = Ok JNull /\
    subscript card "id" = subscript matrix "id" /\
    messages w' = [details_error].
Proof.
  apply (@card_without_network scalar_str tmdb_only matrix (replies [])
           eq_refl eq_refl eq_refl).
Defined.

Lemma card_can_be_added_witness :
  identified matrix_card = true /\
  exists f s' d',
    add_to_favorites matrix_card true two_favorites empty_disk = Ok (f, s', d') /\
    favorites s' = JList [matrix_card; blade_runner_card].
Proof.
  apply (@card_can_be_added scalar_str tmdb_only matrix matrix_card
           (replies [HttpBody matrix_details; HttpBody matrix_providers;
                     HttpBody teaser_then_trailer]) _
           two_favorites empty_disk [matrix_card; blade_runner_card] (JInt 603)
           eq_refl eq_refl eq_refl eq_refl).
  repeat constructor.
Defined.

(** ** What search and unfiltered discovery return *)

Section Answers.
Context `{PyStr}.
Variable self : MovieRecommender.

(** X26.  A title search makes one request, for that title, and returns what the
    provider lists under [results], the empty list when the answer has no
    such field; nothing is shown.  An answer that is not an object makes it
    raise [AttributeError], which its handler does not catch. *)
Theorem search_returns_results (query : string) (body : json) (w : world) :
  key_set (tmdb_api_key self) = true ->
  next_http w = HttpBody body ->
  search_movies self query w
  = (method_get body "results" (JList []),
     {| http_script := tl (http_script w); gen_script := gen_script w;
        trace := (trace w ++
                  [HttpGet search_url
                     [("api_key", key_json (tmdb_api_key self));
                      ("query", JStr query); ("language", JStr "en-US")]
                     (HttpBody body)])%list;
        messages := messages w |}) /\
  (forall d, body = JDict d ->
     fst (search_movies self query w)
     = Ok (match dict_get "results" d with Some found => found | None => JList [] end)) /\
  ((forall d, body <> JDict d) ->
   fst (search_movies self query w) = Raise AttributeError).
Proof.
  intros Hkey Hnext.
  assert (Hrun : search_movies self query w
                 = (method_get body "results" (JList []),
                    {| http_script := tl (http_script w);
                       gen_script := gen_script w;
                       trace := (trace w ++
                                 [HttpGet search_url
                                    [("api_key", key_json (tmdb_api_key self));
                                     ("query", JStr query);
                                     ("language", JStr "en-US")]
                                    (HttpBody body)])%list;
                       messages := messages w |})).
  { unfold search_movies. rewrite Hkey. cbn [negb].
    unfold except_request, bind, requests_get_json, lift. rewrite Hnext.
    destruct body as [| | | | | |d]; try reflexivity.
    cbn [method_get]. destruct (dict_get "results" d); reflexivity. }
  split; [exact Hrun|]. rewrite Hrun. cbn [fst]. split.
  - intros d ->. apply method_get_dict.
  - intros Hnot. destruct body as [| | | | | |d]; try reflexivity.
    exfalso. apply (Hnot d). reflexivity.
Qed.

(** X27.  Without a certification filter discovery makes the one discovery request
    and returns what the provider lists under [results] as it is: no details
    are fetched and no movie is dropped. *)
Theorem discover_unfiltered (genres : list string) (year : option Z)
    (sort_by : string) (page : Z) (d : list (string * json)) (w : world) :
  key_set (tmdb_api_key self) = true ->
  next_http w = HttpBody (JDict d) ->
  discover_movies self genres year [] sort_by page w
  = (Ok (match dict_get "results" d with Some found => found | None => JList [] end),
     {| http_script := tl (http_script w); gen_script := gen_script w;
        trace := (trace w ++
                  [HttpGet (base_url ++ "/discover/movie")
                     (discover_params self genres year [] sort_by page)
                     (HttpBody (JDict d))])%list;
        messages := messages w |}).
Proof.
  intros Hkey Hnext.
  unfold discover_movies. rewrite Hkey. cbn [negb].
  unfold except_request, bind, requests_get_json, lift. rewrite Hnext.
  rewrite method_get_dict. reflexivity.
Qed.

End Answers.

Lemma search_returns_results_witness :
  fst (search_movies tmdb_only "The Matrix" (replies [HttpBody matrix_search]))
  = Ok (JList [matrix; candidate 604 "The Matrix Reloaded" (70 # 10)]) /\
  fst (search_movies tmdb_only "The Matrix" (replies [HttpBody (JList [])]))
  = Raise AttributeError.
Proof.
  destruct (search_returns_results tmdb_only "The Matrix" matrix_search
              (replies [HttpBody matrix_search]) eq_refl eq_refl)
    as (_ & Hdict & _).
  destruct (search_returns_results tmdb_only "The Matrix" (JList [])
              (replies [HttpBody (JList [])]) eq_refl eq_refl)
    as (_ & _ & Hother).
  split.
  - exact (Hdict _ eq_refl).
  - apply Hother. intros d. discriminate.
Defined.

Lemma discover_unfiltered_witness :
  fst (@discover_movies scalar_str tmdb_only ["Horror"] (Some 2020) []
         "popularity.desc" 1 horror_world)
  = Ok (JList [candidate 1 "Rated R" (70 # 10);
               candidate 2 "Rated PG-13" (65 # 10);
               candidate 3 "No US release" (60 # 10)]).
Proof.
  rewrite (@discover_unfiltered scalar_str tmdb_only ["Horror"] (Some 2020)
             "popularity.desc" 1
             [("page", JInt 1);
              ("results", JList [candidate 1 "Rated R" (70 # 10);
                                 candidate 2 "Rated PG-13" (65 # 10);
                                 candidate 3 "No US release" (60 # 10)])]
             horror_world eq_refl eq_refl).
  reflexivity.
Defined.
